(** * surulere-map: road-network topology and nearest-facility routing

  A shallow embedding of the two pieces of the repository that carry an
  algorithm:

  - [build_topology_in_python] and the road part of [setup_database]
    (shapefiles/upload_data.py), which turn digitised road lines into a
    node table and an annotated edge table;
  - [get_route] and [get_nearest] (app.py), which snap coordinates onto
    that network, ask for a shortest path and fall back to a straight
    line.

  Conventions.  A Python float is modelled by the rational number it
  denotes (type [Q]); NaN and the infinities are outside the model.
  Python integers are unbounded ([nat] for identifiers, [Z] elsewhere).
  Exceptions are an error result.  The GeoDataFrame handed to the builder
  is mutated in place by the source, so the builder is written in
  state-passing style over the contents of that one object.  The geometry
  engine, PostGIS and pgRouting are collaborators outside the repository:
  their functions are the methods of two type classes. *)

From Stdlib Require Import ZArith QArith String Ascii List Lia.
From Stdlib Require Import DecimalString Qabs Lqa.
From stdpp Require Import base option list strings.

Local Open Scope string_scope.

(* ===================================================================== *)
(** ** Python values, exceptions and rounding *)
(* ===================================================================== *)

Module Py.

(** The exceptions the modelled code can raise. *)
Inductive exc :=
| IndexError           (* [seq[0]] on an empty sequence *)
| ValueError           (* pandas: length of values does not match the index *)
| KeyError             (* [d[k]] for a key the dict does not hold *)
| TypeError.           (* subscripting or rounding [None] *)

Inductive result (A : Type) :=
| Ok (a : A)
| Raise (e : exc).
Arguments Ok {A} a.
Arguments Raise {A} e.

Definition bind {A B} (m : result A) (k : A -> result B) : result B :=
  match m with
  | Ok a => k a
  | Raise e => Raise e
  end.

(** Round to the nearest integer, ties to the even one: what [round]
    does on the exact value of a float. *)
Definition round_half_even (q : Q) : Z :=
  let n := Qnum q in
  let d := Z.pos (Qden q) in
  let fl := (n / d)%Z in
  let r := (n mod d)%Z in
  match (2 * r ?= d)%Z with
  | Lt => fl
  | Gt => (fl + 1)%Z
  | Eq => if Z.even fl then fl else (fl + 1)%Z
  end.

(** [round(x)]: a Python int. *)
Definition round (x : Q) : Z := round_half_even x.

(** [round(x, ndigits)].  Python rounds the exact value of [x] to the
    nearest decimal with [ndigits] digits, ties to even, and returns the
    float nearest to that decimal.  The model keeps the decimal itself,
    written over the fixed denominator [10^ndigits].  For values of the
    size of a coordinate floats lie far closer together than
    [10^-ndigits], so two results are the same float exactly when they
    are the same decimal: that is all the dict keys of the builder and
    the text of a JSON number depend on.  The float returned is off the
    decimal by less than one part in [2^52]; whatever is stated below of
    the distance between a rounded value and its argument leaves more
    room than that. *)
Definition round_ndigits (x : Q) (ndigits : nat) : Q :=
  let scale := Z.to_pos (10 ^ Z.of_nat ndigits) in
  Qmake (round_half_even (x * (Z.pos scale # 1))) scale.

(** [str(n)] for an int, as used by an f-string. *)
Definition str (n : Z) : string := NilZero.string_of_int (Z.to_int n).

(** A text is held as the bytes of its UTF-8 encoding.  A byte of the
    form [10xxxxxx] continues the character the bytes before it began. *)
Definition continuation_byte (c : ascii) : bool :=
  let n := nat_of_ascii c in
  (128 <=? n)%nat && (n <? 192)%nat.

(** [len(s)] for a str: the number of its characters, not of its
    bytes. *)
Fixpoint len (s : string) : nat :=
  match s with
  | EmptyString => 0%nat
  | String c rest => if continuation_byte c then len rest else S (len rest)
  end.

End Py.

Import Py.

(** [result] is an error monad; [x ← m; k] is stdpp's bind notation. *)
#[global] Instance result_ret : MRet result := @Ok.
#[global] Instance result_bind : MBind result := fun A B k m => Py.bind m k.

#[global] Instance Q_eq_dec : EqDecision Q.
Proof.
intros [a b] [c d].
destruct (decide (a = c)) as [->|Hn]; [|right; congruence].
destruct (decide (b = d)) as [->|Hd]; [left; reflexivity|right; congruence].
Defined.

(* ===================================================================== *)
(** ** Geometries (shapely) *)
(* ===================================================================== *)

Module Shapely.

(** A coordinate pair [(x, y)] = (longitude, latitude). *)
Definition Coord : Type := Q * Q.

(** The geometries a road layer can hold.  [LineString] stands for every
    geometry that has a coordinate sequence of its own; [MultiLineString]
    is a sequence of such parts; [OtherGeometry] is any other geometry
    without a coordinate sequence of its own (polygon, multi-point,
    collection), of which only the type name and emptiness matter. *)
Inductive OtherType := Polygon | MultiPoint | MultiPolygon | GeometryCollection.

Inductive Geometry :=
| LineString (coords : list Coord)
| MultiLineString (geoms : list (list Coord))
| OtherGeometry (kind : OtherType) (empty : bool).

(** [geom.is_empty]: no coordinates at all. *)
Definition is_empty (g : Geometry) : bool :=
  match g with
  | LineString cs => bool_decide (cs = [])
  | MultiLineString parts => forallb (fun p => bool_decide (p = [])) parts
  | OtherGeometry _ e => e
  end.

(** [geom.geom_type]. *)
Definition geom_type_of (g : Geometry) : string :=
  match g with
  | LineString _ => "LineString"
  | MultiLineString _ => "MultiLineString"
  | OtherGeometry Polygon _ => "Polygon"
  | OtherGeometry MultiPoint _ => "MultiPoint"
  | OtherGeometry MultiPolygon _ => "MultiPolygon"
  | OtherGeometry GeometryCollection _ => "GeometryCollection"
  end.

(** [geom.coords]: [None] stands for [NotImplementedError], raised by
    every geometry that has no coordinate sequence of its own. *)
Definition coords_of (g : Geometry) : option (list Coord) :=
  match g with
  | LineString cs => Some cs
  | _ => None
  end.

(** [geom.geoms] of a multi-part geometry. *)
Definition geoms_of (g : Geometry) : list (list Coord) :=
  match g with
  | MultiLineString parts => parts
  | _ => []
  end.

(** [seq[0]] and [seq[-1]]. *)
Definition item_first {A} (l : list A) : result A :=
  match l with
  | [] => Raise IndexError
  | x :: _ => Ok x
  end.

Definition item_last {A} (l : list A) : result A :=
  match last l with
  | None => Raise IndexError
  | Some x => Ok x
  end.

(** The engines that measure a geometry: shapely's [geom.length] (planar,
    in the units of the coordinates) and PostGIS's
    [ST_Length(geom::geography)] (over the earth's surface, in metres). *)
Class LengthEngine := {
  length_planar : Geometry -> Q;
  ST_Length_geography : Geometry -> Q
}.

End Shapely.

Import Shapely.

(* ===================================================================== *)
(** ** The topology builder (shapefiles/upload_data.py) *)
(* ===================================================================== *)

Module Topology.

(** A rounded coordinate pair, the key of the [nodes] dict. *)
Definition Key : Type := Q * Q.

(** [(round(c[0], 6), round(c[1], 6))]. *)
Definition rounded (c : Coord) : Key :=
  (round_ndigits (fst c) 6, round_ndigits (snd c) 6).

(** A cell of an attribute column. *)
Inductive Value :=
| VNone
| VInt (n : nat)
| VFloat (x : Q)
| VStr (s : string).

(** The GeoDataFrame the builder is given: the active geometry column
    (one entry per row, [None] for a missing geometry) and the other
    columns by name, in column order.  At the call site the geometry
    column is named [geom], never one of the names the builder writes. *)
Record GeoDataFrame := {
  geometry : list (option Geometry);
  columns : list (string * list Value)
}.

Definition n_rows (gdf : GeoDataFrame) : nat := length (geometry gdf).

(** Replace the column of that name where it stands, or add it last. *)
Fixpoint assign (name : string) (vals : list Value)
    (cols : list (string * list Value)) : list (string * list Value) :=
  match cols with
  | [] => [(name, vals)]
  | (n, old) :: rest =>
      if decide (n = name) then (n, vals) :: rest
      else (n, old) :: assign name vals rest
  end.

Fixpoint column (name : string) (cols : list (string * list Value))
    : option (list Value) :=
  match cols with
  | [] => None
  | (n, vals) :: rest =>
      if decide (n = name) then Some vals else column name rest
  end.

(** Code that runs against the caller's frame: the frame before, the
    frame after, and a value or an exception. *)
Definition Mut (A : Type) : Type := GeoDataFrame -> GeoDataFrame * result A.

Definition and_then {A B} (m : Mut A) (k : A -> Mut B) : Mut B :=
  fun gdf =>
    match m gdf with
    | (gdf', Ok a) => k a gdf'
    | (gdf', Raise e) => (gdf', Raise e)
    end.

(** [gdf[name] = vals]: pandas refuses a list whose length is not the
    number of rows, and leaves the frame as it was. *)
Definition setitem (name : string) (vals : list Value) : Mut unit :=
  fun gdf =>
    if decide (length vals = n_rows gdf) then
      ({| geometry := geometry gdf;
          columns := assign name vals (columns gdf) |}, Ok tt)
    else (gdf, Raise ValueError).

(** The [nodes] dict: keys in insertion order, as a Python dict keeps
    them.  Keys are results of [round], for which equality of floats is
    equality of the fractions that stand for them. *)
Fixpoint dict_get (k : Key) (d : list (Key * nat)) : option nat :=
  match d with
  | [] => None
  | (k', v) :: d' => if decide (k' = k) then Some v else dict_get k d'
  end.

(** [d[k]]. *)
Definition dict_item (k : Key) (d : list (Key * nat)) : result nat :=
  match dict_get k d with
  | Some v => Ok v
  | None => Raise KeyError
  end.

(** The variables of the loop. *)
Record Acc := {
  nodes : list (Key * nat);
  node_counter : nat;
  sources : list (option nat);
  targets : list (option nat);
  costs : list Q
}.

Definition init : Acc :=
  {| nodes := []; node_counter := 1; sources := []; targets := []; costs := [] |}.

(** Lines 52-54: the row of a missing or empty geometry. *)
Definition record_excluded (a : Acc) : Acc :=
  {| nodes := nodes a; node_counter := node_counter a;
     sources := sources a ++ [None];
     targets := targets a ++ [None];
     costs := costs a ++ [0%Q] |}.

(** Lines 57-67: the rounded first and last coordinate.  [None] is the
    bare [continue] taken for a geometry that has no coordinate sequence
    and is not a MultiLineString. *)
Definition line_ends (geom : Geometry) : result (option (Key * Key)) :=
  match coords_of geom with
  | Some coords =>
      s ← item_first coords;
      e ← item_last coords;
      mret (Some (rounded s, rounded e))
  | None =>
      if decide (geom_type_of geom = "MultiLineString") then
        first_line ← item_first (geoms_of geom);
        last_line ← item_last (geoms_of geom);
        s ← item_first first_line;
        e ← item_last last_line;
        mret (Some (rounded s, rounded e))
      else mret None
  end.

(** Lines 69-74, once per endpoint: allocate an id for an unseen key. *)
Definition intern (k : Key) (a : Acc) : Acc :=
  match dict_get k (nodes a) with
  | Some _ => a
  | None =>
      {| nodes := nodes a ++ [(k, node_counter a)];
         node_counter := S (node_counter a);
         sources := sources a; targets := targets a; costs := costs a |}
  end.

(** One iteration of the loop over the rows (lines 50-78). *)
Definition loop_body `{LengthEngine} (geom : option Geometry) (a : Acc)
    : result Acc :=
  match geom with
  | None => mret (record_excluded a)
  | Some g =>
      if is_empty g then mret (record_excluded a)
      else
        ends ← line_ends g;
        match ends with
        | None => mret a
        | Some (start_coord, end_coord) =>
            let a := intern end_coord (intern start_coord a) in
            src ← dict_item start_coord (nodes a);
            tgt ← dict_item end_coord (nodes a);
            mret {| nodes := nodes a; node_counter := node_counter a;
                    sources := sources a ++ [Some src];
                    targets := targets a ++ [Some tgt];
                    costs := costs a ++ [length_planar g] |}
        end
  end.

(** [for idx, row in gdf.iterrows()]. *)
Fixpoint loop `{LengthEngine} (rows : list (option Geometry)) (a : Acc)
    : result Acc :=
  match rows with
  | [] => mret a
  | geom :: rest => a' ← loop_body geom a; loop rest a'
  end.

(** A row of [nodes_gdf]: [{'id': v, 'geometry': Point(k)}]. *)
Record Node := { node_id : nat; node_point : Key }.

Definition id_value (o : option nat) : Value :=
  match o with
  | None => VNone
  | Some n => VInt n
  end.

(** [gpd.GeoDataFrame(node_data, crs=gdf.crs)] (line 86).  The road layer
    has a reference system when the builder is called ([to_crs] at line
    173 raises on a layer without one).  A frame made from no rows has no
    geometry column, and geopandas refuses to give a reference system to
    such a frame: ValueError. *)
Definition nodes_gdf_of (node_data : list Node) : result (list Node) :=
  match node_data with
  | [] => Raise ValueError
  | _ :: _ => Ok node_data
  end.

(** [build_topology_in_python(gdf)].  The first component is the caller's
    frame after the call: the source writes its four columns into the
    frame it was given and returns that same object, so the returned
    [gdf] is this component and only [nodes_gdf] is a new value.  An
    exception of the loop leaves the frame as the loop found it; the
    exception of line 86 comes after the four assignments. *)
Definition build_topology_in_python `{LengthEngine} : Mut (list Node) :=
  fun gdf =>
    match loop (geometry gdf) init with
    | Raise e => (gdf, Raise e)
    | Ok a =>
        and_then (setitem "source" (id_value <$> sources a)) (fun _ =>
        and_then (setitem "target" (id_value <$> targets a)) (fun _ =>
        and_then (setitem "cost" (VFloat <$> costs a)) (fun _ =>
        and_then (setitem "reverse_cost" (VFloat <$> costs a)) (fun _ =>
        fun gdf' =>
          (gdf',
           nodes_gdf_of
             ((fun kv => {| node_id := snd kv; node_point := fst kv |})
                <$> nodes a)))))) gdf
    end.

(** *** The road part of [setup_database] *)

(** A row of the [roads] table, in the columns the routing reads; the
    other attributes of the layer go into the table as they are. *)
Record RoadRow := {
  road_id : Value;
  geom : option Geometry;
  source : option nat;
  target : option nat;
  cost : option Q;
  reverse_cost : option Q
}.

Definition cell (name : string) (i : nat) (gdf : GeoDataFrame) : Value :=
  default VNone (vals ← column name (columns gdf); vals !! i).

Definition sql_int (v : Value) : option nat :=
  match v with
  | VInt n => Some n
  | _ => None
  end.

Definition sql_float (v : Value) : option Q :=
  match v with
  | VFloat x => Some x
  | VInt n => Some (inject_Z (Z.of_nat n))
  | _ => None
  end.

(** [to_postgis('roads', ...)] followed by
    [ALTER TABLE roads ADD COLUMN IF NOT EXISTS id SERIAL PRIMARY KEY]:
    one table row per frame row.  When the layer brings a column named
    [id] (an attribute ID or Id, lower-cased at line 174) the table has
    that column already, the statement adds nothing and the ids are the
    values of the file; otherwise the rows are numbered from 1 in row
    order. *)
Definition to_postgis_roads (gdf : GeoDataFrame) : list RoadRow :=
  imap (fun i g =>
          {| road_id := match column "id" (columns gdf) with
                        | Some _ => cell "id" i gdf
                        | None => VInt (S i)
                        end;
             geom := g;
             source := sql_int (cell "source" i gdf);
             target := sql_int (cell "target" i gdf);
             cost := sql_float (cell "cost" i gdf);
             reverse_cost := sql_float (cell "reverse_cost" i gdf) |})
       (geometry gdf).

(** [UPDATE roads SET cost = ST_Length(geom::geography)]: NULL where the
    geometry is NULL. *)
Definition update_cost `{LengthEngine} (r : RoadRow) : RoadRow :=
  {| road_id := road_id r; geom := geom r;
     source := source r; target := target r;
     cost := ST_Length_geography <$> geom r;
     reverse_cost := reverse_cost r |}.

(** [UPDATE roads SET reverse_cost = cost]. *)
Definition update_reverse_cost (r : RoadRow) : RoadRow :=
  {| road_id := road_id r; geom := geom r;
     source := source r; target := target r;
     cost := cost r;
     reverse_cost := cost r |}.

(** Section D of [setup_database], from the frame read from the road
    file to the two tables it leaves in the database. *)
Definition setup_database_roads `{LengthEngine} (gdf : GeoDataFrame)
    : result (list RoadRow * list Node) :=
  match build_topology_in_python gdf with
  | (roads_with_topo, Ok nodes_gdf) =>
      Ok (update_reverse_cost <$> (update_cost <$> to_postgis_roads roads_with_topo),
          nodes_gdf)
  | (_, Raise e) => Raise e
  end.

(** *** What a path search can traverse *)

(** [pgr_dijkstra(..., directed := false)] walks an edge between its
    source and its target, in either direction. *)
Definition joins (r : RoadRow) (u v : nat) : Prop :=
  (source r = Some u /\ target r = Some v) \/
  (source r = Some v /\ target r = Some u).

(** A walk over the [roads] table from one vertex to another: any path
    a search over that table returns is one. *)
Inductive walk (roads : list RoadRow) : nat -> list RoadRow -> nat -> Prop :=
| walk_here u : walk roads u [] u
| walk_step u v w r p :
    r ∈ roads -> joins r u v -> walk roads v p w ->
    walk roads u (r :: p) w.

End Topology.

Import Topology.

(* ===================================================================== *)
(** ** Routing and nearest facility (app.py) *)
(* ===================================================================== *)

Module Routing.

(** What [jsonify] is given. *)
#[local] Unset Elimination Schemes.
Inductive Json :=
| JNull
| JBool (b : bool)
| JNum (x : Q)
| JStr (s : string)
| JList (items : list Json)
| JDict (fields : list (string * Json)).
#[local] Set Elimination Schemes.

(** Python truthiness of such a value. *)
Definition truthy (j : Json) : bool :=
  match j with
  | JNull => false
  | JBool b => b
  | JNum x => negb (Qeq_bool x 0)
  | JStr s => negb (bool_decide (s = ""))
  | JList items => negb (bool_decide (items = []))
  | JDict fields => negb (bool_decide (fields = []))
  end.

Fixpoint field (name : string) (fields : list (string * Json)) : option Json :=
  match fields with
  | [] => None
  | (n, v) :: rest => if decide (n = name) then Some v else field name rest
  end.

(** The row [sql_find_closest] selects:
    [name, category, ST_X(geom), ST_Y(geom)]. *)
Record Facility := {
  fac_name : option string;
  fac_category : string;
  fac_lng : Q;
  fac_lat : Q
}.

(** The database behind the cursor, as the queries of the two handlers
    see it.  Each method is the answer to one query text. *)
Class Database := {
  (* nearest [point_features] row whose category matches the pattern *)
  find_closest : string -> Q -> Q -> option Facility;
  (* [SELECT id FROM roads_vertices_pgr ORDER BY geom <-> point LIMIT 1] *)
  nearest_vertex : Q -> Q -> option nat;
  (* [pgr_dijkstra(...) AS d JOIN roads r ON d.edge = r.id]: the roads
      of a shortest path, none when the two vertices are not connected *)
  pgr_dijkstra_roads : nat -> nat -> list RoadRow;
  (* [ST_AsGeoJSON(ST_Union(...))] of the geometries given, parsed *)
  ST_AsGeoJSON_union : list Geometry -> Json;
  (* the GeoJSON feature [ST_AsGeoJSON] makes of one road of a path *)
  ST_AsGeoJSON_row : RoadRow -> Json;
  (* [ST_Distance] of two points cast to geography *)
  ST_Distance_geography : Coord -> Coord -> Q
}.

(** SQL aggregates skip NULLs and are NULL over no rows. *)
Definition agg_union `{Database} (rows : list RoadRow) : option Json :=
  match omap geom rows with
  | [] => None
  | gs => Some (ST_AsGeoJSON_union gs)
  end.

Definition agg_sum (rows : list RoadRow) : option Q :=
  match omap cost rows with
  | [] => None
  | c :: cs => Some (fold_left Qplus cs c)
  end.

Definition json_agg (items : list Json) : Json :=
  match items with
  | [] => JNull
  | _ => JList items
  end.

Definition feature_collection (features : list Json) : Json :=
  JDict [("type", JStr "FeatureCollection"); ("features", JList features)].

(** [cur.fetchone()[0]]. *)
Definition fetchone_0 {A} (row : option A) : result A :=
  match row with
  | Some x => Ok x
  | None => Raise TypeError
  end.

(** [get_route], from the parsed request to the value given to
    [jsonify]. *)
Definition get_route `{Database} (start_lat start_lng end_lat end_lng : Q)
    : result Json :=
  start_node ← fetchone_0 (nearest_vertex start_lng start_lat);
  end_node ← fetchone_0 (nearest_vertex end_lng end_lat);
  let result :=
    JDict [("type", JStr "FeatureCollection");
           ("features",
            json_agg (ST_AsGeoJSON_row <$> pgr_dijkstra_roads start_node end_node))] in
  mret (if truthy result then result else feature_collection []).

Definition json_text (o : option string) : Json :=
  match o with
  | None => JNull
  | Some s => JStr s
  end.

(** The three dict literals of [get_nearest]. *)
Definition destination_point (target : Facility) : Json :=
  JDict [("type", JStr "Feature");
         ("geometry", JDict [("type", JStr "Point");
                             ("coordinates",
                              JList [JNum (fac_lng target); JNum (fac_lat target)])]);
         ("properties", JDict [("name", json_text (fac_name target));
                               ("category", JStr (fac_category target));
                               ("is_target", JBool true)])].

Definition road_route (route_geom : Json) (total_dist : Z) : Json :=
  JDict [("type", JStr "Feature");
         ("geometry", route_geom);
         ("properties",
          JDict [("type", JStr "route");
                 ("distance_msg",
                  JStr ("Road Distance: " ++ str total_dist ++ "m"))])].

Definition straight_line (lng lat target_lng target_lat : Q) (straight_dist : Z)
    : Json :=
  JDict [("type", JStr "Feature");
         ("geometry",
          JDict [("type", JStr "LineString");
                 ("coordinates",
                  JList [JList [JNum lng; JNum lat];
                         JList [JNum target_lng; JNum target_lat]])]);
         ("properties",
          JDict [("type", JStr "route");
                 ("style", JStr "dashed");
                 ("distance_msg",
                  JStr ("Straight Distance: " ++ str straight_dist
                        ++ "m (No road path)"))])].

(** [round(x)] of a value that may be [None]. *)
Definition round_opt (x : option Q) : result Z :=
  match x with
  | Some v => Ok (round v)
  | None => Raise TypeError
  end.

(** [get_nearest], from the parsed request to the value given to
    [jsonify]. *)
Definition get_nearest `{Database} (lat lng : Q) (category : string)
    : result Json :=
  let search_term := "%" ++ category ++ "%" in
  match find_closest search_term lng lat with
  | None => mret (feature_collection [])
  | Some target =>
      let start_node_row := nearest_vertex lng lat in
      let end_node_row := nearest_vertex (fac_lng target) (fac_lat target) in
      let route_res :=
        match start_node_row, end_node_row with
        | Some start_node, Some end_node =>
            let rows := pgr_dijkstra_roads start_node end_node in
            Some (agg_union rows, agg_sum rows)
        | _, _ => None
        end in
      let features := [destination_point target] in
      match route_res with
      | Some (Some route_geom, total) =>
          total_dist ← round_opt total;
          mret (feature_collection (features ++ [road_route route_geom total_dist]))
      | _ =>
          let straight_dist :=
            round (ST_Distance_geography (lng, lat)
                     (fac_lng target, fac_lat target)) in
          mret (feature_collection
                  (features ++ [straight_line lng lat (fac_lng target)
                                  (fac_lat target) straight_dist]))
      end
  end.

(** *** How a caller can read the answer of [get_nearest] *)




(** The value of a named member of the response itself. *)
Definition response_member (name : string) (resp : Json) : option Json :=
  match resp with
  | JDict fields => field name fields
  | _ => None
  end.


(** Every road a path query returns that has a geometry has a cost: the
    state in which the UPDATE statements of [setup_database] leave the
    [roads] table. *)
Definition roads_costed `{Database} : Prop :=
  forall s e r, r ∈ pgr_dijkstra_roads s e -> is_Some (geom r) -> is_Some (cost r).

(** What pgRouting documents of [pgr_dijkstra] over an edge table: the
    rows of an answer are the edges of one path through that table from
    the start vertex to the end vertex, and there is no row when there is
    no path. *)
Definition searches_walk `{Database} (roads : list RoadRow) : Prop :=
  forall s e,
    pgr_dijkstra_roads s e = [] \/ walk roads s (pgr_dijkstra_roads s e) e.

End Routing.

Import Routing.

(* ===================================================================== *)
(** ** Sample data *)
(* ===================================================================== *)

Module Sample.

(** Fixed-point square root, six decimals: enough to run the builder on
    sample lines in place of shapely's floating-point length. *)
Definition sqrt_fix (q : Q) : Q :=
  (Z.sqrt ((Qnum q * 10 ^ 12) / Z.pos (Qden q)) # 1000000).

Definition segment (a b : Coord) : Q :=
  let dx := (fst b - fst a)%Q in
  let dy := (snd b - snd a)%Q in
  sqrt_fix (Qred (dx * dx + dy * dy)).

Fixpoint polyline (cs : list Coord) : Q :=
  match cs with
  | a :: (b :: _) as rest => Qred (segment a b + polyline rest)
  | _ => 0%Q
  end.

Definition planar (g : Geometry) : Q :=
  match g with
  | LineString cs => polyline cs
  | MultiLineString parts => fold_right (fun p acc => Qred (polyline p + acc)) 0%Q parts
  | OtherGeometry _ _ => 0%Q
  end.

(** Metres for one degree along the equator, as a stand-in for the
    geodesic length. *)
Definition engine : LengthEngine :=
  {| length_planar := planar;
     ST_Length_geography := fun g => Qred (111320 * planar g) |}.

Local Open Scope Q_scope.

(** Three roads A-B, B-C and D-E; B is digitised twice, the second time
    off by less than half a unit of the sixth decimal. *)
Definition A : Coord := (3.35, 6.5).
Definition B : Coord := (3.36, 6.5).
Definition B' : Coord := (3.3600000004, 6.5).
Definition C : Coord := (3.36, 6.51).
Definition D : Coord := (3.4, 6.6).
Definition E : Coord := (3.4, 6.61).

Definition roads_frame : GeoDataFrame :=
  {| geometry := [Some (LineString [A; B]);
                  Some (LineString [B'; C]);
                  Some (MultiLineString [[D; (3.4, 6.605)]; [(3.4, 6.605); E]])];
     columns := [("roadname", [VStr "Bode Thomas"; VStr "Adeniran"; VNone])] |}.

(** A frame with a missing geometry, an empty one and a one-point line. *)
Definition ragged_frame : GeoDataFrame :=
  {| geometry := [None; Some (LineString []); Some (LineString [A]);
                  Some (LineString [A; B])];
     columns := [] |}.

(** A multi-part line whose first part is empty. *)
Definition empty_part_frame : GeoDataFrame :=
  {| geometry := [Some (LineString [A; B]);
                  Some (MultiLineString [[]; [B; C]])];
     columns := [] |}.

(** A frame in which one row holds a polygon. *)
Definition polygon_frame : GeoDataFrame :=
  {| geometry := [Some (LineString [A; B]);
                  Some (OtherGeometry Polygon false)];
     columns := [] |}.

(** A road layer that already has an attribute named [cost]. *)
Definition tolled_frame : GeoDataFrame :=
  {| geometry := [Some (LineString [A; B])];
     columns := [("cost", [VFloat 250])] |}.

(** The same three roads as [roads_frame], read without attributes. *)
Definition bare_frame : GeoDataFrame :=
  {| geometry := geometry roads_frame; columns := [] |}.

(** A layer in which no line has a coordinate: a missing geometry and an
    empty one. *)
Definition null_frame : GeoDataFrame :=
  {| geometry := [None; Some (LineString [])]; columns := [] |}.

(** That layer with the four columns of lines 80-83 written. *)
Definition null_frame_after : GeoDataFrame :=
  {| geometry := [None; Some (LineString [])];
     columns := [("source", [VNone; VNone]);
                 ("target", [VNone; VNone]);
                 ("cost", [VFloat 0; VFloat 0]);
                 ("reverse_cost", [VFloat 0; VFloat 0])] |}.

(** The three roads with an ID attribute of their own, as line 174
    leaves its name. *)
Definition numbered_frame : GeoDataFrame :=
  {| geometry := geometry roads_frame;
     columns := [("id", [VInt 0; VInt 0; VInt 7])] |}.

(** What the builder and [setup_database] leave for [roads_frame]. *)
Definition roads_frame_after : GeoDataFrame :=
  Eval vm_compute in fst (@build_topology_in_python engine roads_frame).

Definition ragged_frame_after : GeoDataFrame :=
  Eval vm_compute in fst (@build_topology_in_python engine ragged_frame).

Definition nodes_table : list Node :=
  Eval vm_compute in
    match snd (@build_topology_in_python engine roads_frame) with
    | Ok ns => ns
    | Raise _ => []
    end.

Definition ragged_nodes : list Node :=
  Eval vm_compute in
    match snd (@build_topology_in_python engine ragged_frame) with
    | Ok ns => ns
    | Raise _ => []
    end.

Definition roads_table : list RoadRow :=
  Eval vm_compute in
    match @setup_database_roads engine roads_frame with
    | Ok (roads, _) => roads
    | Raise _ => []
    end.

End Sample.

(** A database loaded from the three sample roads, with a bank at C and a
  hospital at E, and a database with no tables filled. *)
Module SampleDb.

Local Open Scope Q_scope.

Definition bank : Facility :=
  {| fac_name := Some "Unity Bank"; fac_category := "Bank";
     fac_lng := 3.36; fac_lat := 6.51 |}.

Definition hospital : Facility :=
  {| fac_name := Some "Randle General Hospital"; fac_category := "Hospital";
     fac_lng := 3.4; fac_lat := 6.61 |}.

Definition closest (search_term : string) (lng lat : Q) : option Facility :=
  if decide (search_term = "%Bank%") then Some bank
  else if decide (search_term = "%Hospital%") then Some hospital
  else None.

Definition dist2 (k : Key) (lng lat : Q) : Q :=
  Qred ((fst k - lng) * (fst k - lng) + (snd k - lat) * (snd k - lat)).

(** The node nearest to a point, the first one on a tie. *)
Fixpoint nearest (ns : list Node) (lng lat : Q) : option Node :=
  match ns with
  | [] => None
  | n :: rest =>
      match nearest rest lng lat with
      | Some m =>
          if Qle_bool (dist2 (node_point n) lng lat) (dist2 (node_point m) lng lat)
          then Some n else Some m
      | None => Some n
      end
  end.

Definition road (i : nat) : list RoadRow :=
  match Sample.roads_table !! i with
  | Some r => [r]
  | None => []
  end.

(** Shortest paths over the three roads: vertices 1-2-3 are joined,
    vertices 4-5 are joined, nothing joins the two groups. *)
Definition paths (s e : nat) : list RoadRow :=
  match s, e with
  | 1%nat, 2%nat | 2%nat, 1%nat => road 0
  | 2%nat, 3%nat | 3%nat, 2%nat => road 1
  | 1%nat, 3%nat => road 0 ++ road 1
  | 3%nat, 1%nat => road 1 ++ road 0
  | 4%nat, 5%nat | 5%nat, 4%nat => road 2
  | _, _ => []
  end.

Definition line_json (cs : list Coord) : Json :=
  JList ((fun c => JList [JNum (fst c); JNum (snd c)]) <$> cs).

Definition union_json (gs : list Geometry) : Json :=
  JDict [("type", JStr "MultiLineString");
         ("coordinates",
          JList (gs ≫= fun g =>
                   match g with
                   | LineString cs => [line_json cs]
                   | MultiLineString parts => line_json <$> parts
                   | OtherGeometry _ _ => []
                   end))].

Definition value_json (v : Value) : Json :=
  match v with
  | VNone => JNull
  | VInt n => JNum (inject_Z (Z.of_nat n))
  | VFloat x => JNum x
  | VStr s => JStr s
  end.

Definition row_json (r : RoadRow) : Json :=
  JDict [("type", JStr "Feature");
         ("geometry", union_json (omap id [geom r]));
         ("properties", JDict [("id", value_json (road_id r));
                               ("name", JStr "Road")])].

Definition db : Database :=
  {| find_closest := closest;
     nearest_vertex := fun lng lat => node_id <$> nearest Sample.nodes_table lng lat;
     pgr_dijkstra_roads := paths;
     ST_AsGeoJSON_union := union_json;
     ST_AsGeoJSON_row := row_json;
     ST_Distance_geography :=
       fun a b => Qred (111320 * Sample.segment a b) |}.

(** The same database over a [roads] table nobody has costed: the one
    road of every path has a geometry and no cost. *)
Definition uncosted_road : RoadRow :=
  {| road_id := VInt 1;
     geom := Some (LineString [Sample.A; Sample.B]);
     source := Some 1%nat; target := Some 2%nat;
     cost := None; reverse_cost := None |}.

Definition uncosted_db : Database :=
  {| find_closest := closest;
     nearest_vertex := fun lng lat => node_id <$> nearest Sample.nodes_table lng lat;
     pgr_dijkstra_roads := fun _ _ => [uncosted_road];
     ST_AsGeoJSON_union := union_json;
     ST_AsGeoJSON_row := row_json;
     ST_Distance_geography :=
       fun a b => Qred (111320 * Sample.segment a b) |}.

(** No vertex, no road and no facility has been loaded. *)
Definition empty_db : Database :=
  {| find_closest := fun _ _ _ => None;
     nearest_vertex := fun _ _ => None;
     pgr_dijkstra_roads := fun _ _ => [];
     ST_AsGeoJSON_union := union_json;
     ST_AsGeoJSON_row := row_json;
     ST_Distance_geography :=
       fun a b => Qred (111320 * Sample.segment a b) |}.

End SampleDb.

(* ===================================================================== *)
(** ** Reading the builder's output *)
(* ===================================================================== *)

Module Account.

(** What the loop does with one row, read off its branches: it records
    an excluded edge (lines 51-55), records an edge between two rounded
    coordinates (lines 69-78), goes on to the next row recording
    nothing (lines 66-67), or raises. *)
Inductive RowKind :=
| Excluded
| Edge (start_coord end_coord : Key)
| Dropped
| Crash (e : exc).

Definition row_kind (geom : option Geometry) : RowKind :=
  match geom with
  | None => Excluded
  | Some g =>
      if is_empty g then Excluded
      else match line_ends g with
           | Ok (Some (s, e)) => Edge s e
           | Ok None => Dropped
           | Raise x => Crash x
           end
  end.

(** The rounded endpoints of the rows that become edges, in row order. *)
Definition row_keys (geom : option Geometry) : list Key :=
  match row_kind geom with
  | Edge s e => [s; e]
  | _ => []
  end.

Definition endpoint_keys (rows : list (option Geometry)) : list Key :=
  rows ≫= row_keys.

(** Keys in the order in which they are first seen. *)
Definition add_key (seen : list Key) (k : Key) : list Key :=
  if decide (k ∈ seen) then seen else seen ++ [k].

Definition first_seen (ks : list Key) : list Key := fold_left add_key ks [].

(** What a row adds to [sources], [targets] and [costs], given the dict
    the loop ends with. *)
Definition row_sources (d : list (Key * nat)) (geom : option Geometry)
    : list (option nat) :=
  match row_kind geom with
  | Excluded => [None]
  | Edge s _ => [dict_get s d]
  | _ => []
  end.

Definition row_targets (d : list (Key * nat)) (geom : option Geometry)
    : list (option nat) :=
  match row_kind geom with
  | Excluded => [None]
  | Edge _ e => [dict_get e d]
  | _ => []
  end.

Definition row_costs `{LengthEngine} (geom : option Geometry) : list Q :=
  match geom, row_kind geom with
  | _, Excluded => [0%Q]
  | Some g, Edge _ _ => [length_planar g]
  | _, _ => []
  end.

(** The endpoints of an edge row have their ids in the dict. *)
Definition edge_known (d : list (Key * nat)) (geom : option Geometry) : Prop :=
  match row_kind geom with
  | Edge s e => is_Some (dict_get s d) /\ is_Some (dict_get e d)
  | _ => True
  end.

(** The state of the loop variables the numbering relies on. *)
Record Inv (a : Acc) : Prop := {
  inv_counter : node_counter a = S (length (nodes a));
  inv_ids : (nodes a).*2 = seq 1 (length (nodes a));
  inv_nodup : NoDup (nodes a).*1
}.

(** The frame after the four column assignments. *)
Definition annotated (gdf : GeoDataFrame) (a : Acc) : GeoDataFrame :=
  {| geometry := geometry gdf;
     columns :=
       assign "reverse_cost" (VFloat <$> costs a)
         (assign "cost" (VFloat <$> costs a)
            (assign "target" (id_value <$> targets a)
               (assign "source" (id_value <$> sources a) (columns gdf)))) |}.

Definition node_rows (d : list (Key * nat)) : list Node :=
  (fun kv => {| node_id := snd kv; node_point := fst kv |}) <$> d.

(** The rows the loop can record: a missing or empty geometry, a
    geometry with a coordinate sequence (a one-point line included), or a
    multi-part line whose first and last parts have coordinates. *)
Definition recordable (geom : option Geometry) : bool :=
  match geom with
  | None => true
  | Some g =>
      is_empty g ||
      match g with
      | LineString _ => true
      | MultiLineString parts =>
          match head parts, last parts with
          | Some (_ :: _), Some (_ :: _) => true
          | _, _ => false
          end
      | OtherGeometry _ _ => false
      end
  end.

(** The rows that pass the test of line 51: a geometry, and not an
    empty one. *)
Definition has_shape (geom : option Geometry) : bool :=
  match geom with
  | None => false
  | Some g => negb (is_empty g)
  end.

(** What the frame after a build holds in row [i], for the geometry
    that row had and the dict [d] the loop ended with. *)
Definition row_recorded `{LengthEngine} (d : list (Key * nat))
    (i : nat) (geom : option Geometry) (after : GeoDataFrame) : Prop :=
  match geom, row_kind geom with
  | _, Excluded =>
      cell "source" i after = VNone /\
      cell "target" i after = VNone /\
      cell "cost" i after = VFloat 0 /\
      cell "reverse_cost" i after = VFloat 0
  | Some g, Edge s e =>
      exists vs ve,
        dict_get s d = Some vs /\ dict_get e d = Some ve /\
        cell "source" i after = VInt vs /\
        cell "target" i after = VInt ve /\
        cell "cost" i after = VFloat (length_planar g) /\
        cell "reverse_cost" i after = VFloat (length_planar g)
  | _, _ => False
  end.

End Account.

Import Account.

(* ===================================================================== *)
(** ** Loading the shapefiles (shapefiles/upload_data.py, setup_database) *)
(* ===================================================================== *)

Module Upload.

(** What [gpd.read_file] returns: a frame and its coordinate reference
    system, named by its authority code, [None] when the file carries
    none. *)
Record ShapeFile := {
  crs : option string;
  frame : GeoDataFrame
}.

(** The files on disk and the reprojection engine.  [read_file] is [None]
    for a file that does not exist; [transform_4326] is what
    [to_crs("EPSG:4326")] does to one geometry given in another system. *)
Class FileSystem := {
  read_file : string -> option ShapeFile;
  transform_4326 : string -> Geometry -> Geometry
}.

Definition ROAD_FILE : string := "ROAD.shp".
Definition BOUNDARY_FILE : string := "BOUNDARY.shp".

(** The two dicts of file names, in the order they are written. *)
Definition POINT_FILES : list (string * string) :=
  [("BANK.shp", "Bank");
   ("CHURCH.shp", "Church");
   ("EVENT_CENTRE.shp", "Event Center");
   ("HOSPITAL.shp", "Hospital");
   ("POLICE_STATION.shp", "Police Station");
   ("HOTEL.shp", "Hotel");
   ("MARKET.shp", "Market");
   ("MOSQUE.shp", "Mosque");
   ("PRY_SCHOOL.shp", "Primary School");
   ("SEC_SCHOOL.shp", "Secondary School")].

Definition LCDA_FILES : list (string * string) :=
  [("SURULERE LCDA BOUNDARY.shp", "Surulere");
   ("ITIRE_IKATE LCDA BOUNDARY.shp", "Itire-Ikate");
   ("COOKER_AGUDA LCDA BOUNDARY.shp", "Coker-Aguda")].

(** [c.lower()] on the ASCII letters column names are made of. *)
Definition lower_ascii (c : ascii) : ascii :=
  let n := nat_of_ascii c in
  if (65 <=? n)%nat && (n <=? 90)%nat then ascii_of_nat (n + 32) else c.

Fixpoint lower (s : string) : string :=
  match s with
  | EmptyString => EmptyString
  | String c rest => String (lower_ascii c) (lower rest)
  end.

(** [if gdf.crs != "EPSG:4326": gdf = gdf.to_crs("EPSG:4326")].  A frame
    without a reference system cannot be transformed: [to_crs] raises
    ValueError. *)
Definition ensure_4326 `{FileSystem} (sf : ShapeFile) : result GeoDataFrame :=
  match crs sf with
  | Some c =>
      if decide (c = "EPSG:4326") then Ok (frame sf)
      else Ok {| geometry := option_map (transform_4326 c) <$> geometry (frame sf);
                 columns := columns (frame sf) |}
  | None => Raise ValueError
  end.

(** [gdf.columns = [c.lower() for c in gdf.columns]].  The names of a
    shapefile's fields differ by more than letter case, so they stay
    distinct. *)
Definition lower_columns (gdf : GeoDataFrame) : GeoDataFrame :=
  {| geometry := geometry gdf;
     columns := (fun nv => (lower (fst nv), snd nv)) <$> columns gdf |}.

(** [name in gdf.columns], for an attribute name. *)
Definition has_column (name : string) (gdf : GeoDataFrame) : bool :=
  bool_decide (name ∈ (columns gdf).*1).

(** [gdf[name]]. *)
Definition getitem (name : string) (gdf : GeoDataFrame) : result (list Value) :=
  match column name (columns gdf) with
  | Some vals => Ok vals
  | None => Raise KeyError
  end.

(** [gdf[name] = vals] for a column of the frame's own length. *)
Definition set_column (name : string) (vals : list Value) (gdf : GeoDataFrame)
    : GeoDataFrame :=
  {| geometry := geometry gdf; columns := assign name vals (columns gdf) |}.

(** [gdf[name] = v] for a scalar: the same cell in every row. *)
Definition broadcast (name : string) (v : Value) (gdf : GeoDataFrame)
    : GeoDataFrame :=
  set_column name (replicate (n_rows gdf) v) gdf.

(** Lines 108-118: the frame of a point file as it is uploaded. *)
Definition prepare_points (category : string) (gdf : GeoDataFrame)
    : result GeoDataFrame :=
  let gdf := lower_columns gdf in
  gdf ←
    (if has_column "actual_nam" gdf then
       vals ← getitem "actual_nam" gdf; mret (set_column "name" vals gdf)
     else if has_column "actual_name" gdf then
       vals ← getitem "actual_name" gdf; mret (set_column "name" vals gdf)
     else if negb (has_column "name" gdf) then
       mret (broadcast "name" (VStr (category ++ " (Unknown)")) gdf)
     else mret gdf);
  let gdf := broadcast "category" (VStr category) gdf in
  names ← getitem "name" gdf;
  cats ← getitem "category" gdf;
  mret {| geometry := geometry gdf;
          columns := [("name", names); ("category", cats)] |}.

(** A row of the [point_features] table. *)
Record PointRow := {
  pt_index : nat;
  pt_name : Value;
  pt_category : Value;
  pt_geom : option Geometry
}.

(** A row of the [lcda_polygons] table. *)
Record LcdaRow := {
  lcda_index : nat;
  lcda_name : Value;
  lcda_geom : option Geometry
}.

(** The rows [to_postgis(..., index=True)] writes for a frame. *)
Definition point_rows (gdf : GeoDataFrame) : list PointRow :=
  imap (fun i g => {| pt_index := i;
                      pt_name := cell "name" i gdf;
                      pt_category := cell "category" i gdf;
                      pt_geom := g |}) (geometry gdf).

Definition lcda_rows (gdf : GeoDataFrame) : list LcdaRow :=
  imap (fun i g => {| lcda_index := i;
                      lcda_name := cell "name" i gdf;
                      lcda_geom := g |}) (geometry gdf).

(** [to_postgis(table, if_exists=mode)] with [mode] being ['replace'] for
    the first file written and ['append'] afterwards. *)
Definition write_table {A} (first : bool) (rows : list A) (table : list A)
    : list A :=
  if first then rows else table ++ rows.

(** The tables of the database. *)
Record Tables := {
  point_features : list PointRow;
  lcda_polygons : list LcdaRow;
  boundary : GeoDataFrame;
  roads : list RoadRow;
  roads_vertices_pgr : list Node
}.

(** A step of the loader: the tables before, the tables after, and a
    value or an exception. *)
Definition Setup (A : Type) : Type := Tables -> Tables * result A.

(** Section A, one file: lines 101-126.  The value is [first_point]
    after the iteration. *)
Definition point_file `{FileSystem} (entry : string * string) (first_point : bool)
    : Setup bool :=
  fun t =>
    match read_file (fst entry) with
    | None => (t, Ok first_point)
    | Some sf =>
        match (gdf ← ensure_4326 sf; prepare_points (snd entry) gdf) with
        | Raise e => (t, Raise e)
        | Ok gdf =>
            ({| point_features :=
                  write_table first_point (point_rows gdf) (point_features t);
                lcda_polygons := lcda_polygons t;
                boundary := boundary t;
                roads := roads t;
                roads_vertices_pgr := roads_vertices_pgr t |}, Ok false)
        end
    end.

(** [for filename, category in POINT_FILES.items()]. *)
Fixpoint point_files `{FileSystem} (entries : list (string * string))
    (first_point : bool) : Setup bool :=
  fun t =>
    match entries with
    | [] => (t, Ok first_point)
    | entry :: rest =>
        match point_file entry first_point t with
        | (t', Ok first_point') => point_files rest first_point' t'
        | (t', Raise e) => (t', Raise e)
        end
    end.

(** Lines 136-143: the frame of a district file as it is uploaded. *)
Definition prepare_lcda (lcda : string) (gdf : GeoDataFrame)
    : result GeoDataFrame :=
  let gdf := broadcast "name" (VStr lcda) gdf in
  names ← getitem "name" gdf;
  mret {| geometry := geometry gdf; columns := [("name", names)] |}.

(** Section B, one file: lines 134-150. *)
Definition lcda_file `{FileSystem} (entry : string * string) (first_lcda : bool)
    : Setup bool :=
  fun t =>
    match read_file (fst entry) with
    | None => (t, Ok first_lcda)
    | Some sf =>
        match (gdf ← ensure_4326 sf; prepare_lcda (snd entry) gdf) with
        | Raise e => (t, Raise e)
        | Ok gdf =>
            ({| point_features := point_features t;
                lcda_polygons :=
                  write_table first_lcda (lcda_rows gdf) (lcda_polygons t);
                boundary := boundary t;
                roads := roads t;
                roads_vertices_pgr := roads_vertices_pgr t |}, Ok false)
        end
    end.

Fixpoint lcda_files `{FileSystem} (entries : list (string * string))
    (first_lcda : bool) : Setup bool :=
  fun t =>
    match entries with
    | [] => (t, Ok first_lcda)
    | entry :: rest =>
        match lcda_file entry first_lcda t with
        | (t', Ok first_lcda') => lcda_files rest first_lcda' t'
        | (t', Raise e) => (t', Raise e)
        end
    end.

(** Section C: lines 156-165. *)
Definition upload_boundary `{FileSystem} : Setup unit :=
  fun t =>
    match read_file BOUNDARY_FILE with
    | None => (t, Ok tt)
    | Some sf =>
        match ensure_4326 sf with
        | Raise e => (t, Raise e)
        | Ok gdf =>
            ({| point_features := point_features t;
                lcda_polygons := lcda_polygons t;
                boundary := gdf;
                roads := roads t;
                roads_vertices_pgr := roads_vertices_pgr t |}, Ok tt)
        end
    end.

(** Section D: lines 171-197.  The builder runs before anything is
    written, so an exception of its own leaves both road tables alone. *)
Definition upload_roads `{FileSystem} `{LengthEngine} : Setup unit :=
  fun t =>
    match read_file ROAD_FILE with
    | None => (t, Ok tt)
    | Some sf =>
        match (gdf ← ensure_4326 sf; setup_database_roads (lower_columns gdf)) with
        | Raise e => (t, Raise e)
        | Ok (roads_with_topo, nodes_gdf) =>
            ({| point_features := point_features t;
                lcda_polygons := lcda_polygons t;
                boundary := boundary t;
                roads := roads_with_topo;
                roads_vertices_pgr := nodes_gdf |}, Ok tt)
        end
    end.

Definition then_ {A B} (m : Setup A) (k : Setup B) : Setup B :=
  fun t =>
    match m t with
    | (t', Ok _) => k t'
    | (t', Raise e) => (t', Raise e)
    end.

(** [setup_database()]: the four sections in order. *)
Definition setup_database `{FileSystem} `{LengthEngine} : Setup unit :=
  then_ (point_files POINT_FILES true)
    (then_ (lcda_files LCDA_FILES true)
       (then_ upload_boundary upload_roads)).

(** The frames the point files on disk turn into, in the order of the
    entries; a missing file gives none. *)
Definition prepared_points `{FileSystem} (entry : string * string)
    : option (result GeoDataFrame) :=
  sf ← read_file (fst entry);
  Some (gdf ← ensure_4326 sf; prepare_points (snd entry) gdf).

End Upload.

Import Upload.

(* ===================================================================== *)
(** ** The other handlers of app.py *)
(* ===================================================================== *)

Module Handlers.

(** The answers of the database to the queries of the other handlers.
    Feature rows are the GeoJSON features [ST_AsGeoJSON] makes of the
    selected rows, before [json_agg] gathers them. *)
Class Layers := {
  (* point_features rows WHERE category ILIKE pattern *)
  features_like : string -> list Json;
  (* point_features rows within a distance of (lng, lat) *)
  features_within : Q -> Q -> Q -> list Json;
  (* all lcda_polygons rows *)
  lcda_features : list Json;
  (* all boundary rows *)
  boundary_features : list Json;
  (* lcda_polygons rows that intersect the point (lng, lat) *)
  lcdas_at : Q -> Q -> list Json;
  (* the roads longer than 50 m, simplified; the query may fail *)
  roads_layer_features : result (list Json);
  (* the rows of combined_results for a pattern, before LIMIT:
     name, category, lng, lat *)
  search_matches : string -> list (Json * Json * Json * Json);
  (* category and count, most frequent first *)
  poi_counts : list (Json * Json);
  (* SUM(ST_Length(geom::geography)) / 1000 over roads; NULL over no rows *)
  roads_total_km : option Q;
  (* SUM(ST_Area(geom::geography)) / 1000000 over lcda_polygons *)
  lcda_total_sqkm : option Q;
  (* first row of the area query for a district: no row, NULL, or a value *)
  lcda_area_sqkm : string -> option (option Q);
  (* COUNT and MAX length of the roads that intersect a district *)
  lcda_roads : string -> Z * option Q;
  (* first row of the longest-road query: no row, NULL name, or a name *)
  lcda_longest_road : string -> option (option string);
  (* category, count and items of the points inside a district *)
  lcda_poi : string -> list (Json * Json * Json)
}.

(** [json_build_object('type', 'FeatureCollection', 'features',
    json_agg(...))]: an object in every case, whose [features] is NULL
    over no rows. *)
Definition collection (rows : list Json) : Json :=
  JDict [("type", JStr "FeatureCollection"); ("features", json_agg rows)].

(** [result if result else {"type": "FeatureCollection", "features": []}]. *)
Definition or_empty (result : Json) : Json :=
  if truthy result then result else feature_collection [].

(** [result is None]. *)
Definition is_none (result : Json) : bool :=
  match result with
  | JNull => true
  | _ => false
  end.

(** [result.get('features') is None]. *)
Definition features_missing (result : Json) : bool :=
  match result with
  | JDict fields =>
      match field "features" fields with
      | None | Some JNull => true
      | Some _ => false
      end
  | _ => false
  end.

(** [get_features(category)], with the connection got or not; the value
    given to [jsonify] and the status code. *)
Definition get_features `{Layers} (conn : bool) (category : string) : Json * nat :=
  if negb conn then (JList [], 500%nat)
  else
    let search_term := "%" ++ category ++ "%" in
    let result := collection (features_like search_term) in
    if is_none result || features_missing result
    then (feature_collection [], 200%nat)
    else (result, 200%nat).

(** [get_buffer], [get_lcdas], [get_boundary] and [identify_location],
    each with a connection. *)
Definition get_buffer `{Layers} (lat lng dist : Q) : Json :=
  or_empty (collection (features_within lng lat dist)).

Definition get_lcdas `{Layers} : Json :=
  or_empty (collection lcda_features).

Definition get_boundary `{Layers} : Json :=
  or_empty (collection boundary_features).

Definition identify_location `{Layers} (lat lng : Q) : Json :=
  or_empty (collection (lcdas_at lng lat)).

(** [get_roads_layer]: a failed query is caught and counts as no result. *)
Definition get_roads_layer `{Layers} (conn : bool) : Json :=
  if negb conn then JDict [("features", JList [])]
  else
    let result :=
      match roads_layer_features with
      | Ok rows => collection rows
      | Raise _ => JNull
      end in
    or_empty result.

(** [search_all], with the value of the [q] parameter if there is one:
    the text the request carries, well-formed UTF-8. *)
Definition search_all `{Layers} (q : option string) : Json :=
  let query_text := default "" q in
  if bool_decide (query_text = "") || (len query_text <? 2)%nat
  then JList []
  else
    let wildcard_query := "%" ++ query_text ++ "%" in
    JList ((fun row : Json * Json * Json * Json =>
              let '(name, category, lng, lat) := row in
              JDict [("name", name); ("category", category);
                     ("lng", lng); ("lat", lat)])
             <$> take 10 (search_matches wildcard_query)).

(** [round(x, 2) if x else 0]. *)
Definition round2_or_zero (x : option Q) : Q :=
  match x with
  | Some v => if Qeq_bool v 0 then 0%Q else round_ndigits v 2
  | None => 0%Q
  end.

(** [get_stats]. *)
Definition get_stats `{Layers} : Json :=
  JDict [("poi_stats",
          JList ((fun r : Json * Json =>
                    JDict [("label", fst r); ("value", snd r)]) <$> poi_counts));
         ("total_road_km", JNum (round2_or_zero roads_total_km));
         ("total_area_sqkm", JNum (round2_or_zero lcda_total_sqkm))].


End Handlers.

Import Handlers.

(* ===================================================================== *)
(** ** Further readings of the builder and the loader *)
(* ===================================================================== *)

Module Survey.

(** The first and the last coordinate of a geometry as lines 58-65 take
    them, before rounding. *)
Definition raw_ends (g : Geometry) : option (Coord * Coord) :=
  match g with
  | LineString cs =>
      match head cs, last cs with
      | Some s, Some e => Some (s, e)
      | _, _ => None
      end
  | MultiLineString parts =>
      match head parts, last parts with
      | Some first_line, Some last_line =>
          match head first_line, last last_line with
          | Some s, Some e => Some (s, e)
          | _, _ => None
          end
      | _, _ => None
      end
  | OtherGeometry _ _ => None
  end.

(** Row [i] of a frame has an edge endpoint at coordinate [c], and the
    frame after the build holds cell [v] for it: the source cell for the
    first coordinate, the target cell for the last. *)
Definition endpoint_at (before after : GeoDataFrame) (i : nat)
    (c : Coord) (v : Value) : Prop :=
  exists g c1 c2,
    geometry before !! i = Some (Some g) /\ is_empty g = false /\
    raw_ends g = Some (c1, c2) /\
    ((c = c1 /\ v = cell "source" i after) \/
     (c = c2 /\ v = cell "target" i after)).

(** The first and last coordinates, as digitised, of the rows that pass
    the test of line 51 and have both, in row order. *)
Definition raw_endpoints (rows : list (option Geometry)) : list Coord :=
  rows ≫= fun geom =>
    match geom with
    | Some g =>
        if is_empty g then []
        else match raw_ends g with
             | Some (c1, c2) => [c1; c2]
             | None => []
             end
    | None => []
    end.

(** A frame with further rows after those of another. *)
Definition extends (longer shorter : GeoDataFrame) : Prop :=
  exists more, geometry longer = (geometry shorter ++ more)%list.

(** The point rows section A uploads for a list of entries: those of the
    files that exist, in the order of the entries. *)
Definition uploaded_points `{FileSystem} (entries : list (string * string))
    : list PointRow :=
  entries ≫= fun entry =>
    match prepared_points entry with
    | Some (Ok gdf) => point_rows gdf
    | _ => []
    end.

Definition any_file `{FileSystem} (entries : list (string * string)) : bool :=
  existsb (fun entry => bool_decide (is_Some (read_file (fst entry)))) entries.


(** The same for the district files of section B. *)
Definition prepared_lcda `{FileSystem} (entry : string * string)
    : option (result GeoDataFrame) :=
  sf ← read_file (fst entry);
  Some (gdf ← ensure_4326 sf; prepare_lcda (snd entry) gdf).

Definition uploaded_lcdas `{FileSystem} (entries : list (string * string))
    : list LcdaRow :=
  entries ≫= fun entry =>
    match prepared_lcda entry with
    | Some (Ok gdf) => lcda_rows gdf
    | _ => []
    end.

(** The tables with one of them replaced. *)
Definition with_point_features (rows : list PointRow) (t : Tables) : Tables :=
  {| point_features := rows;
     lcda_polygons := lcda_polygons t;
     boundary := boundary t;
     roads := roads t;
     roads_vertices_pgr := roads_vertices_pgr t |}.

Definition with_lcda_polygons (rows : list LcdaRow) (t : Tables) : Tables :=
  {| point_features := point_features t;
     lcda_polygons := rows;
     boundary := boundary t;
     roads := roads t;
     roads_vertices_pgr := roads_vertices_pgr t |}.

(** The name column of a point frame as section A settles it, row [i]. *)
Definition settled_name (category : string) (gdf : GeoDataFrame) (i : nat)
    : Value :=
  let low := lower_columns gdf in
  if has_column "actual_nam" low then cell "actual_nam" i low
  else if has_column "actual_name" low then cell "actual_name" i low
  else if has_column "name" low then cell "name" i low
  else if bool_decide (i < n_rows gdf)%nat then VStr (category ++ " (Unknown)")
  else VNone.


End Survey.

Import Survey.

(* ===================================================================== *)
(** ** Sample files and layers *)
(* ===================================================================== *)

Module SampleFiles.

Local Open Scope Q_scope.

(** A bank layer with the name column a shapefile gives it. *)
Definition bank_file : ShapeFile :=
  {| crs := Some "EPSG:4326";
     frame := {| geometry := [Some (LineString [Sample.C]);
                              Some (LineString [Sample.A])];
                 columns := [("ACTUAL_NAM", [VStr "Unity Bank"; VStr "Zenith Bank"]);
                             ("Name", [VStr "b1"; VStr "b2"])] |} |}.

(** A hospital layer in another reference system, without any name. *)
Definition hospital_file : ShapeFile :=
  {| crs := Some "EPSG:32631";
     frame := {| geometry := [Some (LineString [Sample.E])];
                 columns := [("BEDS", [VInt 40])] |} |}.

Definition district_file : ShapeFile :=
  {| crs := Some "EPSG:4326";
     frame := {| geometry := [Some (OtherGeometry Polygon false)];
                 columns := [("AREA", [VFloat 23])] |} |}.

Definition road_file : ShapeFile :=
  {| crs := Some "EPSG:4326"; frame := Sample.roads_frame |}.

(** Four of the files exist; the reprojection is a stand-in that leaves
    the coordinates alone. *)
Definition disk : FileSystem :=
  {| read_file := fun name =>
       if decide (name = "BANK.shp") then Some bank_file
       else if decide (name = "HOSPITAL.shp") then Some hospital_file
       else if decide (name = "SURULERE LCDA BOUNDARY.shp") then Some district_file
       else if decide (name = "ROAD.shp") then Some road_file
       else None;
     transform_4326 := fun _ g => g |}.

(** The same disk with a road layer one of whose rows is a polygon. *)
Definition bad_road_disk : FileSystem :=
  {| read_file := fun name =>
       if decide (name = "BANK.shp") then Some bank_file
       else if decide (name = "ROAD.shp")
            then Some {| crs := Some "EPSG:4326"; frame := Sample.polygon_frame |}
       else None;
     transform_4326 := fun _ g => g |}.

(** A database that holds rows of an earlier load. *)
Definition old_tables : Tables :=
  {| point_features := [{| pt_index := 0; pt_name := VStr "Old Market";
                           pt_category := VStr "Market";
                           pt_geom := Some (LineString [Sample.D]) |}];
     lcda_polygons := [];
     boundary := {| geometry := []; columns := [] |};
     roads := [];
     roads_vertices_pgr := [] |}.

Definition loaded_tables : Tables :=
  Eval vm_compute in fst (@setup_database disk Sample.engine old_tables).

(** The first two sample roads only. *)
Definition two_roads_frame : GeoDataFrame :=
  {| geometry := take 2 (geometry Sample.roads_frame); columns := [] |}.

Definition two_roads_after : GeoDataFrame :=
  Eval vm_compute in fst (@build_topology_in_python Sample.engine two_roads_frame).

Definition two_roads_nodes : list Node :=
  Eval vm_compute in
    match snd (@build_topology_in_python Sample.engine two_roads_frame) with
    | Ok ns => ns
    | Raise _ => []
    end.

Definition feature (name : string) : Json :=
  JDict [("type", JStr "Feature"); ("properties", JDict [("name", JStr name)])].

(** The one character e with an acute accent: two bytes of UTF-8. *)
Definition e_acute : string :=
  String (ascii_of_nat 195) (String (ascii_of_nat 169) EmptyString).

(** Answers of a small database to the queries of the other handlers. *)
Definition layers : Layers :=
  {| features_like := fun pattern =>
       if decide (pattern = "%Bank%") then [feature "Unity Bank"] else [];
     features_within := fun _ _ dist =>
       if Qle_bool 100 dist then [feature "Unity Bank"] else [];
     lcda_features := [feature "Surulere"];
     boundary_features := [];
     lcdas_at := fun _ _ => [];
     roads_layer_features := Raise ValueError;
     search_matches := fun pattern =>
       if decide (pattern = "%ba%")
       then (fun n : nat =>
               (JStr "Bank", JStr "Bank", JNum (inject_Z (Z.of_nat n)), JNum 6.5))
              <$> seq 0 12
       else if decide (pattern = "%" ++ e_acute ++ "%")
       then [(JStr ("Caf" ++ e_acute), JStr "Hotel", JNum 3.35, JNum 6.5)]
       else [];
     poi_counts := [(JStr "Bank", JNum 2); (JStr "Hospital", JNum 1)];
     roads_total_km := Some 3.3396;
     lcda_total_sqkm := None;
     lcda_area_sqkm := fun name =>
       if decide (name = "Surulere") then Some (Some 23.004)
       else if decide (name = "Ghost") then Some None
       else None;
     lcda_roads := fun name =>
       if decide (name = "Surulere") then (3%Z, Some 1113.2) else (0%Z, None);
     lcda_longest_road := fun name =>
       if decide (name = "Surulere") then Some (Some "Bode Thomas") else None;
     lcda_poi := fun _ => [] |}.

End SampleFiles.

(* ===================================================================== *)
(** ** Facts about the dict and the frame columns *)
(* ===================================================================== *)

Section DictFacts.

Implicit Types (k : Key) (d : list (Key * nat)).

Lemma dict_get_Some_elem k d v : dict_get k d = Some v -> (k, v) ∈ d.
Proof.
  induction d as [|[k' v'] d IH]; simpl; [discriminate|].
  destruct (decide (k' = k)) as [->|Hne]; intros Hg.
  - inversion Hg; subst. left.
  - right. auto.
Qed.

Lemma dict_get_None k d : dict_get k d = None <-> k ∉ d.*1.
Proof.
  induction d as [|[k' v'] d IH]; simpl.
  - split; [intros _; apply not_elem_of_nil|reflexivity].
  - destruct (decide (k' = k)) as [->|Hne].
    + split; [discriminate|]. intros Hn. exfalso. apply Hn. left.
    + rewrite IH. rewrite not_elem_of_cons. split; [|tauto].
      intros Hn. split; [congruence|exact Hn].
Qed.

Lemma dict_get_is_Some k d : is_Some (dict_get k d) <-> k ∈ d.*1.
Proof.
  destruct (dict_get k d) as [v|] eqn:Hg.
  - split; [intros _|eauto].
    apply dict_get_Some_elem in Hg.
    apply list_elem_of_fmap. exists (k, v). auto.
  - apply dict_get_None in Hg. split; [intros [? ?]; discriminate|tauto].
Qed.

Lemma dict_get_app_l k d d' v :
  dict_get k d = Some v -> dict_get k (d ++ d') = Some v.
Proof.
  induction d as [|[k' v'] d IH]; simpl; [discriminate|].
  destruct (decide (k' = k)); auto.
Qed.

Lemma dict_get_snoc_new k d v :
  dict_get k d = None -> dict_get k (d ++ [(k, v)]) = Some v.
Proof.
  induction d as [|[k' v'] d IH]; simpl.
  - intros _. destruct (decide (k = k)); [reflexivity|congruence].
  - destruct (decide (k' = k)); [discriminate|auto].
Qed.

(** Distinct keys hold distinct ids once the ids have no duplicate. *)
Lemma dict_get_inj k1 k2 d v :
  NoDup d.*2 -> dict_get k1 d = Some v -> dict_get k2 d = Some v -> k1 = k2.
Proof.
  induction d as [|[k' v'] d IH]; simpl; [discriminate|].
  intros Hnd H1 H2. apply NoDup_cons in Hnd as [Hnotin Hnd].
  destruct (decide (k' = k1)) as [E1|Hn1], (decide (k' = k2)) as [E2|Hn2];
    simpl in *.
  - congruence.
  - inversion H1; subst. exfalso. apply Hnotin.
    apply dict_get_Some_elem in H2.
    apply list_elem_of_fmap. exists (k2, v). auto.
  - inversion H2; subst. exfalso. apply Hnotin.
    apply dict_get_Some_elem in H1.
    apply list_elem_of_fmap. exists (k1, v). auto.
  - eauto.
Qed.

Lemma column_assign_eq name vals cols :
  column name (assign name vals cols) = Some vals.
Proof.
  induction cols as [|[n old] cols IH]; simpl.
  - destruct (decide (name = name)); [reflexivity|congruence].
  - destruct (decide (n = name)) as [->|Hne]; simpl.
    + destruct (decide (name = name)); [reflexivity|congruence].
    + destruct (decide (n = name)); [congruence|exact IH].
Qed.

Lemma column_assign_ne name name' vals cols :
  name <> name' -> column name' (assign name vals cols) = column name' cols.
Proof.
  intros Hne. induction cols as [|[n old] cols IH]; simpl.
  - destruct (decide (name = name')); [congruence|reflexivity].
  - destruct (decide (n = name)) as [->|Hn]; simpl.
    + destruct (decide (name = name')); [congruence|reflexivity].
    + destruct (decide (n = name')); [reflexivity|exact IH].
Qed.

(** Writing a column back with the cells it already holds changes
    nothing. *)
Lemma assign_same name vals cols :
  column name cols = Some vals -> assign name vals cols = cols.
Proof.
  induction cols as [|[n old] cols IH]; simpl; [discriminate|].
  destruct (decide (n = name)) as [->|Hn].
  - intros [= ->]. reflexivity.
  - intros Hc. rewrite IH; auto.
Qed.

End DictFacts.

(* ===================================================================== *)
(** ** The loop of the builder *)
(* ===================================================================== *)

Ltac simpl_res :=
unfold mbind, mret, result_bind, result_ret, Py.bind in *; simpl in *.

Section LoopFacts.

Context `{!LengthEngine}.
Local Open Scope nat_scope.
Local Open Scope list_scope.

Lemma Inv_init : Inv init.
Proof. split; simpl; [reflexivity|reflexivity|constructor]. Qed.

Lemma intern_fields k a :
  sources (intern k a) = sources a /\
  targets (intern k a) = targets a /\
  costs (intern k a) = costs a.
Proof. unfold intern. destruct (dict_get k (nodes a)); simpl; auto. Qed.

Lemma intern_prefix k a : nodes a `prefix_of` nodes (intern k a).
Proof.
  unfold intern. destruct (dict_get k (nodes a)); simpl.
  - reflexivity.
  - eexists. reflexivity.
Qed.

Lemma intern_keys k a : (nodes (intern k a)).*1 = add_key (nodes a).*1 k.
Proof.
  unfold intern, add_key.
  destruct (dict_get k (nodes a)) as [v|] eqn:Hg.
  - assert (Hin : k ∈ (nodes a).*1) by (apply dict_get_is_Some; eauto).
    destruct (decide (k ∈ (nodes a).*1)); [reflexivity|contradiction].
  - apply dict_get_None in Hg.
    destruct (decide (k ∈ (nodes a).*1)); [contradiction|].
    simpl. rewrite fmap_app. reflexivity.
Qed.

Lemma intern_known k a : is_Some (dict_get k (nodes (intern k a))).
Proof.
  unfold intern. destruct (dict_get k (nodes a)) as [v|] eqn:Hg; simpl.
  - rewrite Hg. eauto.
  - rewrite dict_get_snoc_new; eauto.
Qed.

Lemma intern_Inv k a : Inv a -> Inv (intern k a).
Proof.
  intros [Hc Hi Hn]. unfold intern.
  destruct (dict_get k (nodes a)) as [v|] eqn:Hg; [split; assumption|].
  apply dict_get_None in Hg.
  split; simpl.
  - rewrite length_app. simpl. lia.
  - rewrite fmap_app, length_app, Hi. simpl.
    rewrite Hc. replace (length (nodes a) + 1)%nat with (S (length (nodes a))) by lia.
    rewrite seq_S. reflexivity.
  - rewrite fmap_app. simpl. apply NoDup_app. split; [assumption|].
    split.
    + intros x Hx Hx'. apply list_elem_of_singleton in Hx'. subst. contradiction.
    + apply NoDup_singleton.
Qed.

Lemma dict_get_prefix k d d' :
  d `prefix_of` d' -> is_Some (dict_get k d) -> dict_get k d' = dict_get k d.
Proof.
  intros [more ->] [v Hv]. rewrite Hv. apply dict_get_app_l. exact Hv.
Qed.

Lemma row_sources_prefix d d' geom :
  d `prefix_of` d' -> edge_known d geom ->
  row_sources d' geom = row_sources d geom /\
  row_targets d' geom = row_targets d geom /\
  edge_known d' geom.
Proof.
  intros Hp. unfold edge_known, row_sources, row_targets.
  destruct (row_kind geom) as [|s e| |x]; auto.
  intros [Hs He].
  rewrite (dict_get_prefix s d d' Hp Hs), (dict_get_prefix e d d' Hp He).
  auto.
Qed.

(** One iteration: what it leaves in the loop variables. *)
Lemma loop_body_spec geom a a' :
  Inv a -> loop_body geom a = Ok a' ->
  Inv a' /\
  (nodes a').*1 = fold_left add_key (row_keys geom) (nodes a).*1 /\
  nodes a `prefix_of` nodes a' /\
  edge_known (nodes a') geom /\
  sources a' = sources a ++ row_sources (nodes a') geom /\
  targets a' = targets a ++ row_targets (nodes a') geom /\
  costs a' = costs a ++ row_costs geom.
Proof.
  intros HI. unfold loop_body, row_keys, row_sources, row_targets, row_costs,
    edge_known, row_kind.
  destruct geom as [g|]; [destruct (is_empty g)|]; simpl_res.
  - intros [= <-]. simpl. repeat split; try apply HI; reflexivity.
  - destruct (line_ends g) as [[[s e]|]|x]; simpl.
    + set (a1 := intern s a). set (a2 := intern e a1).
      assert (HI2 : Inv a2) by (apply intern_Inv, intern_Inv, HI).
      assert (Hp1 : nodes a `prefix_of` nodes a1) by apply intern_prefix.
      assert (Hp2 : nodes a1 `prefix_of` nodes a2) by apply intern_prefix.
      assert (Hs : is_Some (dict_get s (nodes a2))).
      { rewrite (dict_get_prefix s _ _ Hp2); apply intern_known. }
      assert (He : is_Some (dict_get e (nodes a2))) by apply intern_known.
      unfold dict_item.
      destruct Hs as [vs Hs], He as [ve He]. rewrite Hs, He. simpl.
      intros [= <-]. simpl.
      destruct (intern_fields e a1) as (E1 & E2 & E3).
      destruct (intern_fields s a) as (F1 & F2 & F3).
      fold a1 in F1, F2, F3. fold a2 in E1, E2, E3.
      repeat split; try apply HI2.
      * unfold a2, a1. rewrite !intern_keys. reflexivity.
      * etransitivity; eassumption.
      * rewrite Hs. eauto.
      * rewrite He. eauto.
      * rewrite Hs. congruence.
      * rewrite He. congruence.
      * congruence.
    + intros [= <-]. repeat split; try apply HI; try reflexivity;
        rewrite ?app_nil_r; reflexivity.
    + discriminate.
  - intros [= <-]. simpl. repeat split; try apply HI; reflexivity.
Qed.

(** The whole loop. *)
Lemma loop_spec rows : forall a a',
  Inv a -> loop rows a = Ok a' ->
  Inv a' /\
  (nodes a').*1 = fold_left add_key (endpoint_keys rows) (nodes a).*1 /\
  nodes a `prefix_of` nodes a' /\
  Forall (edge_known (nodes a')) rows /\
  sources a' = sources a ++ (rows ≫= row_sources (nodes a')) /\
  targets a' = targets a ++ (rows ≫= row_targets (nodes a')) /\
  costs a' = costs a ++ (rows ≫= row_costs).
Proof.
  induction rows as [|geom rows IH]; intros a a' HI; simpl.
  - intros [= <-]. rewrite !app_nil_r. repeat split; try apply HI; auto.
  - simpl_res. destruct (loop_body geom a) as [a1|x] eqn:Hb; [|discriminate].
    intros Hl.
    destruct (loop_body_spec _ _ _ HI Hb) as (HI1 & K1 & P1 & Kn1 & S1 & T1 & C1).
    destruct (IH _ _ HI1 Hl) as (HI' & K' & P' & Kn' & S' & T' & C').
    destruct (row_sources_prefix _ _ geom P' Kn1) as (Rs & Rt & Kn).
    repeat split; try apply HI'.
    + unfold endpoint_keys in *. simpl. rewrite fold_left_app, <- K1. exact K'.
    + etransitivity; eassumption.
    + constructor; assumption.
    + rewrite S', S1, Rs, <- app_assoc. reflexivity.
    + rewrite T', T1, Rt, <- app_assoc. reflexivity.
    + rewrite C', C1, <- app_assoc. reflexivity.
Qed.

End LoopFacts.

(* ===================================================================== *)
(** ** From the loop to the frame the builder leaves *)
(* ===================================================================== *)

Section BuildFacts.

Context `{!LengthEngine}.
Local Open Scope nat_scope.
Local Open Scope list_scope.

Lemma bind_length_le {A B} (f : A -> list B) (rows : list A) :
  (forall g, length (f g) <= 1) -> length (rows ≫= f) <= length rows.
Proof.
  intros Hf. induction rows as [|g rows IH]; [simpl; lia|].
  rewrite bind_cons, length_app, length_cons. specialize (Hf g). lia.
Qed.

(** When every row adds at most one entry and there are as many entries
    as rows, entry [i] is the one row [i] added. *)
Lemma bind_aligned {A B} (f : A -> list B) (rows : list A) :
  (forall g, length (f g) <= 1) ->
  length (rows ≫= f) = length rows ->
  forall i g, rows !! i = Some g ->
    exists x, f g = [x] /\ (rows ≫= f) !! i = Some x.
Proof.
  intros Hf. induction rows as [|g0 rows IH]; intros Hlen i g Hi;
    [discriminate|].
  rewrite bind_cons, length_app, length_cons in Hlen. rewrite bind_cons.
  pose proof (bind_length_le f rows Hf) as Hle.
  pose proof (Hf g0) as H0.
  destruct (f g0) as [|x [|y rest]] eqn:Hfg; simpl in Hlen, H0; try lia.
  destruct i as [|i]; simpl in Hi.
  - inversion Hi; subst. exists x. rewrite Hfg. auto.
  - destruct (IH ltac:(lia) i g Hi) as (x' & Hx' & Hl). exists x'.
    simpl. auto.
Qed.

Lemma row_sources_short d geom : length (row_sources d geom) <= 1.
Proof. unfold row_sources. destruct (row_kind geom); simpl; lia. Qed.

Lemma row_targets_short d geom : length (row_targets d geom) <= 1.
Proof. unfold row_targets. destruct (row_kind geom); simpl; lia. Qed.

Lemma row_costs_short geom : length (row_costs geom) <= 1.
Proof.
  unfold row_costs.
  destruct geom as [g|]; [destruct (row_kind (Some g))|]; simpl; lia.
Qed.

(** The builder returns exactly when the loop ends without an exception
    and has recorded one entry per row. *)
Lemma build_unfold gdf :
  build_topology_in_python gdf =
  match loop (geometry gdf) init with
  | Raise e => (gdf, Raise e)
  | Ok a =>
      if decide (length (sources a) = n_rows gdf) then
        if decide (length (targets a) = n_rows gdf) then
          if decide (length (costs a) = n_rows gdf) then
            (annotated gdf a, nodes_gdf_of (node_rows (nodes a)))
          else ({| geometry := geometry gdf;
                   columns := assign "target" (id_value <$> targets a)
                                (assign "source" (id_value <$> sources a)
                                   (columns gdf)) |}, Raise ValueError)
        else ({| geometry := geometry gdf;
                 columns := assign "source" (id_value <$> sources a)
                              (columns gdf) |}, Raise ValueError)
      else (gdf, Raise ValueError)
  end.
Proof.
  unfold build_topology_in_python.
  destruct (loop (geometry gdf) init) as [a|e]; [|reflexivity].
  unfold and_then, setitem, n_rows; simpl. rewrite !length_fmap.
  repeat match goal with
         | |- context [decide ?P] => destruct (decide P); simpl
         end; solve [reflexivity | contradiction].
Qed.

Lemma rows_same_length d rows :
  length (rows ≫= row_targets d) = length (rows ≫= row_sources d) /\
  length (rows ≫= row_costs) = length (rows ≫= row_sources d).
Proof.
  induction rows as [|geom rows [IH1 IH2]]; [split; reflexivity|].
  rewrite !bind_cons, !length_app, IH1, IH2.
  unfold row_targets, row_sources, row_costs.
  destruct geom as [g|]; [destruct (row_kind (Some g))|];
    simpl; split; reflexivity.
Qed.

Lemma nodes_gdf_of_Ok (ns ns' : list Node) :
  nodes_gdf_of ns = Ok ns' <-> ns' = ns /\ ns <> [].
Proof.
  destruct ns as [|n ns]; simpl; split.
  - discriminate.
  - intros [_ Hne]. congruence.
  - intros [= <-]. split; [reflexivity|discriminate].
  - intros [-> _]. reflexivity.
Qed.

Lemma node_rows_nil d : node_rows d = [] <-> d = [].
Proof. destruct d; simpl; split; congruence. Qed.

Lemma build_Ok_inv gdf gdf' ns :
  build_topology_in_python gdf = (gdf', Ok ns) ->
  exists a,
    loop (geometry gdf) init = Ok a /\
    length (sources a) = n_rows gdf /\
    length (targets a) = n_rows gdf /\
    length (costs a) = n_rows gdf /\
    gdf' = annotated gdf a /\ ns = node_rows (nodes a).
Proof.
  rewrite build_unfold.
  destruct (loop (geometry gdf) init) as [a|e]; [|intros [= _ ?]; discriminate].
  repeat case_decide; intros [= <- E]; try discriminate.
  apply nodes_gdf_of_Ok in E as [-> _].
  exists a. auto 10.
Qed.

(** A build that returns has made at least one node. *)
Lemma build_Ok_nodes gdf gdf' ns :
  build_topology_in_python gdf = (gdf', Ok ns) -> ns <> [].
Proof.
  rewrite build_unfold.
  destruct (loop (geometry gdf) init) as [a|e]; [|intros [= _ ?]; discriminate].
  repeat case_decide; intros [= <- E]; try discriminate.
  apply nodes_gdf_of_Ok in E as [-> Hne]. exact Hne.
Qed.

Lemma build_Ok_intro gdf a :
  loop (geometry gdf) init = Ok a ->
  length (sources a) = n_rows gdf ->
  length (targets a) = n_rows gdf ->
  length (costs a) = n_rows gdf ->
  nodes a <> [] ->
  build_topology_in_python gdf = (annotated gdf a, Ok (node_rows (nodes a))).
Proof.
  intros Hl Ls Lt Lc Hne. rewrite build_unfold, Hl.
  repeat case_decide; try contradiction.
  f_equal. apply nodes_gdf_of_Ok. split; [reflexivity|].
  rewrite node_rows_nil. exact Hne.
Qed.

(** An exception of the loop or of the first assignment leaves the
    caller's frame as it was; the exception of line 86 finds the four
    columns written. *)
Lemma build_Raise_inv gdf gdf' e :
  build_topology_in_python gdf = (gdf', Raise e) ->
  gdf' = gdf \/
  (e = ValueError /\
   exists a,
     loop (geometry gdf) init = Ok a /\ nodes a = [] /\
     length (sources a) = n_rows gdf /\
     length (targets a) = n_rows gdf /\
     length (costs a) = n_rows gdf /\
     gdf' = annotated gdf a).
Proof.
  rewrite build_unfold.
  destruct (loop (geometry gdf) init) as [a|x] eqn:Hl; [|intros [= <- _]; auto].
  destruct (loop_spec _ _ _ Inv_init Hl) as (_ & _ & _ & _ & S & T & C).
  simpl in S, T, C.
  destruct (rows_same_length (nodes a) (geometry gdf)) as [Lt Lc].
  rewrite <- S in Lt, Lc. rewrite <- T in Lt. rewrite <- C in Lc.
  repeat case_decide; intros [= <- E]; try (left; reflexivity);
    try (exfalso; congruence).
  right. destruct (node_rows (nodes a)) as [|n ns] eqn:Hn; [|discriminate].
  apply node_rows_nil in Hn. inversion E; subst e.
  split; [reflexivity|]. exists a. auto 10.
Qed.

Lemma annotated_columns gdf a :
  column "source" (columns (annotated gdf a)) = Some (id_value <$> sources a) /\
  column "target" (columns (annotated gdf a)) = Some (id_value <$> targets a) /\
  column "cost" (columns (annotated gdf a)) = Some (VFloat <$> costs a) /\
  column "reverse_cost" (columns (annotated gdf a)) = Some (VFloat <$> costs a).
Proof.
  unfold annotated; simpl.
  repeat split;
    repeat first [ apply column_assign_eq
                 | rewrite column_assign_ne by discriminate ].
Qed.

Lemma cell_of_column name gdf vals i v :
  column name (columns gdf) = Some vals -> vals !! i = Some v ->
  cell name i gdf = v.
Proof. unfold cell. intros -> Hv. simpl. rewrite Hv. reflexivity. Qed.

Lemma annotated_keeps name gdf a :
  name ∉ ["source"; "target"; "cost"; "reverse_cost"] ->
  column name (columns (annotated gdf a)) = column name (columns gdf).
Proof.
  intros Hn. unfold annotated; simpl.
  rewrite !not_elem_of_cons in Hn. destruct Hn as (N1 & N2 & N3 & N4 & _).
  rewrite !column_assign_ne by congruence. reflexivity.
Qed.

(** The frame with its four columns written, row by row, whether or not
    line 86 then raises. *)
Lemma annotated_rows gdf a :
  loop (geometry gdf) init = Ok a ->
  length (sources a) = n_rows gdf ->
  length (targets a) = n_rows gdf ->
  length (costs a) = n_rows gdf ->
  NoDup (nodes a).*1 /\
  (nodes a).*2 = seq 1 (length (nodes a)) /\
  (nodes a).*1 = first_seen (endpoint_keys (geometry gdf)) /\
  forall i geom, geometry gdf !! i = Some geom ->
    row_recorded (nodes a) i geom (annotated gdf a).
Proof.
  intros Hl Ls Lt Lc.
  destruct (loop_spec _ _ _ Inv_init Hl) as ([_ Hids Hnd] & K & _ & Kn & S & T & C).
  simpl in S, T, C, K.
  repeat split; auto.
  intros i geom Hi.
  destruct (annotated_columns gdf a) as (Cs & Ct & Cc & Cr).
  rewrite S in Ls. rewrite T in Lt. rewrite C in Lc. unfold n_rows in *.
  destruct (bind_aligned _ _ (row_sources_short (nodes a)) Ls i geom Hi)
    as (xs & Hxs & Hsi).
  destruct (bind_aligned _ _ (row_targets_short (nodes a)) Lt i geom Hi)
    as (xt & Hxt & Hti).
  destruct (bind_aligned _ _ row_costs_short Lc i geom Hi)
    as (xc & Hxc & Hci).
  rewrite <- S in Hsi. rewrite <- T in Hti. rewrite <- C in Hci.
  assert (Es : cell "source" i (annotated gdf a) = id_value xs).
  { eapply cell_of_column; [exact Cs|]. rewrite list_lookup_fmap, Hsi. reflexivity. }
  assert (Et : cell "target" i (annotated gdf a) = id_value xt).
  { eapply cell_of_column; [exact Ct|]. rewrite list_lookup_fmap, Hti. reflexivity. }
  assert (Ec : cell "cost" i (annotated gdf a) = VFloat xc).
  { eapply cell_of_column; [exact Cc|]. rewrite list_lookup_fmap, Hci. reflexivity. }
  assert (Er : cell "reverse_cost" i (annotated gdf a) = VFloat xc).
  { eapply cell_of_column; [exact Cr|]. rewrite list_lookup_fmap, Hci. reflexivity. }
  rewrite Forall_forall in Kn.
  assert (Hk : edge_known (nodes a) geom).
  { apply Kn. apply list_elem_of_lookup. eauto. }
  clear Ls Lt Lc S T C Kn Hl K Hsi Hti Hci.
  unfold row_recorded.
  unfold row_sources in Hxs. unfold row_targets in Hxt.
  unfold row_costs in Hxc. unfold edge_known in Hk.
  destruct geom as [g|].
  - destruct (row_kind (Some g)) as [|s e| |x]; try discriminate.
    + inversion Hxs; inversion Hxt; inversion Hxc; subst. auto.
    + destruct Hk as [[vs Hvs] [ve Hve]].
      inversion Hxs; inversion Hxt; inversion Hxc; subst.
      exists vs, ve. rewrite Hvs in Es. rewrite Hve in Et. auto 10.
  - simpl in *.
    inversion Hxs; inversion Hxt; inversion Hxc; subst. auto.
Qed.

(** Everything a successful build leaves behind, row by row. *)
Lemma build_rows gdf gdf' ns :
  build_topology_in_python gdf = (gdf', Ok ns) ->
  exists d,
    ns = node_rows d /\
    NoDup d.*1 /\
    d.*2 = seq 1 (length d) /\
    d.*1 = first_seen (endpoint_keys (geometry gdf)) /\
    geometry gdf' = geometry gdf /\
    forall i geom, geometry gdf !! i = Some geom ->
      row_recorded d i geom gdf'.
Proof.
  intros Hb. destruct (build_Ok_inv _ _ _ Hb) as (a & Hl & Ls & Lt & Lc & -> & ->).
  destruct (annotated_rows gdf a Hl Ls Lt Lc) as (Hnd & Hids & K & Hrows).
  exists (nodes a). repeat split; auto.
Qed.

End BuildFacts.

(* ===================================================================== *)
(** ** First-seen order and rounded keys *)
(* ===================================================================== *)

Section KeyFacts.

Local Open Scope nat_scope.
Local Open Scope list_scope.

Lemma add_key_elem seen k x : x ∈ add_key seen k <-> x ∈ seen \/ x = k.
Proof.
  unfold add_key. destruct (decide (k ∈ seen)) as [Hin|Hout].
  - split; [auto|]. intros [?| ->]; assumption.
  - rewrite elem_of_app, list_elem_of_singleton. reflexivity.
Qed.

Lemma add_key_NoDup seen k : NoDup seen -> NoDup (add_key seen k).
Proof.
  intros Hnd. unfold add_key. destruct (decide (k ∈ seen)); [assumption|].
  apply NoDup_app. split; [assumption|]. split; [|apply NoDup_singleton].
  intros x Hx Hx'. apply list_elem_of_singleton in Hx'. subst. contradiction.
Qed.

Lemma fold_add_key_elem ks : forall seen x,
  x ∈ fold_left add_key ks seen <-> x ∈ seen \/ x ∈ ks.
Proof.
  induction ks as [|k ks IH]; intros seen x; simpl.
  - rewrite elem_of_nil. tauto.
  - rewrite IH, add_key_elem, elem_of_cons. tauto.
Qed.

Lemma fold_add_key_NoDup ks : forall seen,
  NoDup seen -> NoDup (fold_left add_key ks seen).
Proof.
  induction ks as [|k ks IH]; intros seen Hnd; simpl; [assumption|].
  apply IH, add_key_NoDup, Hnd.
Qed.

Lemma first_seen_elem ks x : x ∈ first_seen ks <-> x ∈ ks.
Proof.
  unfold first_seen. rewrite fold_add_key_elem, elem_of_nil. tauto.
Qed.

Lemma first_seen_NoDup ks : NoDup (first_seen ks).
Proof. apply fold_add_key_NoDup, NoDup_nil_2. Qed.

(** As many first-seen keys as there are distinct keys. *)
Lemma first_seen_length ks : length (first_seen ks) = length (remove_dups ks).
Proof.
  apply Permutation_length, NoDup_Permutation.
  - apply first_seen_NoDup.
  - apply NoDup_remove_dups.
  - intros x. rewrite first_seen_elem, elem_of_remove_dups. reflexivity.
Qed.

(** Two rounded values are equal as numbers exactly when the fractions
    that stand for them are the same. *)
Lemma round_ndigits_eq x y n :
  (round_ndigits x n == round_ndigits y n)%Q <->
  round_ndigits x n = round_ndigits y n.
Proof.
  unfold round_ndigits. split.
  - unfold Qeq. simpl. intros Heq. f_equal.
    apply Z.mul_cancel_r in Heq; [exact Heq|discriminate].
  - intros ->. reflexivity.
Qed.

(** The endpoints of a line with a coordinate sequence: its first and
    its last coordinate, rounded. *)
Lemma row_kind_LineString c cs :
  exists e, last (c :: cs) = Some e /\
    row_kind (Some (LineString (c :: cs))) = Edge (rounded c) (rounded e).
Proof.
  destruct (last (c :: cs)) as [e|] eqn:Hl;
    [|apply last_None in Hl; discriminate].
  exists e. split; [reflexivity|].
  unfold row_kind, line_ends, item_last.
  change (is_empty (LineString (c :: cs))) with false.
  change (coords_of (LineString (c :: cs))) with (Some (c :: cs)).
  cbv beta iota. rewrite Hl. reflexivity.
Qed.

End KeyFacts.

(* ===================================================================== *)
(** ** The roads table and the walks over it *)
(* ===================================================================== *)

Section TableFacts.

Context `{!LengthEngine}.
Local Open Scope nat_scope.
Local Open Scope list_scope.

(** Row [i] of the [roads] table, from row [i] of the frame. *)
Lemma setup_rows gdf roads ns :
  setup_database_roads gdf = Ok (roads, ns) ->
  exists gdf',
    build_topology_in_python gdf = (gdf', Ok ns) /\
    length roads = n_rows gdf /\
    forall i geom, geometry gdf !! i = Some geom ->
      roads !! i =
      Some {| road_id := match column "id" (columns gdf) with
                         | Some _ => cell "id" i gdf
                         | None => VInt (S i)
                         end;
              geom := geom;
              source := sql_int (cell "source" i gdf');
              target := sql_int (cell "target" i gdf');
              cost := ST_Length_geography <$> geom;
              reverse_cost := ST_Length_geography <$> geom |}.
Proof.
  unfold setup_database_roads.
  destruct (build_topology_in_python gdf) as [gdf' [ns'|e]] eqn:Hb;
    [|discriminate].
  intros [= <- <-]. exists gdf'. split; [reflexivity|].
  destruct (build_Ok_inv _ _ _ Hb) as (a & _ & _ & _ & _ & -> & _).
  assert (Hid : column "id" (columns (annotated gdf a)) = column "id" (columns gdf)).
  { apply annotated_keeps. rewrite !not_elem_of_cons.
    repeat split; try discriminate. apply not_elem_of_nil. }
  split.
  - rewrite !length_fmap. unfold to_postgis_roads.
    rewrite length_imap. reflexivity.
  - intros i geom Hi.
    rewrite !list_lookup_fmap. unfold to_postgis_roads.
    rewrite list_lookup_imap. change (geometry (annotated gdf a)) with (geometry gdf).
    rewrite Hi. unfold cell at 1. rewrite Hid. reflexivity.
Qed.

Lemma setup_returns gdf gdf' ns :
  build_topology_in_python gdf = (gdf', Ok ns) ->
  exists roads, setup_database_roads gdf = Ok (roads, ns).
Proof. intros Hb. unfold setup_database_roads. rewrite Hb. eauto. Qed.

(** After the two UPDATE statements every road that has a geometry has
    a cost. *)
Lemma setup_roads_costed gdf roads ns r :
  setup_database_roads gdf = Ok (roads, ns) ->
  r ∈ roads -> geom r <> None -> cost r <> None.
Proof.
  intros Hs Hr. destruct (setup_rows _ _ _ Hs) as (gdf' & _ & Hlen & Hrows).
  apply list_elem_of_lookup in Hr as [i Hi].
  assert (Hlt : i < length (geometry gdf)).
  { apply lookup_lt_Some in Hi. unfold n_rows in Hlen. lia. }
  apply lookup_lt_is_Some in Hlt as [g Hg].
  rewrite (Hrows _ _ Hg) in Hi. inversion Hi; subst; simpl.
  destruct g; simpl; congruence.
Qed.

(** A walk only uses roads that have both endpoints. *)
Lemma walk_roads_joined roads u p w r :
  walk roads u p w -> r ∈ p -> is_Some (source r) /\ is_Some (target r).
Proof.
  induction 1 as [|u v w r' p Hin Hj Hw IH]; intros Hr.
  - apply elem_of_nil in Hr. contradiction.
  - apply elem_of_cons in Hr as [->|Hr]; [|auto].
    destruct Hj as [[-> ->]|[-> ->]]; eauto.
Qed.

End TableFacts.

(* ===================================================================== *)
(** ** The topology builder: costs and excluded edges *)
(* ===================================================================== *)

Section EdgeClaims.

Context `{!LengthEngine}.
Local Open Scope nat_scope.
Local Open Scope list_scope.

(** What the builder itself writes for a line that becomes an edge: the
    same planar [geom.length] in both cost columns.  The table gets its
    final costs from the UPDATE statements that follow. *)
Lemma builder_cost_columns gdf gdf' ns i g s e :
  build_topology_in_python gdf = (gdf', Ok ns) ->
  geometry gdf !! i = Some (Some g) ->
  row_kind (Some g) = Edge s e ->
  cell "cost" i gdf' = VFloat (length_planar g) /\
  cell "reverse_cost" i gdf' = cell "cost" i gdf'.
Proof.
  intros Hb Hi Hk. destruct (build_rows _ _ _ Hb) as (d & _ & _ & _ & _ & _ & Hrows).
  specialize (Hrows _ _ Hi). unfold row_recorded in Hrows. rewrite Hk in Hrows.
  destruct Hrows as (vs & ve & _ & _ & _ & _ & Hc & Hr). rewrite Hc, Hr. auto.
Qed.

(** C3.  Every line with a geometry ends up, in the [roads] table that
    [setup_database] leaves, as the edge at the same position whose cost
    is the geographic length [ST_Length(geom::geography)] of that very
    geometry, whose reverse cost is the same value, and whose cost is not
    negative (PostGIS lengths never are). *)
Theorem road_cost_is_geographic_length gdf roads ns i g :
  (forall g', (0 <= ST_Length_geography g')%Q) ->
  setup_database_roads gdf = Ok (roads, ns) ->
  geometry gdf !! i = Some (Some g) ->
  exists r c,
    roads !! i = Some r /\ geom r = Some g /\
    cost r = Some c /\ reverse_cost r = Some c /\
    c = ST_Length_geography g /\ (0 <= c)%Q.
Proof.
  intros Hpos Hs Hi. destruct (setup_rows _ _ _ Hs) as (gdf' & _ & _ & Hrows).
  eexists _, _. split; [apply (Hrows _ _ Hi)|]. simpl.
  repeat split. apply Hpos.
Qed.

(** What holds of a line whose geometry is missing or empty whenever the
    build returns: it gets no source, no target and cost 0 from the
    builder, and its row of the [roads] table has neither endpoint, so
    that no walk over the table contains it, nor any answer of a search
    that walks the table.  The handlers give the whole table to the
    search; nothing in the repository filters such a row out. *)
Lemma excluded_rows_of_a_returning_build gdf gdf' ns i geom :
  build_topology_in_python gdf = (gdf', Ok ns) ->
  geometry gdf !! i = Some geom ->
  has_shape geom = false ->
  cell "source" i gdf' = VNone /\
  cell "target" i gdf' = VNone /\
  cell "cost" i gdf' = VFloat 0 /\
  exists roads r,
    setup_database_roads gdf = Ok (roads, ns) /\
    roads !! i = Some r /\ source r = None /\ target r = None /\
    (forall u p w, walk roads u p w -> r ∉ p) /\
    (forall D : Database, searches_walk roads ->
       forall s e, r ∉ pgr_dijkstra_roads s e).
Proof.
  intros Hb Hi Hgeom.
  assert (Hk : row_kind geom = Excluded).
  { destruct geom as [g|]; [|reflexivity]. simpl in Hgeom.
    apply negb_false_iff in Hgeom. unfold row_kind. rewrite Hgeom. reflexivity. }
  destruct (build_rows _ _ _ Hb) as (d & _ & _ & _ & _ & _ & Hrows).
  specialize (Hrows _ _ Hi). unfold row_recorded in Hrows.
  assert (Hcells : cell "source" i gdf' = VNone /\ cell "target" i gdf' = VNone /\
                   cell "cost" i gdf' = VFloat 0).
  { destruct geom; [rewrite Hk in Hrows|simpl in Hrows]; tauto. }
  destruct Hcells as (Cs & Ct & Cc). repeat split; try assumption.
  destruct (setup_returns _ _ _ Hb) as [roads Hs].
  destruct (setup_rows _ _ _ Hs) as (gdf'' & Hb' & _ & Hr).
  rewrite Hb in Hb'. inversion Hb'; subst gdf''.
  specialize (Hr _ _ Hi).
  match type of Hr with _ = Some ?row => set (r := row) in * end.
  assert (Hsrc : source r = None) by (unfold r; cbn [source]; rewrite Cs; reflexivity).
  assert (Htgt : target r = None) by (unfold r; cbn [target]; rewrite Ct; reflexivity).
  assert (Hwalk : forall u p w, walk roads u p w -> r ∉ p).
  { intros u p w Hw Hin.
    destruct (walk_roads_joined _ _ _ _ _ Hw Hin) as [[x Hx] _].
    rewrite Hsrc in Hx. discriminate. }
  exists roads, r. repeat split; try assumption.
  intros D Hsearch s e Hin. destruct (Hsearch s e) as [Hnil|Hw].
  - rewrite Hnil in Hin. apply elem_of_nil in Hin. contradiction.
  - exact (Hwalk _ _ _ Hw Hin).
Qed.

End EdgeClaims.

(* ===================================================================== *)
(** ** The topology builder: node identifiers *)
(* ===================================================================== *)

Section NodeClaims.

Context `{!LengthEngine}.
Local Open Scope nat_scope.
Local Open Scope list_scope.

Lemma node_rows_ids d : node_id <$> node_rows d = d.*2.
Proof.
  unfold node_rows. rewrite <- list_fmap_compose. reflexivity.
Qed.

Lemma node_rows_points d : node_point <$> node_rows d = d.*1.
Proof.
  unfold node_rows. rewrite <- list_fmap_compose. reflexivity.
Qed.

Lemma annotated_twice gdf a : annotated (annotated gdf a) a = annotated gdf a.
Proof.
  destruct (annotated_columns gdf a) as (Cs & Ct & Cc & Cr).
  unfold annotated at 1. f_equal.
  rewrite (assign_same "source") by exact Cs.
  rewrite (assign_same "target") by exact Ct.
  rewrite (assign_same "cost") by exact Cc.
  rewrite (assign_same "reverse_cost") by exact Cr.
  reflexivity.
Qed.

Lemma annotated_cells_agree gdf1 gdf2 a name i :
  name ∈ ["source"; "target"; "cost"; "reverse_cost"] ->
  cell name i (annotated gdf2 a) = cell name i (annotated gdf1 a).
Proof.
  intros Hn.
  destruct (annotated_columns gdf1 a) as (Cs1 & Ct1 & Cc1 & Cr1).
  destruct (annotated_columns gdf2 a) as (Cs2 & Ct2 & Cc2 & Cr2).
  unfold cell.
  repeat (apply elem_of_cons in Hn as [->|Hn]; [congruence|]).
  apply elem_of_nil in Hn. contradiction.
Qed.

Lemma cell_annotated_keeps name i gdf a :
  name ∉ ["source"; "target"; "cost"; "reverse_cost"] ->
  cell name i (annotated gdf a) = cell name i gdf.
Proof. intros Hn. unfold cell. rewrite annotated_keeps by exact Hn. reflexivity. Qed.

Lemma id_is_not_written :
  "id" ∉ ["source"; "target"; "cost"; "reverse_cost"].
Proof.
  rewrite !not_elem_of_cons. repeat split; try discriminate. apply not_elem_of_nil.
Qed.

(** The ids of the [roads] table: the cells of the [id] column of the
    layer when it has one, the row numbers from 1 otherwise. *)
Lemma road_ids_in_order gdf :
  road_id <$> (update_reverse_cost <$> (update_cost <$> to_postgis_roads gdf)) =
  match column "id" (columns gdf) with
  | Some _ => (fun i => cell "id" i gdf) <$> seq 0 (n_rows gdf)
  | None => VInt <$> seq 1 (n_rows gdf)
  end.
Proof.
  rewrite <- !list_fmap_compose. unfold to_postgis_roads, n_rows.
  rewrite fmap_imap.
  destruct (column "id" (columns gdf)) as [vals|].
  - rewrite (imap_ext _ (fun i _ => cell "id" i gdf)) by reflexivity.
    apply imap_seq_0.
  - rewrite (imap_ext _ (fun i _ => VInt (S i))) by reflexivity.
    rewrite (imap_seq_0 (geometry gdf) (fun i => VInt (S i))).
    rewrite <- fmap_S_seq, <- list_fmap_compose. reflexivity.
Qed.

(** The table depends on the geometries, on the four columns the builder
    writes and on the [id] column; on nothing else of the frame. *)
Lemma to_postgis_roads_ext gdf1 gdf2 :
  geometry gdf2 = geometry gdf1 ->
  (forall name, name ∈ ["id"; "source"; "target"; "cost"; "reverse_cost"] ->
     column name (columns gdf2) = column name (columns gdf1)) ->
  to_postgis_roads gdf2 = to_postgis_roads gdf1.
Proof.
  intros Hg Hc. unfold to_postgis_roads, cell. rewrite Hg.
  rewrite (Hc "id"), (Hc "source"), (Hc "target"), (Hc "cost"),
    (Hc "reverse_cost") by (repeat constructor).
  reflexivity.
Qed.

(** C8.  The outcome of a build is fixed by its input: by the sequence of
    geometries and, for the ids of the edges, by the [id] column of the
    layer if it has one.  Node ids are 1, 2, ... in the order in which
    the rounded endpoint coordinates are first seen.  A second build, on
    the very frame the first build left behind or on any frame with the
    same geometries and the same [id] column, returns the same nodes and
    writes the same source and target cells, and [setup_database] makes
    the same rows of the [roads] table of it: same id, geometry, source,
    target and costs, row for row.  The edge ids are the values of the
    [id] column of the layer when it has one (the [ALTER TABLE] of line
    188 then adds nothing), and 1, 2, ... by row position otherwise. *)
Theorem topology_build_is_deterministic gdf1 gdf2 gdf1' ns :
  geometry gdf2 = geometry gdf1 ->
  column "id" (columns gdf2) = column "id" (columns gdf1) ->
  build_topology_in_python gdf1 = (gdf1', Ok ns) ->
  node_id <$> ns = seq 1 (length ns) /\
  node_point <$> ns = first_seen (endpoint_keys (geometry gdf1)) /\
  (exists gdf2',
     build_topology_in_python gdf2 = (gdf2', Ok ns) /\
     forall i, cell "source" i gdf2' = cell "source" i gdf1' /\
               cell "target" i gdf2' = cell "target" i gdf1') /\
  build_topology_in_python gdf1' = (gdf1', Ok ns) /\
  (exists roads,
     setup_database_roads gdf1 = Ok (roads, ns) /\
     setup_database_roads gdf2 = Ok (roads, ns) /\
     setup_database_roads gdf1' = Ok (roads, ns) /\
     road_id <$> roads =
     match column "id" (columns gdf1) with
     | Some _ => (fun i => cell "id" i gdf1) <$> seq 0 (n_rows gdf1)
     | None => VInt <$> seq 1 (n_rows gdf1)
     end).
Proof.
  intros Hg Hid Hb.
  pose proof (build_Ok_nodes _ _ _ Hb) as Hne.
  destruct (build_Ok_inv _ _ _ Hb) as (a & Hl & Ls & Lt & Lc & -> & ->).
  rewrite node_rows_nil in Hne.
  destruct (loop_spec _ _ _ Inv_init Hl) as ([_ Hids _] & Hkeys & _).
  simpl in Hkeys.
  assert (Hb2 : build_topology_in_python gdf2 =
                (annotated gdf2 a, Ok (node_rows (nodes a)))).
  { apply build_Ok_intro; unfold n_rows in *; rewrite ?Hg; assumption. }
  assert (Hb1 : build_topology_in_python (annotated gdf1 a) =
                (annotated gdf1 a, Ok (node_rows (nodes a)))).
  { rewrite <- (annotated_twice gdf1 a) at 2.
    apply build_Ok_intro; assumption. }
  assert (Hroads : to_postgis_roads (annotated gdf2 a) =
                   to_postgis_roads (annotated gdf1 a)).
  { apply to_postgis_roads_ext; [exact Hg|].
    intros name Hn.
    destruct (annotated_columns gdf1 a) as (Cs1 & Ct1 & Cc1 & Cr1).
    destruct (annotated_columns gdf2 a) as (Cs2 & Ct2 & Cc2 & Cr2).
    apply elem_of_cons in Hn as [->|Hn].
    - rewrite !annotated_keeps by exact id_is_not_written. exact Hid.
    - repeat (apply elem_of_cons in Hn as [->|Hn]; [congruence|]).
      apply elem_of_nil in Hn. contradiction. }
  repeat split.
  - rewrite node_rows_ids. unfold node_rows. rewrite length_fmap. exact Hids.
  - rewrite node_rows_points. exact Hkeys.
  - exists (annotated gdf2 a). split; [exact Hb2|].
    intros i. split; apply annotated_cells_agree; repeat constructor.
  - exact Hb1.
  - eexists. unfold setup_database_roads. rewrite Hb, Hb2, Hb1, Hroads.
    repeat split.
    rewrite (road_ids_in_order (annotated gdf1 a)).
    rewrite annotated_keeps by exact id_is_not_written.
    change (n_rows (annotated gdf1 a)) with (n_rows gdf1).
    destruct (column "id" (columns gdf1)); [|reflexivity].
    apply list_fmap_ext. intros j x _.
    apply cell_annotated_keeps, id_is_not_written.
Qed.

End NodeClaims.

(* ===================================================================== *)
(** ** The topology builder: what happens to its input *)
(* ===================================================================== *)

Section FrameClaims.

Context `{!LengthEngine}.
Local Open Scope nat_scope.
Local Open Scope list_scope.

Lemma excluded_has_no_shape geom :
  row_kind geom = Excluded <-> has_shape geom = false.
Proof.
  destruct geom as [g|]; simpl; [|split; reflexivity].
  unfold row_kind. destruct (is_empty g); simpl; [split; reflexivity|].
  destruct (line_ends g) as [[[? ?]|]|]; split; discriminate.
Qed.

(** The frame line 86 raises on: no row has a coordinate, and every row
    has got the cells of an excluded edge. *)
Lemma annotated_without_nodes gdf a :
  loop (geometry gdf) init = Ok a -> nodes a = [] ->
  length (sources a) = n_rows gdf ->
  length (targets a) = n_rows gdf ->
  length (costs a) = n_rows gdf ->
  forall i geom, geometry gdf !! i = Some geom ->
    has_shape geom = false /\
    cell "source" i (annotated gdf a) = VNone /\
    cell "target" i (annotated gdf a) = VNone /\
    cell "cost" i (annotated gdf a) = VFloat 0 /\
    cell "reverse_cost" i (annotated gdf a) = VFloat 0.
Proof.
  intros Hl Hnil Ls Lt Lc i geom Hi.
  destruct (annotated_rows gdf a Hl Ls Lt Lc) as (_ & _ & _ & Hrows).
  specialize (Hrows _ _ Hi). unfold row_recorded in Hrows.
  rewrite Hnil in Hrows.
  destruct geom as [g|].
  - destruct (row_kind (Some g)) as [|s e| |x] eqn:Hk; try contradiction.
    + split; [apply excluded_has_no_shape; exact Hk|exact Hrows].
    + destruct Hrows as (vs & ve & Hs & _). discriminate.
  - simpl in Hrows. split; [reflexivity|exact Hrows].
Qed.

(** C9, as amended.  The builder never touches the geometry column nor
    any column other than [source], [target], [cost] and [reverse_cost].
    When it returns, those four columns of the caller's frame hold one
    freshly written cell per row.  When it raises, the frame is as it
    was, with one exception: on a frame none of whose rows has a
    coordinate the exception is that of line 86, and it finds the four
    columns written, with the cells of an excluded edge in every row. *)
Theorem builder_keeps_lines_and_other_columns gdf gdf' res :
  build_topology_in_python gdf = (gdf', res) ->
  geometry gdf' = geometry gdf /\
  (forall name, name ∉ ["source"; "target"; "cost"; "reverse_cost"] ->
     column name (columns gdf') = column name (columns gdf)) /\
  match res with
  | Raise e =>
      gdf' = gdf \/
      (e = ValueError /\
       Forall (fun geom => has_shape geom = false) (geometry gdf) /\
       forall i, i < n_rows gdf ->
         cell "source" i gdf' = VNone /\
         cell "target" i gdf' = VNone /\
         cell "cost" i gdf' = VFloat 0 /\
         cell "reverse_cost" i gdf' = VFloat 0)
  | Ok _ =>
      forall name, name ∈ ["source"; "target"; "cost"; "reverse_cost"] ->
        exists vals, column name (columns gdf') = Some vals /\
                     length vals = n_rows gdf
  end.
Proof.
  intros Hb. destruct res as [ns|e].
  - destruct (build_Ok_inv _ _ _ Hb) as (a & _ & Ls & Lt & Lc & -> & _).
    split; [reflexivity|]. split; [intros name; apply annotated_keeps|].
    intros name Hn.
    destruct (annotated_columns gdf a) as (Cs & Ct & Cc & Cr).
    repeat (apply elem_of_cons in Hn as [->|Hn];
            [eexists; split; [eassumption|rewrite length_fmap; assumption]|]).
    apply elem_of_nil in Hn. contradiction.
  - apply build_Raise_inv in Hb
      as [->|(-> & a & Hl & Hnil & Ls & Lt & Lc & ->)]; [auto|].
    split; [reflexivity|]. split; [intros name; apply annotated_keeps|].
    right. split; [reflexivity|].
    pose proof (annotated_without_nodes gdf a Hl Hnil Ls Lt Lc) as Hrows.
    split.
    + apply Forall_lookup. intros i geom Hi. apply (Hrows _ _ Hi).
    + intros i Hi. apply lookup_lt_is_Some in Hi as [geom Hi].
      apply (Hrows _ _ Hi).
Qed.

End FrameClaims.

(** C9, as stated, fails: a build that returns has written into the frame
  it was given.  The frame of three roads comes back with four columns
  it did not have, and a road layer that already had a [cost] attribute
  comes back with that attribute overwritten. *)
Lemma builder_writes_into_its_input :
(exists gdf' ns,
   @build_topology_in_python Sample.engine Sample.roads_frame = (gdf', Ok ns) /\
   gdf' <> Sample.roads_frame /\
   column "source" (columns Sample.roads_frame) = None /\
   column "source" (columns gdf') = Some [VInt 1; VInt 2; VInt 4]) /\
(exists gdf' ns,
   @build_topology_in_python Sample.engine Sample.tolled_frame = (gdf', Ok ns) /\
   column "cost" (columns Sample.tolled_frame) = Some [VFloat 250] /\
   column "cost" (columns gdf') = Some [VFloat 0.01]).
Proof.
split.
- eexists _, _. split; [vm_compute; reflexivity|].
  split; [discriminate|]. split; reflexivity.
- eexists _, _. split; [vm_compute; reflexivity|]. split; reflexivity.
Qed.

(* ===================================================================== *)
(** ** The topology builder: malformed lines *)
(* ===================================================================== *)

(** C2 fails on the code.  A multi-part line whose first part is empty is
  not an empty geometry, so the loop reaches [first_line.coords[0]],
  which raises IndexError out of the builder.  A geometry with no
  coordinate sequence that is not a MultiLineString takes the bare
  [continue]: nothing is recorded for its row, and the column assignment
  that follows the loop raises ValueError because the lists are one
  entry short.  In both cases no edge table is produced at all. *)
Theorem builder_raises_on_malformed_lines (E : LengthEngine) :
@build_topology_in_python E Sample.empty_part_frame =
  (Sample.empty_part_frame, Raise IndexError) /\
@build_topology_in_python E Sample.polygon_frame =
  (Sample.polygon_frame, Raise ValueError).
Proof. split; reflexivity. Qed.

(** C4 fails on the code for a layer in which no line has a coordinate.
  The loop records an excluded edge for each of the two lines, lines
  80-83 write the cells (no source, no target, cost 0) into the frame,
  and then [gpd.GeoDataFrame([], crs=gdf.crs)] at line 86 raises
  ValueError: the builder emits no edge at all, and [setup_database]
  writes no [roads] table.  As soon as one line of the layer has a
  coordinate the builder returns, and the missing and the empty line are
  emitted as edges with no source, no target and cost 0. *)
Theorem builder_raises_on_lines_without_coordinates (E : LengthEngine) :
(@build_topology_in_python E Sample.null_frame =
   (Sample.null_frame_after, Raise ValueError) /\
 @setup_database_roads E Sample.null_frame = Raise ValueError) /\
(exists gdf' ns,
   @build_topology_in_python E Sample.ragged_frame = (gdf', Ok ns) /\
   (cell "source" 0 gdf', cell "target" 0 gdf', cell "cost" 0 gdf')
     = (VNone, VNone, VFloat 0) /\
   (cell "source" 1 gdf', cell "target" 1 gdf', cell "cost" 1 gdf')
     = (VNone, VNone, VFloat 0)).
Proof.
split; [split; reflexivity|].
eexists _, _. split; [reflexivity|]. split; reflexivity.
Qed.

(** The part of C2 that holds: on a frame whose rows are all recordable,
  one of them with a coordinate, the builder returns, and (by
  [builder_keeps_lines_and_other_columns]) leaves one cell per row in
  each of its four columns. *)
Section Recordable.

Context `{!LengthEngine}.
Local Open Scope nat_scope.
Local Open Scope list_scope.

Lemma recordable_kind geom :
  recordable geom = true ->
  row_kind geom = Excluded \/ exists s e, row_kind geom = Edge s e.
Proof.
  destruct geom as [g|]; [|left; reflexivity].
  unfold recordable, row_kind.
  destruct (is_empty g) eqn:He; [left; reflexivity|]. simpl.
  destruct g as [cs|parts|k e]; [| |discriminate].
  - intros _. right. destruct cs as [|c cs]; [discriminate|].
    destruct (row_kind_LineString c cs) as (x & Hl & _).
    unfold line_ends, item_last. simpl coords_of. cbv beta iota.
    rewrite Hl. simpl. eauto.
  - destruct (head parts) as [[|c1 p1]|] eqn:Hh; try discriminate.
    destruct (last parts) as [[|c2 p2]|] eqn:Hl; try discriminate.
    intros _. right.
    unfold line_ends, item_first, item_last. simpl.
    destruct parts as [|q parts]; [discriminate|]. simpl in Hh.
    inversion Hh; subst q.
    unfold mbind, result_bind, Py.bind. rewrite Hl.
    destruct (last (c2 :: p2)) as [x|] eqn:Hx;
      [|apply last_None in Hx; discriminate].
    simpl. eauto.
Qed.

Lemma loop_body_returns geom a :
  recordable geom = true -> exists a', loop_body geom a = Ok a'.
Proof.
  intros Hr. apply recordable_kind in Hr. unfold row_kind in Hr.
  unfold loop_body.
  destruct geom as [g|]; [|simpl_res; eauto].
  destruct (is_empty g); [simpl_res; eauto|].
  destruct Hr as [Hr|(s & e & Hr)].
  - destruct (line_ends g) as [[[? ?]|]|]; discriminate.
  - destruct (line_ends g) as [[[s' e']|]|]; try discriminate.
    inversion Hr; subst s' e'. simpl_res.
    set (a2 := intern e (intern s a)).
    assert (Hs : is_Some (dict_get s (nodes a2))).
    { unfold a2. rewrite (dict_get_prefix s _ _ (intern_prefix e _));
        apply intern_known. }
    assert (He : is_Some (dict_get e (nodes a2))) by apply intern_known.
    unfold dict_item. destruct Hs as [vs ->], He as [ve ->]. eauto.
Qed.

Lemma loop_returns rows : forall a,
  Forall (fun geom => recordable geom = true) rows ->
  exists a', loop rows a = Ok a'.
Proof.
  induction rows as [|geom rows IH]; intros a Hall; simpl; [eauto|].
  apply Forall_cons in Hall as [Hg Hall].
  destruct (loop_body_returns geom a Hg) as [a1 H1].
  simpl_res. rewrite H1. apply IH, Hall.
Qed.

Lemma recordable_rows_aligned d rows :
  Forall (fun geom => recordable geom = true) rows ->
  length (rows ≫= row_sources d) = length rows.
Proof.
  induction 1 as [|geom rows Hg _ IH]; [reflexivity|].
  rewrite bind_cons, length_app, length_cons, IH.
  unfold row_sources.
  destruct (recordable_kind _ Hg) as [->|(s & e & ->)]; reflexivity.
Qed.

(** A recordable row that has a shape becomes an edge. *)
Lemma recordable_shape_kind geom :
  recordable geom = true -> has_shape geom = true ->
  exists s e, row_kind geom = Edge s e.
Proof.
  intros Hr Hs. destruct (recordable_kind _ Hr) as [Hk|Hk]; [|exact Hk].
  apply excluded_has_no_shape in Hk. congruence.
Qed.

(** An edge row puts its keys into the dict. *)
Lemma edge_row_makes_a_node rows a geom s e :
  loop rows init = Ok a -> geom ∈ rows -> row_kind geom = Edge s e ->
  nodes a <> [].
Proof.
  intros Hl Hin Hk Hnil.
  destruct (loop_spec _ _ _ Inv_init Hl) as (_ & K & _).
  simpl in K. rewrite Hnil in K. simpl in K.
  assert (Hs : s ∈ first_seen (endpoint_keys rows)).
  { apply first_seen_elem. unfold endpoint_keys.
    apply list_elem_of_bind. exists geom. split; [|exact Hin].
    unfold row_keys. rewrite Hk. left. }
  unfold first_seen in Hs. rewrite <- K in Hs.
  apply elem_of_nil in Hs. contradiction.
Qed.

Lemma builder_returns_on_recordable_rows gdf :
  Forall (fun geom => recordable geom = true) (geometry gdf) ->
  Exists (fun geom => has_shape geom = true) (geometry gdf) ->
  exists gdf' ns, build_topology_in_python gdf = (gdf', Ok ns).
Proof.
  intros Hall Hsome. destruct (loop_returns _ init Hall) as [a Hl].
  destruct (loop_spec _ _ _ Inv_init Hl) as (_ & _ & _ & _ & S & T & C).
  simpl in S, T, C.
  pose proof (recordable_rows_aligned (nodes a) _ Hall) as Ls.
  destruct (rows_same_length (nodes a) (geometry gdf)) as [Lt Lc].
  rewrite Ls in Lt, Lc. rewrite <- S in Ls. rewrite <- T in Lt. rewrite <- C in Lc.
  apply Exists_exists in Hsome as (geom & Hin & Hshape).
  rewrite Forall_forall in Hall.
  destruct (recordable_shape_kind geom (Hall _ Hin) Hshape) as (s & e & Hk).
  eexists _, _. apply (build_Ok_intro gdf a Hl Ls Lt Lc).
  exact (edge_row_makes_a_node _ _ _ _ _ Hl Hin Hk).
Qed.

(** Without a row that has a coordinate the loop ends with an empty
    dict, and line 86 raises however well-formed the frame is. *)
Lemma builder_raises_without_shapes gdf :
  Forall (fun geom => has_shape geom = false) (geometry gdf) ->
  exists gdf', build_topology_in_python gdf = (gdf', Raise ValueError).
Proof.
  intros Hnone.
  assert (Hall : Forall (fun geom => recordable geom = true) (geometry gdf)).
  { eapply Forall_impl; [exact Hnone|]. intros [g|] Hs; [|reflexivity].
    simpl in Hs. apply negb_false_iff in Hs. unfold recordable. rewrite Hs.
    reflexivity. }
  destruct (loop_returns _ init Hall) as [a Hl].
  destruct (loop_spec _ _ _ Inv_init Hl) as (_ & K & _ & _ & S & T & C).
  simpl in S, T, C, K.
  pose proof (recordable_rows_aligned (nodes a) _ Hall) as Ls.
  destruct (rows_same_length (nodes a) (geometry gdf)) as [Lt Lc].
  rewrite Ls in Lt, Lc. rewrite <- S in Ls. rewrite <- T in Lt. rewrite <- C in Lc.
  assert (Hkeys : endpoint_keys (geometry gdf) = []).
  { unfold endpoint_keys. clear -Hnone.
    induction Hnone as [|geom rows Hg _ IH]; [reflexivity|].
    rewrite bind_cons, IH, app_nil_r. unfold row_keys.
    apply excluded_has_no_shape in Hg. rewrite Hg. reflexivity. }
  rewrite Hkeys in K. unfold first_seen in K. simpl in K.
  apply fmap_nil_inv in K.
  exists (annotated gdf a). rewrite build_unfold, Hl. unfold n_rows.
  repeat case_decide; try contradiction. rewrite K. reflexivity.
Qed.

End Recordable.

(* ===================================================================== *)
(** ** Nearest facility and routing *)
(* ===================================================================== *)

Section RoutingClaims.

Context `{!Database}.
Local Open Scope list_scope.

Lemma agg_none_on_no_rows : agg_union [] = None /\ agg_sum [] = None.
Proof. split; reflexivity. Qed.

(** With a cost on every road that has a geometry, a union of geometries
    comes with a sum of costs. *)
Lemma agg_sum_with_union rows route_geom :
  (forall r, r ∈ rows -> is_Some (geom r) -> is_Some (cost r)) ->
  agg_union rows = Some route_geom -> is_Some (agg_sum rows).
Proof.
  intros Hc. unfold agg_union, agg_sum.
  induction rows as [|r rows IH]; simpl; [discriminate|].
  destruct (geom r) as [g|] eqn:Hg; simpl.
  - intros _. destruct (Hc r) as [c Hcost]; [left|rewrite Hg; eauto|].
    rewrite Hcost. simpl. eauto.
  - intros Hu. destruct (cost r) as [c|]; simpl; [eauto|].
    apply IH; [|exact Hu]. intros r' Hr'. apply Hc. right. exact Hr'.
Qed.

(** The answer when no road path comes back, whatever the reason. *)
Lemma get_nearest_fallback lat lng category target :
  find_closest ("%" ++ category ++ "%")%string lng lat = Some target ->
  (nearest_vertex lng lat = None \/
   nearest_vertex (fac_lng target) (fac_lat target) = None \/
   exists s e, nearest_vertex lng lat = Some s /\
               nearest_vertex (fac_lng target) (fac_lat target) = Some e /\
               agg_union (pgr_dijkstra_roads s e) = None) ->
  get_nearest lat lng category =
  Ok (feature_collection
        [destination_point target;
         straight_line lng lat (fac_lng target) (fac_lat target)
           (round (ST_Distance_geography (lng, lat)
                     (fac_lng target, fac_lat target)))]).
Proof.
  intros Hf Hno. unfold get_nearest. rewrite Hf.
  destruct Hno as [Hs|[He|(s & e & Hs & He & Hu)]].
  - rewrite Hs. reflexivity.
  - rewrite He. destruct (nearest_vertex lng lat); reflexivity.
  - rewrite Hs, He, Hu. reflexivity.
Qed.

(** With a facility found, the handler returns one of two collections. *)
Lemma get_nearest_found lat lng category target :
  roads_costed ->
  find_closest ("%" ++ category ++ "%")%string lng lat = Some target ->
  (exists route_geom total_dist,
     get_nearest lat lng category =
     Ok (feature_collection
           [destination_point target; road_route route_geom total_dist])) \/
  (exists straight_dist,
     get_nearest lat lng category =
     Ok (feature_collection
           [destination_point target;
            straight_line lng lat (fac_lng target) (fac_lat target)
              straight_dist])).
Proof.
  intros Hc Hf. unfold get_nearest. rewrite Hf.
  destruct (nearest_vertex lng lat) as [s|]; [|right; eauto].
  destruct (nearest_vertex (fac_lng target) (fac_lat target)) as [e|];
    [|right; eauto].
  destruct (agg_union (pgr_dijkstra_roads s e)) as [route_geom|] eqn:Hu;
    [|right; eauto].
  destruct (agg_sum_with_union _ _ (Hc s e) Hu) as [total Ht].
  rewrite Ht. simpl_res. left. eauto.
Qed.

(** C1.  When a facility is found, both points snap to a vertex and no
    path joins the two vertices, the answer is the facility followed by a
    dashed two-point line from the origin to the facility whose message
    gives the geodesic distance between the two, rounded to a whole
    number, and says that there is no road path. *)
Theorem nearest_falls_back_to_straight_line lat lng category target s e :
  find_closest ("%" ++ category ++ "%")%string lng lat = Some target ->
  nearest_vertex lng lat = Some s ->
  nearest_vertex (fac_lng target) (fac_lat target) = Some e ->
  pgr_dijkstra_roads s e = [] ->
  get_nearest lat lng category =
  Ok (JDict
        [("type", JStr "FeatureCollection");
         ("features",
          JList
            [destination_point target;
             JDict
               [("type", JStr "Feature");
                ("geometry",
                 JDict [("type", JStr "LineString");
                        ("coordinates",
                         JList [JList [JNum lng; JNum lat];
                                JList [JNum (fac_lng target);
                                       JNum (fac_lat target)]])]);
                ("properties",
                 JDict [("type", JStr "route");
                        ("style", JStr "dashed");
                        ("distance_msg",
                         JStr ("Straight Distance: "
                               ++ str (round (ST_Distance_geography (lng, lat)
                                                (fac_lng target, fac_lat target)))
                               ++ "m (No road path)")%string)])]])]).
Proof.
  intros Hf Hs He Hp.
  rewrite (get_nearest_fallback lat lng category target Hf); [reflexivity|].
  right; right. exists s, e. rewrite Hp. auto.
Qed.

(** What the handler returns when a facility was found, if it returns. *)
Lemma get_nearest_shape lat lng category target resp :
  find_closest ("%" ++ category ++ "%")%string lng lat = Some target ->
  get_nearest lat lng category = Ok resp ->
  (exists route_geom total_dist,
     resp = feature_collection
              [destination_point target; road_route route_geom total_dist]) \/
  (exists straight_dist,
     resp = feature_collection
              [destination_point target;
               straight_line lng lat (fac_lng target) (fac_lat target)
                 straight_dist]).
Proof.
  intros Hf. unfold get_nearest. rewrite Hf.
  destruct (nearest_vertex lng lat) as [s|];
    [|intros [= <-]; right; eauto].
  destruct (nearest_vertex (fac_lng target) (fac_lat target)) as [e|];
    [|intros [= <-]; right; eauto].
  destruct (agg_union (pgr_dijkstra_roads s e)) as [route_geom|];
    [|intros [= <-]; right; eauto].
  destruct (agg_sum (pgr_dijkstra_roads s e)) as [total|]; simpl_res;
    [|discriminate].
  intros [= <-]. left. eauto.
Qed.

(** C10.  When a facility is found, the collection the handler returns
    has the facility itself as its first feature: a point at its
    coordinates with its name, its category and [is_target] true; one
    route feature follows, a road route or a straight line.  And the
    handler does return, the roads table being costed as [setup_database]
    leaves it. *)
Theorem nearest_always_returns_the_target lat lng category target :
  find_closest ("%" ++ category ++ "%")%string lng lat = Some target ->
  (roads_costed -> exists resp, get_nearest lat lng category = Ok resp) /\
  forall resp,
    get_nearest lat lng category = Ok resp ->
    exists route,
      resp =
      JDict
        [("type", JStr "FeatureCollection");
         ("features",
          JList
            [JDict
               [("type", JStr "Feature");
                ("geometry",
                 JDict [("type", JStr "Point");
                        ("coordinates",
                         JList [JNum (fac_lng target); JNum (fac_lat target)])]);
                ("properties",
                 JDict [("name", json_text (fac_name target));
                        ("category", JStr (fac_category target));
                        ("is_target", JBool true)])];
             route])] /\
      ((exists route_geom total_dist, route = road_route route_geom total_dist) \/
       (exists straight_dist,
          route = straight_line lng lat (fac_lng target) (fac_lat target)
                    straight_dist)).
Proof.
  intros Hf. split.
  - intros Hc.
    destruct (get_nearest_found lat lng category target Hc Hf)
      as [(g & n & Hr)|(n & Hr)]; rewrite Hr; eauto.
  - intros resp Hr.
    destruct (get_nearest_shape lat lng category target resp Hf Hr)
      as [(g & n & ->)|(n & ->)]; eexists; (split; [reflexivity|]);
      [left|right]; eauto.
Qed.



End RoutingClaims.

(** On a table that is not costed the handler can raise with a facility
    found: the union of the path is not null, the sum of its costs is. *)
Lemma nearest_raises_on_uncosted_path :
  @get_nearest SampleDb.uncosted_db 6.5%Q 3.35%Q "Bank" = Raise TypeError /\
  ~ @roads_costed SampleDb.uncosted_db.
Proof.
  split; [vm_compute; reflexivity|].
  intros Hc.
  destruct (Hc 1%nat 2%nat SampleDb.uncosted_road) as [c Hcost];
    [left|simpl; eauto|discriminate].
Qed.


(* ===================================================================== *)
(** ** Point-to-point routing *)
(* ===================================================================== *)

Section RouteFacts.

Context `{!Database}.

(** Two vertices with no path between them: the handler returns a feature
    collection whose [features] member is null, the value [json_agg] gives
    over no rows. *)
Lemma get_route_no_path start_lat start_lng end_lat end_lng s e :
  nearest_vertex start_lng start_lat = Some s ->
  nearest_vertex end_lng end_lat = Some e ->
  pgr_dijkstra_roads s e = [] ->
  get_route start_lat start_lng end_lat end_lng =
  Ok (JDict [("type", JStr "FeatureCollection"); ("features", JNull)]).
Proof.
  intros Hs He Hp. unfold get_route. rewrite Hs, He. simpl_res.
  rewrite Hp. reflexivity.
Qed.

(** No vertex to snap to: [cur.fetchone()] is [None] and subscripting it
    raises. *)
Lemma get_route_no_vertex start_lat start_lng end_lat end_lng :
  nearest_vertex start_lng start_lat = None \/
  nearest_vertex end_lng end_lat = None ->
  get_route start_lat start_lng end_lat end_lng = Raise TypeError.
Proof.
  intros [Hs|He]; unfold get_route.
  - rewrite Hs. reflexivity.
  - rewrite He. destruct (nearest_vertex start_lng start_lat); reflexivity.
Qed.

End RouteFacts.

(** C7 fails on the code for the empty graph.  Between two unconnected
    vertices of the sample network [get_route] returns a collection with
    no features ([features] is null) and raises nothing; but against a
    database with no vertex it raises TypeError instead of returning an
    empty result. *)
Theorem get_route_raises_on_empty_graph :
  @get_route SampleDb.db 6.5%Q 3.35%Q 6.61%Q 3.4%Q =
    Ok (JDict [("type", JStr "FeatureCollection"); ("features", JNull)]) /\
  @get_route SampleDb.empty_db 6.5%Q 3.35%Q 6.61%Q 3.4%Q = Raise TypeError.
Proof. split; vm_compute; reflexivity. Qed.

(* ===================================================================== *)
(** ** The sample data satisfies what the theorems assume *)
(* ===================================================================== *)

Section SampleFacts.

Local Open Scope Q_scope.

Lemma sqrt_fix_nonneg q : 0 <= Sample.sqrt_fix q.
Proof.
  unfold Sample.sqrt_fix, Qle. simpl. rewrite Z.mul_1_r. apply Z.sqrt_nonneg.
Qed.

Lemma polyline_nonneg cs : 0 <= Sample.polyline cs.
Proof.
  induction cs as [|a cs IH]; [apply Qle_refl|].
  destruct cs as [|b cs]; [apply Qle_refl|].
  change (Sample.polyline (a :: b :: cs))
    with (Qred (Sample.segment a b + Sample.polyline (b :: cs))).
  rewrite Qred_correct.
  replace 0 with (0 + 0) by reflexivity.
  apply Qplus_le_compat; [apply sqrt_fix_nonneg|exact IH].
Qed.

Lemma planar_nonneg g : 0 <= Sample.planar g.
Proof.
  destruct g as [cs|parts|k e]; simpl.
  - apply polyline_nonneg.
  - induction parts as [|p parts IH]; simpl; [apply Qle_refl|].
    rewrite Qred_correct. replace 0 with (0 + 0) by reflexivity.
    apply Qplus_le_compat; [apply polyline_nonneg|exact IH].
  - apply Qle_refl.
Qed.

Lemma sample_geography_nonneg g : 0 <= @ST_Length_geography Sample.engine g.
Proof.
  simpl. rewrite Qred_correct. apply Qmult_le_0_compat; [discriminate|].
  apply planar_nonneg.
Qed.

Lemma sample_roads_costed : @roads_costed SampleDb.db.
Proof.
  intros s e r Hin _. simpl in Hin. unfold SampleDb.paths in Hin.
  do 6 (destruct s as [|s]; [do 6 (destruct e as [|e]; try solve
    [apply elem_of_nil in Hin; contradiction
    |vm_compute in Hin;
     repeat (apply elem_of_cons in Hin as [->|Hin]; [simpl; eauto|]);
     apply elem_of_nil in Hin; contradiction])|]);
  try solve [apply elem_of_nil in Hin; contradiction].
Qed.

End SampleFacts.

(* ===================================================================== *)
(** ** The theorems at work on the sample data *)
(* ===================================================================== *)

(** The hospital at E cannot be reached by road from A. *)
Lemma nearest_falls_back_witness :
  @get_nearest SampleDb.db 6.5%Q 3.35%Q "Hospital" =
  Ok (feature_collection
        [destination_point SampleDb.hospital;
         straight_line 3.35%Q 6.5%Q 3.4%Q 6.61%Q 13451]).
Proof.
  exact (@nearest_falls_back_to_straight_line SampleDb.db 6.5%Q 3.35%Q
           "Hospital" SampleDb.hospital 1 5 eq_refl eq_refl eq_refl eq_refl).
Defined.

(** The second sample road in the table that [setup_database] leaves. *)
Lemma road_cost_witness :
  exists r c,
    Sample.roads_table !! 1%nat = Some r /\
    geom r = Some (LineString [Sample.B'; Sample.C]) /\
    cost r = Some c /\ reverse_cost r = Some c /\
    c = @ST_Length_geography Sample.engine (LineString [Sample.B'; Sample.C]) /\
    (0 <= c)%Q.
Proof.
  apply (@road_cost_is_geographic_length Sample.engine Sample.roads_frame
           Sample.roads_table Sample.nodes_table 1
           (LineString [Sample.B'; Sample.C]) sample_geography_nonneg).
  - vm_compute. reflexivity.
  - reflexivity.
Defined.

(** The sample roads read with and without their attribute column;
    neither layer has an [id] column. *)
Lemma deterministic_witness :
  node_id <$> Sample.nodes_table = seq 1 (length Sample.nodes_table) /\
  node_point <$> Sample.nodes_table
    = first_seen (endpoint_keys (geometry Sample.roads_frame)) /\
  (exists gdf2',
     @build_topology_in_python Sample.engine Sample.bare_frame
       = (gdf2', Ok Sample.nodes_table) /\
     forall i, cell "source" i gdf2' = cell "source" i Sample.roads_frame_after /\
               cell "target" i gdf2' = cell "target" i Sample.roads_frame_after) /\
  @build_topology_in_python Sample.engine Sample.roads_frame_after
    = (Sample.roads_frame_after, Ok Sample.nodes_table) /\
  (exists roads,
     @setup_database_roads Sample.engine Sample.roads_frame
       = Ok (roads, Sample.nodes_table) /\
     @setup_database_roads Sample.engine Sample.bare_frame
       = Ok (roads, Sample.nodes_table) /\
     @setup_database_roads Sample.engine Sample.roads_frame_after
       = Ok (roads, Sample.nodes_table) /\
     road_id <$> roads = VInt <$> seq 1 (n_rows Sample.roads_frame)).
Proof.
  apply (@topology_build_is_deterministic Sample.engine Sample.roads_frame
           Sample.bare_frame Sample.roads_frame_after Sample.nodes_table).
  - reflexivity.
  - reflexivity.
  - vm_compute. reflexivity.
Defined.

(** A layer with an ID attribute keeps the ids of its file in the
    [roads] table, duplicates included. *)
Lemma roads_keep_the_ids_of_the_file :
  exists roads ns,
    @setup_database_roads Sample.engine Sample.numbered_frame = Ok (roads, ns) /\
    road_id <$> roads = [VInt 0; VInt 0; VInt 7].
Proof. eexists _, _. split; vm_compute; reflexivity. Qed.

(** The sample roads keep their geometry and their [roadname] column;
    the layer of a missing and an empty line comes back from the
    exception with its four columns written. *)
Lemma keeps_lines_witness :
  (geometry Sample.roads_frame_after = geometry Sample.roads_frame /\
   (forall name, name ∉ ["source"; "target"; "cost"; "reverse_cost"] ->
      column name (columns Sample.roads_frame_after)
      = column name (columns Sample.roads_frame)) /\
   (forall name, name ∈ ["source"; "target"; "cost"; "reverse_cost"] ->
      exists vals, column name (columns Sample.roads_frame_after) = Some vals /\
                   length vals = n_rows Sample.roads_frame)) /\
  (geometry Sample.null_frame_after = geometry Sample.null_frame /\
   (forall name, name ∉ ["source"; "target"; "cost"; "reverse_cost"] ->
      column name (columns Sample.null_frame_after)
      = column name (columns Sample.null_frame)) /\
   (Sample.null_frame_after = Sample.null_frame \/
    (ValueError = ValueError /\
     Forall (fun geom => has_shape geom = false) (geometry Sample.null_frame) /\
     forall i, (i < n_rows Sample.null_frame)%nat ->
       cell "source" i Sample.null_frame_after = VNone /\
       cell "target" i Sample.null_frame_after = VNone /\
       cell "cost" i Sample.null_frame_after = VFloat 0 /\
       cell "reverse_cost" i Sample.null_frame_after = VFloat 0))).
Proof.
  split.
  - apply (@builder_keeps_lines_and_other_columns Sample.engine Sample.roads_frame
             Sample.roads_frame_after (Ok Sample.nodes_table)).
    vm_compute. reflexivity.
  - apply (@builder_keeps_lines_and_other_columns Sample.engine Sample.null_frame
             Sample.null_frame_after (Raise ValueError)).
    reflexivity.
Defined.

(** The bank at C is found and comes first in the answer. *)
Lemma returns_the_target_witness :
  exists resp route,
    @get_nearest SampleDb.db 6.5%Q 3.35%Q "Bank" = Ok resp /\
    resp =
    JDict
      [("type", JStr "FeatureCollection");
       ("features",
        JList
          [JDict
             [("type", JStr "Feature");
              ("geometry",
               JDict [("type", JStr "Point");
                      ("coordinates", JList [JNum 3.36%Q; JNum 6.51%Q])]);
              ("properties",
               JDict [("name", JStr "Unity Bank");
                      ("category", JStr "Bank");
                      ("is_target", JBool true)])];
           route])] /\
    ((exists route_geom total_dist, route = road_route route_geom total_dist) \/
     (exists straight_dist,
        route = straight_line 3.35%Q 6.5%Q 3.36%Q 6.51%Q straight_dist)).
Proof.
  destruct (@nearest_always_returns_the_target SampleDb.db 6.5%Q 3.35%Q "Bank"
              SampleDb.bank eq_refl) as [Hret Hshape].
  destruct (Hret sample_roads_costed) as [resp Hresp].
  destruct (Hshape resp Hresp) as (route & Hr & Hk).
  exists resp, route. auto.
Defined.


(* ===================================================================== *)
(** ** Rounding *)
(* ===================================================================== *)

Section RoundingFacts.

Local Open Scope Z_scope.

Lemma round_half_even_Z n d :
  let z := round_half_even (n # d) in
  - Z.pos d <= 2 * (n - z * Z.pos d) <= Z.pos d.
Proof.
  unfold round_half_even. simpl.
  pose proof (Z.div_mod n (Z.pos d) ltac:(discriminate)) as Hdm.
  pose proof (Z.mod_pos_bound n (Z.pos d) ltac:(reflexivity)) as Hb.
  set (fl := n / Z.pos d) in *. set (r := n mod Z.pos d) in *.
  destruct (Z.compare_spec (2 * r) (Z.pos d)) as [He|Hl|Hg].
  - destruct (Z.even fl); nia.
  - nia.
  - nia.
Qed.

(** [round(x)] is within one half of [x]. *)
Lemma round_close (x : Q) : (Qabs (inject_Z (round x) - x) <= 1 # 2)%Q.
Proof.
  destruct x as [n d]. pose proof (round_half_even_Z n d) as Hz.
  unfold round. simpl in Hz. set (z := round_half_even (n # d)) in *.
  apply Qabs_Qle_condition. unfold Qle, Qminus, Qplus, Qopp, inject_Z. simpl.
  split; nia.
Qed.

(** The decimal [round(x, 6)] aims at is within half a unit of the sixth
    decimal of [x]. *)
Lemma round6_close (x : Q) :
  (Qabs (round_ndigits x 6 - x) <= 1 # 2000000)%Q.
Proof.
  destruct x as [n d]. unfold round_ndigits.
  change (Z.to_pos (10 ^ Z.of_nat 6)) with 1000000%positive.
  pose proof (round_half_even_Z (n * 1000000) (d * 1)) as Hz.
  change ((n # d) * (Z.pos 1000000 # 1))%Q with (n * 1000000 # d * 1)%Q.
  simpl in Hz. set (z := round_half_even (n * 1000000 # d * 1)) in *.
  apply Qabs_Qle_condition. unfold Qle, Qminus, Qplus, Qopp. simpl.
  rewrite Pos.mul_1_r in Hz.
  split; nia.
Qed.

(** The decimal [round(x, 2)] aims at is within half a hundredth of
    [x]. *)
Lemma round2_close (x : Q) :
  (Qabs (round_ndigits x 2 - x) <= 1 # 200)%Q.
Proof.
  destruct x as [n d]. unfold round_ndigits.
  change (Z.to_pos (10 ^ Z.of_nat 2)) with 100%positive.
  pose proof (round_half_even_Z (n * 100) (d * 1)) as Hz.
  change ((n # d) * (Z.pos 100 # 1))%Q with (n * 100 # d * 1)%Q.
  simpl in Hz. set (z := round_half_even (n * 100 # d * 1)) in *.
  apply Qabs_Qle_condition. unfold Qle, Qminus, Qplus, Qopp. simpl.
  rewrite Pos.mul_1_r in Hz.
  split; nia.
Qed.

End RoundingFacts.

(* ===================================================================== *)
(** ** More on the builder: endpoints, nodes and frames *)
(* ===================================================================== *)

Section BuilderSurvey.

Context `{!LengthEngine}.
Local Open Scope nat_scope.
Local Open Scope list_scope.

Lemma row_kind_of_raw g c1 c2 :
  is_empty g = false -> raw_ends g = Some (c1, c2) ->
  row_kind (Some g) = Edge (rounded c1) (rounded c2).
Proof.
  intros He Hr. unfold row_kind. rewrite He. unfold line_ends, raw_ends in *.
  destruct g as [cs|parts|k e]; simpl in *; [| |discriminate].
  - destruct cs as [|c cs]; [discriminate|]. simpl in Hr.
    unfold item_last. destruct (last (c :: cs)) as [x|]; [|discriminate].
    inversion Hr; subst. reflexivity.
  - destruct parts as [|p parts]; [discriminate|]. simpl in Hr.
    unfold item_last.
    destruct (last (p :: parts)) as [q|]; [|discriminate]. simpl_res.
    destruct p as [|c p]; [discriminate|]. simpl in Hr. simpl.
    destruct (last q) as [x|]; [|discriminate].
    inversion Hr; subst. reflexivity.
Qed.

Lemma raw_of_row_kind g s e :
  row_kind (Some g) = Edge s e ->
  exists c1 c2, is_empty g = false /\ raw_ends g = Some (c1, c2) /\
                s = rounded c1 /\ e = rounded c2.
Proof.
  unfold row_kind. destruct (is_empty g) eqn:He; [discriminate|].
  unfold line_ends, raw_ends.
  destruct g as [cs|parts|k x]; simpl.
  - destruct cs as [|c cs]; [discriminate|]. simpl. unfold item_last.
    destruct (last (c :: cs)) as [y|]; [|discriminate]. simpl.
    intros [= <- <-]. eauto 10.
  - destruct parts as [|p parts]; [discriminate|]. simpl. unfold item_last.
    destruct (last (p :: parts)) as [q|]; [|discriminate]. simpl_res.
    destruct p as [|c p]; [discriminate|]. simpl.
    destruct (last q) as [y|]; [|discriminate]. simpl.
    intros [= <- <-]. eauto 10.
  - destruct k; discriminate.
Qed.

(** The cell of an endpoint holds the id the dict gives its rounded key. *)
Lemma endpoint_at_known gdf gdf' d i c v :
  (forall j geom, geometry gdf !! j = Some geom -> row_recorded d j geom gdf') ->
  endpoint_at gdf gdf' i c v ->
  exists n, v = VInt n /\ dict_get (rounded c) d = Some n.
Proof.
  intros Hrows (g & c1 & c2 & Hi & He & Hr & Hc).
  specialize (Hrows _ _ Hi). unfold row_recorded in Hrows.
  rewrite (row_kind_of_raw _ _ _ He Hr) in Hrows.
  destruct Hrows as (vs & ve & Hs & Ht & Cs & Ct & _).
  destruct Hc as [[-> ->]|[-> ->]]; eauto.
Qed.

(** The keys of the dict are the digitised endpoints, rounded. *)
Lemma endpoint_keys_raw rows :
  endpoint_keys rows = rounded <$> raw_endpoints rows.
Proof.
  unfold endpoint_keys, raw_endpoints.
  induction rows as [|geom rows IH]; [reflexivity|].
  rewrite !bind_cons, fmap_app, IH. f_equal.
  unfold row_keys. destruct geom as [g|]; [|reflexivity].
  destruct (is_empty g) eqn:He.
  - unfold row_kind. rewrite He. reflexivity.
  - destruct (raw_ends g) as [[c1 c2]|] eqn:Hr.
    + rewrite (row_kind_of_raw _ _ _ He Hr). reflexivity.
    + destruct (row_kind (Some g)) as [|s e| |x] eqn:Hk; try reflexivity.
      destruct (raw_of_row_kind _ _ _ Hk) as (c1 & c2 & _ & Hr' & _).
      congruence.
Qed.

End BuilderSurvey.

Section BuilderTheorems.

Context `{!LengthEngine}.
Local Open Scope nat_scope.
Local Open Scope list_scope.

Lemma same_rounding_close (x y : Q) :
  round_ndigits x 6 = round_ndigits y 6 -> (Qabs (x - y) <= 1 # 1000000)%Q.
Proof.
  intros Heq. pose proof (round6_close x) as Hx. pose proof (round6_close y) as Hy.
  rewrite Heq in Hx.
  apply Qabs_Qle_condition in Hx. apply Qabs_Qle_condition in Hy.
  apply Qabs_Qle_condition. split; lra.
Qed.

(** C5.  After a build, every endpoint of every line that became an edge
    carries the id of the node placed at its coordinate rounded to six
    decimal digits; two endpoints carry the same id exactly when their
    longitudes rounded to six digits are equal and their latitudes
    rounded to six digits are equal; and there are as many distinct node
    ids as there are distinct pairs of rounded coordinates among the
    endpoints of the layer.  The endpoints are taken as digitised, first
    and last coordinate of each line, and the rounding is written out. *)
Theorem node_ids_follow_rounded_coordinates gdf gdf' ns :
  build_topology_in_python gdf = (gdf', Ok ns) ->
  (forall i c v, endpoint_at gdf gdf' i c v ->
     exists n,
       v = VInt n /\
       {| node_id := n;
          node_point := (round_ndigits (fst c) 6, round_ndigits (snd c) 6) |} ∈ ns) /\
  (forall i1 c1 v1 i2 c2 v2,
     endpoint_at gdf gdf' i1 c1 v1 ->
     endpoint_at gdf gdf' i2 c2 v2 ->
     (v1 = v2 <->
      (round_ndigits (fst c1) 6 == round_ndigits (fst c2) 6)%Q /\
      (round_ndigits (snd c1) 6 == round_ndigits (snd c2) 6)%Q)) /\
  length (remove_dups (node_id <$> ns)) =
  length (remove_dups
            ((fun c => (round_ndigits (fst c) 6, round_ndigits (snd c) 6))
               <$> raw_endpoints (geometry gdf))).
Proof.
  intros Hb.
  destruct (build_rows _ _ _ Hb) as (d & -> & Hnd & Hids & Hkeys & _ & Hrows).
  assert (Hnd2 : NoDup d.*2) by (rewrite Hids; apply NoDup_seq).
  split; [|split].
  - intros i c v He.
    destruct (endpoint_at_known _ _ _ _ _ _ Hrows He) as (n & -> & Hn).
    exists n. split; [reflexivity|].
    apply dict_get_Some_elem in Hn. unfold node_rows.
    apply list_elem_of_fmap. exists (rounded c, n). auto.
  - intros i1 c1 v1 i2 c2 v2 H1 H2.
    destruct (endpoint_at_known _ _ _ _ _ _ Hrows H1) as (n1 & -> & Hn1).
    destruct (endpoint_at_known _ _ _ _ _ _ Hrows H2) as (n2 & -> & Hn2).
    split.
    + intros [= <-].
      assert (Hk : rounded c1 = rounded c2) by (eapply dict_get_inj; eassumption).
      pose proof (f_equal fst Hk) as Hx. pose proof (f_equal snd Hk) as Hy.
      cbn [rounded fst snd] in Hx, Hy. rewrite Hx, Hy. split; reflexivity.
    + intros [Hx Hy]. apply round_ndigits_eq in Hx, Hy.
      assert (Hk : rounded c1 = rounded c2) by (unfold rounded; congruence).
      rewrite Hk in Hn1. congruence.
  - change (fun c : Coord => (round_ndigits (fst c) 6, round_ndigits (snd c) 6))
      with rounded.
    rewrite <- endpoint_keys_raw, node_rows_ids.
    rewrite <- first_seen_length, <- Hkeys, !length_fmap.
    rewrite <- (length_fmap snd d).
    apply Permutation_length, NoDup_Permutation.
    + apply NoDup_remove_dups.
    + exact Hnd2.
    + intros x. apply elem_of_remove_dups.
Qed.

(** X1.  The node an endpoint is attached to lies within one unit of the
    sixth decimal of that endpoint, in longitude and in latitude.  The
    decimal the rounding aims at lies within half a unit; the bound
    leaves room for the step from that decimal to the float that is
    stored in the node. *)
Theorem node_lies_near_endpoint gdf gdf' ns i c v :
  build_topology_in_python gdf = (gdf', Ok ns) ->
  endpoint_at gdf gdf' i c v ->
  exists n p,
    v = VInt n /\ {| node_id := n; node_point := p |} ∈ ns /\
    (Qabs (fst p - fst c) <= 1 # 1000000)%Q /\
    (Qabs (snd p - snd c) <= 1 # 1000000)%Q.
Proof.
  intros Hb He.
  destruct (build_rows _ _ _ Hb) as (d & -> & _ & _ & _ & _ & Hrows).
  destruct (endpoint_at_known _ _ _ _ _ _ Hrows He) as (n & -> & Hn).
  exists n, (rounded c). split; [reflexivity|]. split.
  - apply dict_get_Some_elem in Hn. unfold node_rows.
    apply list_elem_of_fmap. exists (rounded c, n). auto.
  - split; (eapply Qle_trans; [apply round6_close|discriminate]).
Qed.

(** X2.  Two endpoints attached to the same node are never more than one
    unit of the sixth decimal apart, in longitude or in latitude: the
    builder does not merge endpoints farther apart than that. *)
Theorem merged_endpoints_are_close gdf gdf' ns i j c c' v :
  build_topology_in_python gdf = (gdf', Ok ns) ->
  endpoint_at gdf gdf' i c v ->
  endpoint_at gdf gdf' j c' v ->
  (Qabs (fst c - fst c') <= 1 # 1000000)%Q /\
  (Qabs (snd c - snd c') <= 1 # 1000000)%Q.
Proof.
  intros Hb H1 H2.
  destruct (build_rows _ _ _ Hb) as (d & _ & _ & Hids & _ & _ & Hrows).
  destruct (endpoint_at_known _ _ _ _ _ _ Hrows H1) as (n & -> & Hn).
  destruct (endpoint_at_known _ _ _ _ _ _ Hrows H2) as (n' & [= <-] & Hn').
  assert (Hk : rounded c = rounded c').
  { eapply dict_get_inj; [|exact Hn|exact Hn']. rewrite Hids. apply NoDup_seq. }
  pose proof (f_equal fst Hk) as Hx. pose proof (f_equal snd Hk) as Hy.
  split; apply same_rounding_close; assumption.
Qed.

Lemma dict_get_of_elem k n (d : list (Key * nat)) :
  NoDup d.*1 -> (k, n) ∈ d -> dict_get k d = Some n.
Proof.
  induction d as [|[k' n'] d IH]; simpl; intros Hnd Hin.
  - apply elem_of_nil in Hin. contradiction.
  - apply NoDup_cons in Hnd as [Hnot Hnd].
    apply elem_of_cons in Hin as [Heq|Hin].
    + inversion Heq; subst. destruct (decide (k' = k')); [reflexivity|congruence].
    + destruct (decide (k' = k)) as [->|Hne]; [|auto].
      exfalso. apply Hnot. apply list_elem_of_fmap. exists (k, n). auto.
Qed.

Lemma endpoint_keys_elem rows k :
  k ∈ endpoint_keys rows ->
  exists i geom s e, rows !! i = Some geom /\ row_kind geom = Edge s e /\
                     (k = s \/ k = e).
Proof.
  unfold endpoint_keys. intros Hin.
  apply list_elem_of_bind in Hin as (geom & Hk & Hg).
  apply list_elem_of_lookup in Hg as [i Hi].
  unfold row_keys in Hk. destruct (row_kind geom) as [|s e| |x] eqn:Hrk;
    try (apply elem_of_nil in Hk; contradiction).
  exists i, geom, s, e. repeat split; try assumption.
  apply elem_of_cons in Hk as [->|Hk]; [auto|].
  apply list_elem_of_singleton in Hk. auto.
Qed.

(** A row of the roads table has no endpoint at all, or the two ids the
    dict holds for the rounded ends of its line. *)
Lemma roads_row_cases gdf gdf' ns roads d r :
  build_topology_in_python gdf = (gdf', Ok ns) ->
  setup_database_roads gdf = Ok (roads, ns) ->
  (forall j geom, geometry gdf !! j = Some geom -> row_recorded d j geom gdf') ->
  r ∈ roads ->
  (source r = None /\ target r = None) \/
  (exists s e vs ve,
     dict_get s d = Some vs /\ dict_get e d = Some ve /\
     source r = Some vs /\ target r = Some ve).
Proof.
  intros Hb Hs Hrows Hr.
  destruct (setup_rows _ _ _ Hs) as (gdf'' & Hb' & Hlen & Hrow).
  rewrite Hb in Hb'. inversion Hb'; subst gdf''.
  apply list_elem_of_lookup in Hr as [i Hi].
  assert (Hlt : i < length (geometry gdf)).
  { apply lookup_lt_Some in Hi. unfold n_rows in Hlen. lia. }
  apply lookup_lt_is_Some in Hlt as [geom Hg].
  rewrite (Hrow _ _ Hg) in Hi. inversion Hi; subst r. clear Hi.
  specialize (Hrows _ _ Hg). unfold row_recorded in Hrows. cbn [source target].
  destruct geom as [g|].
  - destruct (row_kind (Some g)) as [|s e| |x]; try contradiction.
    + destruct Hrows as (-> & -> & _). left. auto.
    + destruct Hrows as (vs & ve & Hvs & Hve & -> & -> & _).
      right. exists s, e, vs, ve. auto.
  - simpl in Hrows. destruct Hrows as (-> & -> & _). left. auto.
Qed.

(** X3.  The two tables [setup_database] loads for the roads agree with
    each other: an endpoint id of a road is always the id of a node of
    the vertex table, a road has a source exactly when it has a target,
    and every node of the vertex table is an endpoint of some road. *)
Theorem road_tables_are_consistent gdf roads ns :
  setup_database_roads gdf = Ok (roads, ns) ->
  (forall r a, r ∈ roads -> source r = Some a \/ target r = Some a ->
     a ∈ node_id <$> ns) /\
  (forall r, r ∈ roads -> (source r = None <-> target r = None)) /\
  (forall node, node ∈ ns ->
     exists r, r ∈ roads /\
       (source r = Some (node_id node) \/ target r = Some (node_id node))).
Proof.
  intros Hs. destruct (setup_rows _ _ _ Hs) as (gdf' & Hb & Hlen & Hrow).
  destruct (build_rows _ _ _ Hb) as (d & -> & Hnd & Hids & Hkeys & _ & Hrows).
  assert (Hid : forall k n, dict_get k d = Some n -> n ∈ node_id <$> node_rows d).
  { intros k n Hn. rewrite node_rows_ids. apply dict_get_Some_elem in Hn.
    apply list_elem_of_fmap. exists (k, n). auto. }
  split; [|split].
  - intros r a Hr Ha.
    destruct (roads_row_cases _ _ _ _ _ _ Hb Hs Hrows Hr)
      as [[Hs0 Ht0]|(s & e & vs & ve & Hvs & Hve & Hs1 & Ht1)].
    + rewrite Hs0, Ht0 in Ha. destruct Ha; discriminate.
    + rewrite Hs1, Ht1 in Ha. destruct Ha as [[= <-]|[= <-]]; eauto.
  - intros r Hr.
    destruct (roads_row_cases _ _ _ _ _ _ Hb Hs Hrows Hr)
      as [[Hs0 Ht0]|(s & e & vs & ve & _ & _ & Hs1 & Ht1)].
    + rewrite Hs0, Ht0. tauto.
    + rewrite Hs1, Ht1. split; discriminate.
  - intros node Hnode. unfold node_rows in Hnode.
    apply list_elem_of_fmap in Hnode as ([k n] & -> & Hkn). simpl.
    assert (Hk : k ∈ endpoint_keys (geometry gdf)).
    { apply first_seen_elem. rewrite <- Hkeys.
      apply list_elem_of_fmap. exists (k, n). auto. }
    destruct (endpoint_keys_elem _ _ Hk) as (i & geom & s & e & Hi & Hrk & Hse).
    pose proof (dict_get_of_elem _ _ _ Hnd Hkn) as Hget.
    pose proof (Hrows _ _ Hi) as Hrec. unfold row_recorded in Hrec.
    destruct geom as [g|]; [|discriminate].
    rewrite Hrk in Hrec.
    destruct Hrec as (vs & ve & Hvs & Hve & Cs & Ct & _).
    eexists. split; [eapply list_elem_of_lookup_2, (Hrow _ _ Hi)|].
    cbn [source target]. rewrite Cs, Ct. simpl.
    destruct Hse as [->| ->]; [left|right]; congruence.
Qed.

End BuilderTheorems.

Section FrameTheorems.

Context `{!LengthEngine}.
Local Open Scope nat_scope.
Local Open Scope list_scope.

Lemma kind_recordable geom :
  row_kind geom = Excluded \/ (exists s e, row_kind geom = Edge s e) ->
  recordable geom = true.
Proof.
  destruct geom as [g|]; [|reflexivity]. unfold recordable.
  destruct (is_empty g) eqn:He; [reflexivity|]. simpl.
  intros [Hk|(s & e & Hk)].
  - unfold row_kind in Hk. rewrite He in Hk.
    destruct (line_ends g) as [[[? ?]|]|]; discriminate.
  - destruct (raw_of_row_kind _ _ _ Hk) as (c1 & c2 & _ & Hr & _).
    destruct g as [cs|parts|k x]; [reflexivity| |discriminate].
    simpl in Hr.
    destruct (head parts) as [[|a p]|], (last parts) as [[|b q]|];
      simpl in Hr; try discriminate; reflexivity.
Qed.

(** X4.  The builder returns exactly on the frames all of whose rows are
    recordable (a missing or empty geometry, a geometry with a
    coordinate sequence, or a multi-part line whose first and last parts
    are not empty) and at least one of whose rows has a geometry that is
    not empty.  On every other frame it raises; in particular on a frame
    without rows, and on one whose geometries are all missing or empty,
    where the exception is the ValueError of line 86. *)
Theorem builder_returns_iff_recordable gdf :
  ((exists gdf' ns, build_topology_in_python gdf = (gdf', Ok ns)) <->
   Forall (fun geom => recordable geom = true) (geometry gdf) /\
   Exists (fun geom => has_shape geom = true) (geometry gdf)) /\
  (Forall (fun geom => has_shape geom = false) (geometry gdf) ->
   exists gdf', build_topology_in_python gdf = (gdf', Raise ValueError)).
Proof.
  split; [split|apply builder_raises_without_shapes].
  - intros (gdf' & ns & Hb).
    pose proof (build_Ok_nodes _ _ _ Hb) as Hne.
    destruct (build_rows _ _ _ Hb) as (d & -> & _ & _ & Hkeys & _ & Hrows).
    split.
    + apply Forall_lookup. intros i geom Hi. apply kind_recordable.
      specialize (Hrows _ _ Hi). unfold row_recorded in Hrows.
      destruct geom as [g|]; [|left; reflexivity].
      destruct (row_kind (Some g)) as [|s e| |x]; try contradiction; eauto.
    + destruct d as [|[k n] d]; [contradiction Hne; reflexivity|].
      assert (Hk : k ∈ endpoint_keys (geometry gdf)).
      { apply first_seen_elem. rewrite <- Hkeys. left. }
      destruct (endpoint_keys_elem _ _ Hk) as (i & geom & s & e & Hi & Hrk & _).
      apply Exists_exists. exists geom.
      split; [apply list_elem_of_lookup; eauto|].
      destruct (has_shape geom) eqn:Hs; [reflexivity|].
      apply excluded_has_no_shape in Hs. congruence.
  - intros [Hall Hsome]. apply builder_returns_on_recordable_rows; assumption.
Qed.

Lemma fold_add_key_length ks : forall seen,
  length (fold_left add_key ks seen) <= length seen + length ks.
Proof.
  induction ks as [|k ks IH]; intros seen; simpl; [lia|].
  specialize (IH (add_key seen k)).
  assert (length (add_key seen k) <= S (length seen)).
  { unfold add_key. destruct (decide (k ∈ seen)); [lia|].
    rewrite length_app. simpl. lia. }
  lia.
Qed.

Lemma endpoint_keys_length rows : length (endpoint_keys rows) <= 2 * length rows.
Proof.
  unfold endpoint_keys. induction rows as [|geom rows IH]; [simpl; lia|].
  rewrite bind_cons, length_app, length_cons.
  assert (length (row_keys geom) <= 2).
  { unfold row_keys. destruct (row_kind geom); simpl; lia. }
  lia.
Qed.

(** X5.  A build makes at most two nodes per line, and numbers them
    without gaps: every node id lies between 1 and the number of nodes. *)
Theorem node_ids_are_dense gdf gdf' ns :
  build_topology_in_python gdf = (gdf', Ok ns) ->
  length ns <= 2 * n_rows gdf /\
  forall node, node ∈ ns -> 1 <= node_id node <= length ns.
Proof.
  intros Hb.
  destruct (build_rows _ _ _ Hb) as (d & -> & _ & Hids & Hkeys & _ & _).
  split.
  - unfold node_rows. rewrite length_fmap, <- (length_fmap fst d), Hkeys.
    unfold first_seen, n_rows.
    pose proof (fold_add_key_length (endpoint_keys (geometry gdf)) []) as H1.
    pose proof (endpoint_keys_length (geometry gdf)) as H2.
    simpl in H1. lia.
  - intros node Hn.
    assert (Hin : node_id node ∈ node_id <$> node_rows d).
    { apply list_elem_of_fmap. eauto. }
    rewrite node_rows_ids, Hids in Hin. apply elem_of_seq in Hin.
    unfold node_rows. rewrite length_fmap. lia.
Qed.

Lemma loop_app rows more : forall a,
  loop (rows ++ more) a = (a1 ← loop rows a; loop more a1).
Proof.
  induction rows as [|geom rows IH]; intros a; simpl; [reflexivity|].
  simpl_res. destruct (loop_body geom a) as [a1|e]; [apply IH|reflexivity].
Qed.

(** X6.  Rows added after the rows of a frame never renumber anything: a
    build of the longer frame returns the nodes of the shorter one first,
    with their ids, and writes the same source, target and cost cells for
    the rows the two frames share. *)
Theorem later_rows_keep_earlier_ids shorter longer g1 ns1 g2 ns2 :
  extends longer shorter ->
  build_topology_in_python shorter = (g1, Ok ns1) ->
  build_topology_in_python longer = (g2, Ok ns2) ->
  ns1 `prefix_of` ns2 /\
  forall i, i < n_rows shorter ->
    cell "source" i g2 = cell "source" i g1 /\
    cell "target" i g2 = cell "target" i g1 /\
    cell "cost" i g2 = cell "cost" i g1.
Proof.
  intros [more Hext] H1 H2.
  destruct (build_Ok_inv _ _ _ H1) as (a1 & Hl1 & Ls1 & Lt1 & Lc1 & -> & ->).
  destruct (build_Ok_inv _ _ _ H2) as (a2 & Hl2 & _ & _ & _ & -> & ->).
  rewrite Hext, loop_app, Hl1 in Hl2. simpl_res.
  destruct (loop_spec _ _ _ Inv_init Hl1) as (HI1 & _).
  destruct (loop_spec _ _ _ HI1 Hl2) as (_ & _ & [k Hk] & _ & S & T & C).
  split.
  - exists (node_rows k). unfold node_rows. rewrite Hk, fmap_app. reflexivity.
  - intros i Hi.
    destruct (annotated_columns shorter a1) as (Cs1 & Ct1 & Cc1 & _).
    destruct (annotated_columns longer a2) as (Cs2 & Ct2 & Cc2 & _).
    unfold cell. rewrite Cs1, Ct1, Cc1, Cs2, Ct2, Cc2. simpl.
    rewrite S, T, C, !fmap_app.
    rewrite !lookup_app_l by (rewrite length_fmap; lia).
    auto.
Qed.

End FrameTheorems.

(* ===================================================================== *)
(** ** The loader: point files *)
(* ===================================================================== *)

Section LoaderFacts.

Context `{!FileSystem}.
Local Open Scope nat_scope.
Local Open Scope list_scope.

Lemma column_is_Some name (cols : list (string * list Value)) :
  is_Some (column name cols) <-> name ∈ cols.*1.
Proof.
  induction cols as [|[n vals] cols IH]; simpl.
  - split; [intros [? ?]; discriminate|intros Hin; apply elem_of_nil in Hin; contradiction].
  - destruct (decide (n = name)) as [->|Hne].
    + split; [intros _; left|eauto].
    + rewrite IH, elem_of_cons. split; [auto|]. intros [?|?]; [congruence|assumption].
Qed.

Lemma getitem_has name gdf :
  has_column name gdf = true -> exists vals, getitem name gdf = Ok vals /\
                                            column name (columns gdf) = Some vals.
Proof.
  unfold has_column, getitem. intros Hh. apply bool_decide_eq_true in Hh.
  apply column_is_Some in Hh as [vals Hv]. rewrite Hv. eauto.
Qed.

Lemma cell_replicate name v gdf i :
  cell name i (broadcast name v gdf) =
  if bool_decide (i < n_rows gdf) then v else VNone.
Proof.
  unfold cell, broadcast, set_column. simpl. rewrite column_assign_eq. simpl.
  case_bool_decide as Hi.
  - rewrite lookup_replicate_2 by exact Hi. reflexivity.
  - rewrite lookup_ge_None_2; [reflexivity|]. rewrite length_replicate. lia.
Qed.

(** The frame section A uploads for a point file: the rows and the
    geometry of the file, the category of the file in every row, and the
    name column settled by the precedence of lines 110-115. *)
Lemma prepare_points_spec category gdf :
  exists gdf',
    prepare_points category gdf = Ok gdf' /\
    geometry gdf' = geometry gdf /\
    forall i,
      cell "category" i gdf' =
        (if bool_decide (i < n_rows gdf) then VStr category else VNone) /\
      cell "name" i gdf' = settled_name category gdf i.
Proof.
  unfold prepare_points, settled_name.
  set (low := lower_columns gdf).
  assert (Hn : n_rows low = n_rows gdf) by reflexivity.
  assert (Hfin : forall g1 : GeoDataFrame,
            geometry g1 = geometry gdf ->
            (exists vals, column "name" (columns g1) = Some vals) ->
            exists gdf',
              (let g2 := broadcast "category" (VStr category) g1 in
               names ← getitem "name" g2; cats ← getitem "category" g2;
               mret {| geometry := geometry g2;
                       columns := [("name", names); ("category", cats)] |})
              = Ok gdf' /\
              geometry gdf' = geometry gdf /\
              forall i,
                cell "category" i gdf' =
                  (if bool_decide (i < n_rows gdf) then VStr category else VNone) /\
                cell "name" i gdf' = cell "name" i g1).
  { intros g1 Hg [vals Hv]. unfold getitem, broadcast, set_column. simpl.
    rewrite (column_assign_ne "category" "name") by discriminate.
    rewrite Hv. simpl_res. rewrite column_assign_eq. simpl.
    eexists. split; [reflexivity|]. split; [exact Hg|].
    intros i. unfold cell. simpl. rewrite Hv. simpl. split; [|reflexivity].
    unfold n_rows. rewrite Hg. case_bool_decide as Hi.
    - rewrite lookup_replicate_2 by exact Hi. reflexivity.
    - rewrite lookup_ge_None_2; [reflexivity|]. rewrite length_replicate. lia. }
  destruct (has_column "actual_nam" low) eqn:H1.
  { destruct (getitem_has _ _ H1) as (vals & Hg & Hc). rewrite Hg. simpl_res.
    destruct (Hfin (set_column "name" vals low) eq_refl) as (gdf' & He & Hgeo & Hcells).
    { exists vals. apply column_assign_eq. }
    exists gdf'. split; [exact He|]. split; [exact Hgeo|].
    intros i. destruct (Hcells i) as [Hcat Hname]. split; [exact Hcat|].
    rewrite Hname. unfold cell, set_column. simpl.
    rewrite column_assign_eq. fold low. rewrite Hc. reflexivity. }
  destruct (has_column "actual_name" low) eqn:H2.
  { destruct (getitem_has _ _ H2) as (vals & Hg & Hc). rewrite Hg. simpl_res.
    destruct (Hfin (set_column "name" vals low) eq_refl) as (gdf' & He & Hgeo & Hcells).
    { exists vals. apply column_assign_eq. }
    exists gdf'. split; [exact He|]. split; [exact Hgeo|].
    intros i. destruct (Hcells i) as [Hcat Hname]. split; [exact Hcat|].
    rewrite Hname. unfold cell, set_column. simpl.
    rewrite column_assign_eq. fold low. rewrite Hc. reflexivity. }
  destruct (has_column "name" low) eqn:H3; simpl_res.
  { destruct (getitem_has _ _ H3) as (vals & _ & Hc).
    destruct (Hfin low eq_refl) as (gdf' & He & Hgeo & Hcells); [eauto|].
    exists gdf'. split; [exact He|]. split; [exact Hgeo|].
    intros i. destruct (Hcells i) as [Hcat Hname]. auto. }
  destruct (Hfin (broadcast "name" (VStr (category ++ " (Unknown)")%string) low) eq_refl)
    as (gdf' & He & Hgeo & Hcells).
  { eexists. unfold broadcast, set_column. simpl. apply column_assign_eq. }
  exists gdf'. split; [exact He|]. split; [exact Hgeo|].
  intros i. destruct (Hcells i) as [Hcat Hname]. split; [exact Hcat|].
  rewrite Hname, cell_replicate. reflexivity.
Qed.

End LoaderFacts.

Section LoaderLoops.

Context `{!FileSystem}.
Local Open Scope nat_scope.
Local Open Scope list_scope.

Lemma with_point_features_id t : with_point_features (point_features t) t = t.
Proof. destruct t; reflexivity. Qed.

Lemma with_lcda_polygons_id t : with_lcda_polygons (lcda_polygons t) t = t.
Proof. destruct t; reflexivity. Qed.

Lemma point_file_cases entry first t :
  match prepared_points entry with
  | None => point_file entry first t = (t, Ok first)
  | Some (Ok gdf) =>
      point_file entry first t =
      (with_point_features
         (write_table first (point_rows gdf) (point_features t)) t, Ok false)
  | Some (Raise e) => point_file entry first t = (t, Raise e)
  end.
Proof.
  unfold prepared_points, point_file.
  destruct (read_file entry.1) as [sf|]; simpl; [|reflexivity].
  destruct (ensure_4326 sf ≫= prepare_points entry.2); reflexivity.
Qed.

Lemma lcda_file_cases entry first t :
  match prepared_lcda entry with
  | None => lcda_file entry first t = (t, Ok first)
  | Some (Ok gdf) =>
      lcda_file entry first t =
      (with_lcda_polygons
         (write_table first (lcda_rows gdf) (lcda_polygons t)) t, Ok false)
  | Some (Raise e) => lcda_file entry first t = (t, Raise e)
  end.
Proof.
  unfold prepared_lcda, lcda_file.
  destruct (read_file entry.1) as [sf|]; simpl; [|reflexivity].
  destruct (ensure_4326 sf ≫= prepare_lcda entry.2); reflexivity.
Qed.

Lemma any_file_cons entry entries :
  any_file (entry :: entries) =
  bool_decide (is_Some (read_file entry.1)) || any_file entries.
Proof. reflexivity. Qed.

Lemma prepared_points_exists entry :
  bool_decide (is_Some (read_file entry.1)) =
  bool_decide (is_Some (prepared_points entry)).
Proof.
  unfold prepared_points. destruct (read_file entry.1); reflexivity.
Qed.

Lemma prepared_lcda_exists entry :
  bool_decide (is_Some (read_file entry.1)) =
  bool_decide (is_Some (prepared_lcda entry)).
Proof.
  unfold prepared_lcda. destruct (read_file entry.1); reflexivity.
Qed.

(** Section A, when it returns: what it leaves in [point_features], and
    that it leaves every other table alone. *)
Lemma point_files_Ok entries : forall first t t' b,
  point_files entries first t = (t', Ok b) ->
  t' = with_point_features
         (if any_file entries
          then write_table first (uploaded_points entries) (point_features t)
          else point_features t) t /\
  b = first && negb (any_file entries).
Proof.
  induction entries as [|entry entries IH]; intros first t t' b.
  - simpl. intros [= <- <-]. rewrite with_point_features_id, andb_true_r. auto.
  - pose proof (point_file_cases entry first t) as Hc.
    rewrite any_file_cons, prepared_points_exists.
    unfold uploaded_points in *. rewrite bind_cons. cbn [point_files].
    destruct (prepared_points entry) as [[gdf|e]|]; rewrite Hc; simpl.
    + intros Hl. apply IH in Hl as [-> ->]. simpl.
      split; [|rewrite ?andb_false_r; reflexivity].
      unfold with_point_features. simpl. f_equal.
      destruct (any_file entries) eqn:Ha.
      * unfold write_table. destruct first; [reflexivity|].
        rewrite app_assoc. reflexivity.
      * assert (Hnil : entries ≫= (fun entry0 =>
                   match prepared_points entry0 with
                   | Some (Ok gdf0) => point_rows gdf0
                   | _ => []
                   end) = []).
        { clear -Ha. induction entries as [|e0 es IHs]; [reflexivity|].
          rewrite any_file_cons, prepared_points_exists in Ha.
          apply orb_false_iff in Ha as [Ha1 Ha2]. rewrite bind_cons.
          rewrite (IHs Ha2), app_nil_r.
          destruct (prepared_points e0); [|reflexivity].
          apply bool_decide_eq_false in Ha1. exfalso. apply Ha1. eauto. }
        rewrite Hnil, app_nil_r. reflexivity.
    + discriminate.
    + intros Hl. apply IH in Hl as [-> ->]. auto.
Qed.

(** Whether section A returns does not depend on the tables or on the
    flag it starts with. *)
Lemma point_files_returns entries : forall first t t' b first0 t0,
  point_files entries first t = (t', Ok b) ->
  exists t0' b0, point_files entries first0 t0 = (t0', Ok b0).
Proof.
  induction entries as [|entry entries IH]; intros first t t' b first0 t0; simpl.
  - eauto.
  - pose proof (point_file_cases entry first t) as Hc.
    pose proof (point_file_cases entry first0 t0) as Hc0.
    destruct (prepared_points entry) as [[gdf|e]|]; rewrite Hc, Hc0;
      try discriminate; eauto.
Qed.

Lemma point_files_frame entries : forall first t t' res,
  point_files entries first t = (t', res) ->
  lcda_polygons t' = lcda_polygons t /\ boundary t' = boundary t /\
  roads t' = roads t /\ roads_vertices_pgr t' = roads_vertices_pgr t.
Proof.
  induction entries as [|entry entries IH]; intros first t t' res; simpl.
  - intros [= <- _]. auto.
  - pose proof (point_file_cases entry first t) as Hc.
    destruct (prepared_points entry) as [[gdf|e]|]; rewrite Hc.
    + intros Hl. apply IH in Hl. exact Hl.
    + intros [= <- _]. auto.
    + intros Hl. apply IH in Hl. exact Hl.
Qed.

Lemma lcda_files_Ok entries : forall first t t' b,
  lcda_files entries first t = (t', Ok b) ->
  t' = with_lcda_polygons
         (if any_file entries
          then write_table first (uploaded_lcdas entries) (lcda_polygons t)
          else lcda_polygons t) t /\
  b = first && negb (any_file entries).
Proof.
  induction entries as [|entry entries IH]; intros first t t' b.
  - simpl. intros [= <- <-]. rewrite with_lcda_polygons_id, andb_true_r. auto.
  - pose proof (lcda_file_cases entry first t) as Hc.
    rewrite any_file_cons, prepared_lcda_exists.
    unfold uploaded_lcdas in *. rewrite bind_cons. cbn [lcda_files].
    destruct (prepared_lcda entry) as [[gdf|e]|]; rewrite Hc; simpl.
    + intros Hl. apply IH in Hl as [-> ->]. simpl.
      split; [|rewrite ?andb_false_r; reflexivity].
      unfold with_lcda_polygons. simpl. f_equal.
      destruct (any_file entries) eqn:Ha.
      * unfold write_table. destruct first; [reflexivity|].
        rewrite app_assoc. reflexivity.
      * assert (Hnil : entries ≫= (fun entry0 =>
                   match prepared_lcda entry0 with
                   | Some (Ok gdf0) => lcda_rows gdf0
                   | _ => []
                   end) = []).
        { clear -Ha. induction entries as [|e0 es IHs]; [reflexivity|].
          rewrite any_file_cons, prepared_lcda_exists in Ha.
          apply orb_false_iff in Ha as [Ha1 Ha2]. rewrite bind_cons.
          rewrite (IHs Ha2), app_nil_r.
          destruct (prepared_lcda e0); [|reflexivity].
          apply bool_decide_eq_false in Ha1. exfalso. apply Ha1. eauto. }
        rewrite Hnil, app_nil_r. reflexivity.
    + discriminate.
    + intros Hl. apply IH in Hl as [-> ->]. auto.
Qed.

Lemma lcda_files_returns entries : forall first t t' b first0 t0,
  lcda_files entries first t = (t', Ok b) ->
  exists t0' b0, lcda_files entries first0 t0 = (t0', Ok b0).
Proof.
  induction entries as [|entry entries IH]; intros first t t' b first0 t0; simpl.
  - eauto.
  - pose proof (lcda_file_cases entry first t) as Hc.
    pose proof (lcda_file_cases entry first0 t0) as Hc0.
    destruct (prepared_lcda entry) as [[gdf|e]|]; rewrite Hc, Hc0;
      try discriminate; eauto.
Qed.

Lemma lcda_files_frame entries : forall first t t' res,
  lcda_files entries first t = (t', res) ->
  point_features t' = point_features t /\ boundary t' = boundary t /\
  roads t' = roads t /\ roads_vertices_pgr t' = roads_vertices_pgr t.
Proof.
  induction entries as [|entry entries IH]; intros first t t' res; simpl.
  - intros [= <- _]. auto.
  - pose proof (lcda_file_cases entry first t) as Hc.
    destruct (prepared_lcda entry) as [[gdf|e]|]; rewrite Hc.
    + intros Hl. apply IH in Hl. exact Hl.
    + intros [= <- _]. auto.
    + intros Hl. apply IH in Hl. exact Hl.
Qed.

End LoaderLoops.

(* ===================================================================== *)
(** ** The loader: what it leaves in the database *)
(* ===================================================================== *)

Section LoaderTheorems.

Context `{!FileSystem} `{!LengthEngine}.
Local Open Scope nat_scope.
Local Open Scope list_scope.

(** X7.  Preparing a point file never fails.  It keeps every row, in
    order, with its geometry; it gives every row the category of the
    file; and it takes the name of a row from the column ACTUAL_NAM, else
    ACTUAL_NAME, else NAME (in any letter case), else makes it
    "<category> (Unknown)". *)
Theorem point_file_rows category gdf :
  exists gdf',
    prepare_points category gdf = Ok gdf' /\
    length (point_rows gdf') = n_rows gdf /\
    forall i g, geometry gdf !! i = Some g ->
      point_rows gdf' !! i =
      Some {| pt_index := i;
              pt_name := settled_name category gdf i;
              pt_category := VStr category;
              pt_geom := g |}.
Proof.
  destruct (prepare_points_spec category gdf) as (gdf' & Hp & Hg & Hcells).
  exists gdf'. split; [exact Hp|]. unfold point_rows. split.
  - rewrite length_imap, Hg. reflexivity.
  - intros i g Hi. rewrite list_lookup_imap, Hg, Hi. simpl.
    destruct (Hcells i) as [Hcat Hname]. rewrite Hcat, Hname.
    assert (Hlt : i < n_rows gdf) by (apply lookup_lt_Some in Hi; exact Hi).
    rewrite bool_decide_eq_true_2 by exact Hlt. reflexivity.
Qed.




(** A section that returned, run again on the tables it left. *)
Lemma point_files_again entries t t' b :
  point_files entries true t = (t', Ok b) ->
  forall t2, point_features t2 = point_features t' ->
    point_files entries true t2 = (t2, Ok b).
Proof.
  intros Hl t2 Hpf.
  destruct (point_files_returns _ _ _ _ _ true t2 Hl) as (t2' & b2 & Hl2).
  rewrite Hl2.
  destruct (point_files_Ok _ _ _ _ _ Hl) as [Ht' ->].
  destruct (point_files_Ok _ _ _ _ _ Hl2) as [-> ->].
  rewrite Ht' in Hpf. cbn [point_features with_point_features] in Hpf.
  assert (E : (if any_file entries
               then write_table true (uploaded_points entries) (point_features t2)
               else point_features t2) = point_features t2).
  { rewrite Hpf. unfold write_table. destruct (any_file entries); reflexivity. }
  rewrite E, with_point_features_id. reflexivity.
Qed.

Lemma lcda_files_again entries t t' b :
  lcda_files entries true t = (t', Ok b) ->
  forall t2, lcda_polygons t2 = lcda_polygons t' ->
    lcda_files entries true t2 = (t2, Ok b).
Proof.
  intros Hl t2 Hpf.
  destruct (lcda_files_returns _ _ _ _ _ true t2 Hl) as (t2' & b2 & Hl2).
  rewrite Hl2.
  destruct (lcda_files_Ok _ _ _ _ _ Hl) as [Ht' ->].
  destruct (lcda_files_Ok _ _ _ _ _ Hl2) as [-> ->].
  rewrite Ht' in Hpf. cbn [lcda_polygons with_lcda_polygons] in Hpf.
  assert (E : (if any_file entries
               then write_table true (uploaded_lcdas entries) (lcda_polygons t2)
               else lcda_polygons t2) = lcda_polygons t2).
  { rewrite Hpf. unfold write_table. destruct (any_file entries); reflexivity. }
  rewrite E, with_lcda_polygons_id. reflexivity.
Qed.

Lemma upload_boundary_frame t t' res :
  upload_boundary t = (t', res) ->
  point_features t' = point_features t /\ lcda_polygons t' = lcda_polygons t /\
  roads t' = roads t /\ roads_vertices_pgr t' = roads_vertices_pgr t.
Proof.
  unfold upload_boundary. destruct (read_file BOUNDARY_FILE) as [sf|];
    [destruct (ensure_4326 sf)|]; intros [= <- _]; auto.
Qed.

Lemma upload_roads_frame t t' res :
  upload_roads t = (t', res) ->
  point_features t' = point_features t /\ lcda_polygons t' = lcda_polygons t /\
  boundary t' = boundary t.
Proof.
  unfold upload_roads. destruct (read_file ROAD_FILE) as [sf|];
    [destruct (ensure_4326 sf ≫= _) as [[? ?]|]|]; intros [= <- _]; auto.
Qed.

Lemma upload_boundary_again t t' :
  upload_boundary t = (t', Ok tt) ->
  forall t2, boundary t2 = boundary t' -> upload_boundary t2 = (t2, Ok tt).
Proof.
  unfold upload_boundary. destruct (read_file BOUNDARY_FILE) as [sf|].
  - destruct (ensure_4326 sf) as [gdf|e]; [|discriminate].
    intros [= <-] t2 Hb. simpl in Hb. rewrite <- Hb. destruct t2; reflexivity.
  - intros _ t2 _. reflexivity.
Qed.

Lemma upload_roads_again t t' :
  upload_roads t = (t', Ok tt) ->
  forall t2, roads t2 = roads t' ->
    roads_vertices_pgr t2 = roads_vertices_pgr t' ->
    upload_roads t2 = (t2, Ok tt).
Proof.
  unfold upload_roads. destruct (read_file ROAD_FILE) as [sf|].
  - destruct (ensure_4326 sf ≫= _) as [[rs ns]|e]; [|discriminate].
    intros [= <-] t2 Hr Hv. simpl in Hr, Hv. rewrite <- Hr, <- Hv.
    destruct t2; reflexivity.
  - intros _ t2 _ _. reflexivity.
Qed.

(** X9.  Loading is idempotent: when [setup_database] returns, running it
    again on the same files leaves every table exactly as the first run
    left it. *)
Theorem setup_database_twice t t' :
  setup_database t = (t', Ok tt) ->
  setup_database t' = (t', Ok tt).
Proof.
  unfold setup_database, then_.
  destruct (point_files POINT_FILES true t) as [t1 [b1|e1]] eqn:HA; [|discriminate].
  destruct (lcda_files LCDA_FILES true t1) as [t2 [b2|e2]] eqn:HB; [|discriminate].
  destruct (upload_boundary t2) as [t3 [[]|e3]] eqn:HC; [|discriminate].
  intros HD.
  destruct (lcda_files_frame _ _ _ _ _ HB) as (B1 & _).
  destruct (upload_boundary_frame _ _ _ HC) as (C1 & C2 & _).
  destruct (upload_roads_frame _ _ _ HD) as (D1 & D2 & D3).
  rewrite (point_files_again _ _ _ _ HA t') by congruence.
  rewrite (lcda_files_again _ _ _ _ HB t') by congruence.
  rewrite (upload_boundary_again _ _ HC t') by congruence.
  apply (upload_roads_again _ _ HD); reflexivity.
Qed.

(** X10.  The two road tables only ever change together, and only when
    the whole of [setup_database] succeeds: after a run that raises, both
    are as they were; after a run that returns, either there was no road
    file and both are as they were, or both are the outcome of one and
    the same build. *)
Theorem road_tables_change_together t t' res :
  setup_database t = (t', res) ->
  match res with
  | Raise _ =>
      roads t' = roads t /\ roads_vertices_pgr t' = roads_vertices_pgr t
  | Ok _ =>
      (read_file ROAD_FILE = None /\
       roads t' = roads t /\ roads_vertices_pgr t' = roads_vertices_pgr t) \/
      (exists gdf,
         setup_database_roads gdf = Ok (roads t', roads_vertices_pgr t'))
  end.
Proof.
  unfold setup_database, then_.
  destruct (point_files POINT_FILES true t) as [t1 r1] eqn:HA.
  destruct (point_files_frame _ _ _ _ _ HA) as (_ & _ & A3 & A4).
  destruct r1 as [b1|e1]; [|intros [= <- <-]; auto].
  destruct (lcda_files LCDA_FILES true t1) as [t2 r2] eqn:HB.
  destruct (lcda_files_frame _ _ _ _ _ HB) as (_ & _ & B3 & B4).
  destruct r2 as [b2|e2]; [|intros [= <- <-]; split; congruence].
  destruct (upload_boundary t2) as [t3 r3] eqn:HC.
  destruct (upload_boundary_frame _ _ _ HC) as (_ & _ & C3 & C4).
  destruct r3 as [[]|e3]; [|intros [= <- <-]; split; congruence].
  unfold upload_roads. destruct (read_file ROAD_FILE) as [sf|].
  - destruct (ensure_4326 sf) as [gdf|e]; simpl_res.
    + destruct (setup_database_roads (lower_columns gdf)) as [[rs ns]|e] eqn:Hs.
      * intros [= <- <-]. right. exists (lower_columns gdf). exact Hs.
      * intros [= <- <-]. split; congruence.
    + intros [= <- <-]. split; congruence.
  - intros [= <- <-]. left. split; [reflexivity|]. split; congruence.
Qed.

End LoaderTheorems.

(* ===================================================================== *)
(** ** The handlers: distances *)
(* ===================================================================== *)

Section DistanceFacts.

Local Open Scope Z_scope.




End DistanceFacts.

Section NearestTheorems.

Context `{!Database}.
Local Open Scope list_scope.


(** X12.  Whenever no road route comes back (no vertex near the origin,
    none near the facility, or no geometry along the path), and so also
    on an empty road graph, [get_nearest] does not raise: it answers with
    the straight line, and the distance in its message is within half a
    unit of the geodesic distance between origin and facility. *)
Theorem nearest_without_route lat lng category target :
  find_closest ("%" ++ category ++ "%")%string lng lat = Some target ->
  (nearest_vertex lng lat = None \/
   nearest_vertex (fac_lng target) (fac_lat target) = None \/
   exists s e, nearest_vertex lng lat = Some s /\
               nearest_vertex (fac_lng target) (fac_lat target) = Some e /\
               agg_union (pgr_dijkstra_roads s e) = None) ->
  exists straight_dist,
    get_nearest lat lng category =
    Ok (feature_collection
          [destination_point target;
           straight_line lng lat (fac_lng target) (fac_lat target)
             straight_dist]) /\
    (Qabs (inject_Z straight_dist
           - ST_Distance_geography (lng, lat) (fac_lng target, fac_lat target))
     <= 1 # 2)%Q.
Proof.
  intros Hf Hno. eexists. split.
  - apply (get_nearest_fallback lat lng category target Hf Hno).
  - apply round_close.
Qed.


End NearestTheorems.

(* ===================================================================== *)
(** ** The handlers: collections, search and statistics *)
(* ===================================================================== *)

Section LayerTheorems.

Context `{!Layers}.
Local Open Scope list_scope.

Lemma or_empty_collection rows : or_empty (collection rows) = collection rows.
Proof. reflexivity. Qed.

Lemma collection_features rows :
  response_member "features" (collection rows) = Some (json_agg rows) /\
  response_member "features" (collection rows) <> Some (JList []) /\
  (response_member "features" (collection rows) = Some JNull <-> rows = []).
Proof.
  unfold collection, response_member. simpl.
  destruct rows as [|r rows]; simpl; repeat split; try discriminate; auto.
Qed.

(** X14.  With a connection, [get_features] answers 200 with a feature
    collection whose [features] member is always a list: the matching
    features, and the empty list when nothing matches (the null that
    [json_agg] gives over no rows is replaced).  Without a connection it
    answers 500 with an empty list. *)
Theorem features_are_always_a_list conn category :
  get_features conn category =
  if conn
  then (feature_collection (features_like ("%" ++ category ++ "%")%string), 200%nat)
  else (JList [], 500%nat).
Proof.
  unfold get_features. destruct conn; [|reflexivity]. simpl.
  unfold collection, feature_collection, json_agg.
  destruct (features_like ("%" ++ category ++ "%")%string); reflexivity.
Qed.

(** X15.  [get_buffer], [get_lcdas], [get_boundary] and
    [identify_location] send what the query built, unchanged: their
    [features] member is null exactly when no row matches and is never
    the empty list, so the empty collection written as their fallback is
    never what is sent. *)
Theorem collections_keep_null_features lat lng dist :
  let answers :=
    [(get_buffer lat lng dist, features_within lng lat dist);
     (get_lcdas, lcda_features);
     (get_boundary, boundary_features);
     (identify_location lat lng, lcdas_at lng lat)] in
  forall resp rows, (resp, rows) ∈ answers ->
    response_member "type" resp = Some (JStr "FeatureCollection") /\
    response_member "features" resp <> Some (JList []) /\
    (response_member "features" resp = Some JNull <-> rows = []) /\
    (rows <> [] -> response_member "features" resp = Some (JList rows)).
Proof.
  intros answers resp rows Hin. unfold answers in Hin.
  assert (Hresp : resp = collection rows).
  { repeat (apply elem_of_cons in Hin as [[= -> ->]|Hin]; [reflexivity|]).
    apply elem_of_nil in Hin. contradiction. }
  subst resp. destruct (collection_features rows) as (_ & Hne & Hnull).
  repeat split; try assumption; try apply Hnull.
  intros Hrows. destruct rows; [congruence|reflexivity].
Qed.

(** X16.  [get_roads_layer] answers in every case, a failed query
    included.  Its [features] member is the empty list exactly when
    there is no connection or the query failed; with a connection and a
    query that ran, it is what the query built. *)
Theorem roads_layer_answers conn :
  (response_member "features" (get_roads_layer conn) = Some (JList []) <->
   conn = false \/ exists e, roads_layer_features = Raise e) /\
  (forall rows, conn = true -> roads_layer_features = Ok rows ->
     get_roads_layer conn = collection rows) /\
  (response_member "type" (get_roads_layer conn) = None <-> conn = false).
Proof.
  unfold get_roads_layer.
  destruct conn; simpl.
  - destruct roads_layer_features as [rows|e] eqn:Hq; simpl.
    + rewrite or_empty_collection.
      destruct (collection_features rows) as (Hf & Hne & _).
      repeat split; try discriminate.
      * intros Habs. contradiction.
      * intros [?|[e ?]]; discriminate.
      * intros rows' _ [= <-]. reflexivity.
    + repeat split; try discriminate; eauto.
  - repeat split; try discriminate; auto.
Qed.

(** X17.  [search_all] answers a query of fewer than two characters, or
    none at all, with the empty list whatever the database holds;
    characters are counted, not bytes, so one accented letter is too
    short a query.  Otherwise it answers with at most ten results, one
    per matching row in the order the database gives them, each with the
    name, category, longitude and latitude of its row. *)
Theorem search_is_bounded q :
  exists items,
    search_all q = JList items /\
    (length items <= 10)%nat /\
    ((len (default ""%string q) < 2)%nat -> items = []) /\
    ((2 <= len (default ""%string q))%nat ->
     let matches := search_matches ("%" ++ default "" q ++ "%")%string in
     length items = Nat.min 10 (length matches) /\
     forall i name category lng lat,
       (i < 10)%nat -> matches !! i = Some (name, category, lng, lat) ->
       items !! i = Some (JDict [("name", name); ("category", category);
                                 ("lng", lng); ("lat", lat)])).
Proof.
  unfold search_all. set (query_text := default ""%string q).
  destruct (bool_decide (query_text = ""%string)
            || (len query_text <? 2)%nat) eqn:Hshort.
  - exists []. split; [reflexivity|]. split; [simpl; lia|].
    split; [reflexivity|].
    intros Hlen. exfalso. apply orb_true_iff in Hshort as [Hs|Hs].
    + apply bool_decide_eq_true in Hs. rewrite Hs in Hlen. simpl in Hlen. lia.
    + apply Nat.ltb_lt in Hs. lia.
  - eexists. split; [reflexivity|].
    apply orb_false_iff in Hshort as [_ Hs]. apply Nat.ltb_ge in Hs.
    rewrite length_fmap, length_take. repeat split; try lia.
    intros i name category lng lat Hi Hm.
    rewrite list_lookup_fmap, lookup_take_lt by exact Hi. rewrite Hm. reflexivity.
Qed.

Lemma round2_or_zero_close x :
  match x with
  | None => round2_or_zero x = 0%Q
  | Some v => (Qabs (round2_or_zero x - v) <= 1 # 200)%Q
  end.
Proof.
  destruct x as [v|]; [|reflexivity]. unfold round2_or_zero.
  destruct (Qeq_bool v 0) eqn:Hz; [|apply round2_close].
  apply Qeq_bool_iff in Hz. apply Qabs_Qle_condition. split; lra.
Qed.

(** X18.  [get_stats] answers in every case.  Each of its two totals is 0
    when its table is empty (the sum is NULL), and is otherwise within
    half a hundredth of the sum the database computed; [poi_stats] has
    one entry per category row, in the order of the rows. *)
Theorem stats_totals :
  exists road_km area_sqkm,
    get_stats =
    JDict [("poi_stats",
            JList ((fun r : Json * Json =>
                      JDict [("label", fst r); ("value", snd r)]) <$> poi_counts));
           ("total_road_km", JNum road_km);
           ("total_area_sqkm", JNum area_sqkm)] /\
    match roads_total_km with
    | None => road_km = 0%Q
    | Some v => (Qabs (road_km - v) <= 1 # 200)%Q
    end /\
    match lcda_total_sqkm with
    | None => area_sqkm = 0%Q
    | Some v => (Qabs (area_sqkm - v) <= 1 # 200)%Q
    end.
Proof.
  eexists _, _. split; [reflexivity|]. split; apply round2_or_zero_close.
Qed.


End LayerTheorems.

(* ===================================================================== *)
(** ** The loader: district files and success *)
(* ===================================================================== *)

Section LoaderSuccess.

Context `{!FileSystem} `{!LengthEngine}.
Local Open Scope nat_scope.
Local Open Scope list_scope.

(** X20.  Preparing a district file never fails.  It keeps every row, in
    order, with its geometry, and names every row after the district of
    its file, whatever name column the file brings. *)
Theorem district_file_rows lcda gdf :
  exists gdf',
    prepare_lcda lcda gdf = Ok gdf' /\
    length (lcda_rows gdf') = n_rows gdf /\
    forall i g, geometry gdf !! i = Some g ->
      lcda_rows gdf' !! i =
      Some {| lcda_index := i; lcda_name := VStr lcda; lcda_geom := g |}.
Proof.
  unfold prepare_lcda, getitem, broadcast, set_column. simpl.
  rewrite column_assign_eq. simpl_res. eexists. split; [reflexivity|].
  unfold lcda_rows. simpl. split; [apply length_imap|].
  intros i g Hi. rewrite list_lookup_imap, Hi. simpl. unfold cell. simpl.
  rewrite lookup_replicate_2 by (apply lookup_lt_Some in Hi; exact Hi).
  reflexivity.
Qed.




End LoaderSuccess.

(* ===================================================================== *)
(** ** The further theorems at work on the sample data *)
(* ===================================================================== *)

(** The three sample roads: B was digitised twice, a hair apart, and both
    times rounds to the same six decimals. *)
Lemma node_ids_witness :
  (forall i c v, endpoint_at Sample.roads_frame Sample.roads_frame_after i c v ->
     exists n,
       v = VInt n /\
       {| node_id := n;
          node_point := (round_ndigits (fst c) 6, round_ndigits (snd c) 6) |}
         ∈ Sample.nodes_table) /\
  (forall i1 c1 v1 i2 c2 v2,
     endpoint_at Sample.roads_frame Sample.roads_frame_after i1 c1 v1 ->
     endpoint_at Sample.roads_frame Sample.roads_frame_after i2 c2 v2 ->
     (v1 = v2 <->
      (round_ndigits (fst c1) 6 == round_ndigits (fst c2) 6)%Q /\
      (round_ndigits (snd c1) 6 == round_ndigits (snd c2) 6)%Q)) /\
  length (remove_dups (node_id <$> Sample.nodes_table)) =
  length (remove_dups
            ((fun c => (round_ndigits (fst c) 6, round_ndigits (snd c) 6))
               <$> raw_endpoints (geometry Sample.roads_frame))).
Proof.
  apply (@node_ids_follow_rounded_coordinates Sample.engine Sample.roads_frame
           Sample.roads_frame_after Sample.nodes_table).
  vm_compute. reflexivity.
Defined.

(** The end of the first sample road and the start of the second are
    digitised differently and yet round to the same pair. *)
Lemma sample_B_rounds_like_B' :
  Sample.B <> Sample.B' /\
  (round_ndigits (fst Sample.B) 6, round_ndigits (snd Sample.B) 6)
  = (round_ndigits (fst Sample.B') 6, round_ndigits (snd Sample.B') 6).
Proof. split; [discriminate|vm_compute; reflexivity]. Qed.

(** The second road starts at B', digitised a hair off B, and is attached
    to node 2. *)
Lemma node_near_witness :
  exists n p,
    VInt 2 = VInt n /\
    {| node_id := n; node_point := p |} ∈ Sample.nodes_table /\
    (Qabs (fst p - fst Sample.B') <= 1 # 1000000)%Q /\
    (Qabs (snd p - snd Sample.B') <= 1 # 1000000)%Q.
Proof.
  apply (@node_lies_near_endpoint Sample.engine Sample.roads_frame
           Sample.roads_frame_after Sample.nodes_table 1 Sample.B' (VInt 2)).
  - vm_compute. reflexivity.
  - exists (LineString [Sample.B'; Sample.C]), Sample.B', Sample.C.
    repeat split. left. split; reflexivity.
Defined.

(** The end of the first road and the start of the second share node 2. *)
Lemma merged_close_witness :
  (Qabs (fst Sample.B - fst Sample.B') <= 1 # 1000000)%Q /\
  (Qabs (snd Sample.B - snd Sample.B') <= 1 # 1000000)%Q.
Proof.
  apply (@merged_endpoints_are_close Sample.engine Sample.roads_frame
           Sample.roads_frame_after Sample.nodes_table 0 1
           Sample.B Sample.B' (VInt 2)).
  - vm_compute. reflexivity.
  - exists (LineString [Sample.A; Sample.B]), Sample.A, Sample.B.
    repeat split. right. split; reflexivity.
  - exists (LineString [Sample.B'; Sample.C]), Sample.B', Sample.C.
    repeat split. left. split; reflexivity.
Defined.

Lemma tables_consistent_witness :
  (forall r a, r ∈ Sample.roads_table -> source r = Some a \/ target r = Some a ->
     a ∈ node_id <$> Sample.nodes_table) /\
  (forall r, r ∈ Sample.roads_table -> (source r = None <-> target r = None)) /\
  (forall node, node ∈ Sample.nodes_table ->
     exists r, r ∈ Sample.roads_table /\
       (source r = Some (node_id node) \/ target r = Some (node_id node))).
Proof.
  apply (@road_tables_are_consistent Sample.engine Sample.roads_frame
           Sample.roads_table Sample.nodes_table).
  vm_compute. reflexivity.
Defined.

(** The ragged frame has only recordable rows, the last of them a line
    with two coordinates; the frame of a missing and an empty line has
    none with a coordinate. *)
Lemma recordable_witness :
  (exists gdf' ns,
     @build_topology_in_python Sample.engine Sample.ragged_frame = (gdf', Ok ns)) /\
  (exists gdf',
     @build_topology_in_python Sample.engine Sample.null_frame
     = (gdf', Raise ValueError)).
Proof.
  split.
  - apply (proj2 (proj1 (@builder_returns_iff_recordable Sample.engine
                           Sample.ragged_frame))).
    split; [repeat constructor|].
    apply Exists_exists. exists (Some (LineString [Sample.A; Sample.B])).
    split; [|reflexivity]. repeat constructor.
  - apply (proj2 (@builder_returns_iff_recordable Sample.engine Sample.null_frame)).
    repeat constructor.
Defined.

Lemma dense_ids_witness :
  (length Sample.nodes_table <= 2 * n_rows Sample.roads_frame)%nat /\
  forall node, node ∈ Sample.nodes_table ->
    (1 <= node_id node <= length Sample.nodes_table)%nat.
Proof.
  apply (@node_ids_are_dense Sample.engine Sample.roads_frame
           Sample.roads_frame_after Sample.nodes_table).
  vm_compute. reflexivity.
Defined.

(** The third road is added after the first two. *)
Lemma later_rows_witness :
  SampleFiles.two_roads_nodes `prefix_of` Sample.nodes_table /\
  forall i, (i < n_rows SampleFiles.two_roads_frame)%nat ->
    cell "source" i Sample.roads_frame_after
      = cell "source" i SampleFiles.two_roads_after /\
    cell "target" i Sample.roads_frame_after
      = cell "target" i SampleFiles.two_roads_after /\
    cell "cost" i Sample.roads_frame_after
      = cell "cost" i SampleFiles.two_roads_after.
Proof.
  apply (@later_rows_keep_earlier_ids Sample.engine
           SampleFiles.two_roads_frame Sample.roads_frame
           SampleFiles.two_roads_after SampleFiles.two_roads_nodes
           Sample.roads_frame_after Sample.nodes_table).
  - eexists. vm_compute. reflexivity.
  - vm_compute. reflexivity.
  - vm_compute. reflexivity.
Defined.



Lemma setup_twice_witness :
  @setup_database SampleFiles.disk Sample.engine SampleFiles.loaded_tables =
  (SampleFiles.loaded_tables, Ok tt).
Proof.
  apply (@setup_database_twice SampleFiles.disk Sample.engine
           SampleFiles.old_tables SampleFiles.loaded_tables).
  vm_compute. reflexivity.
Defined.

(** A road layer with a polygon in it: the load raises after the points
    have been replaced, and the road tables are as they were. *)
Lemma road_tables_witness :
  let t' := fst (@setup_database SampleFiles.bad_road_disk Sample.engine
                   SampleFiles.old_tables) in
  roads t' = roads SampleFiles.old_tables /\
  roads_vertices_pgr t' = roads_vertices_pgr SampleFiles.old_tables.
Proof.
  exact (@road_tables_change_together SampleFiles.bad_road_disk Sample.engine
           SampleFiles.old_tables _ (Raise ValueError) eq_refl).
Defined.


Lemma without_route_witness :
  exists straight_dist,
    @get_nearest SampleDb.db 6.5%Q 3.35%Q "Hospital" =
    Ok (feature_collection
          [destination_point SampleDb.hospital;
           straight_line 3.35%Q 6.5%Q 3.4%Q 6.61%Q straight_dist]) /\
    (Qabs (inject_Z straight_dist
           - @ST_Distance_geography SampleDb.db (3.35%Q, 6.5%Q) (3.4%Q, 6.61%Q))
     <= 1 # 2)%Q.
Proof.
  apply (@nearest_without_route SampleDb.db 6.5%Q 3.35%Q "Hospital"
           SampleDb.hospital eq_refl).
  right; right. exists 1%nat, 5%nat. repeat split.
Defined.

(** Nothing lies within 50 m in the sample layers. *)
Lemma null_features_witness :
  let resp := @get_buffer SampleFiles.layers 6.5%Q 3.35%Q 50%Q in
  response_member "type" resp = Some (JStr "FeatureCollection") /\
  response_member "features" resp <> Some (JList []) /\
  (response_member "features" resp = Some JNull <->
   @features_within SampleFiles.layers 3.35%Q 6.5%Q 50%Q = []) /\
  (@features_within SampleFiles.layers 3.35%Q 6.5%Q 50%Q <> [] ->
   response_member "features" resp =
   Some (JList (@features_within SampleFiles.layers 3.35%Q 6.5%Q 50%Q))).
Proof.
  apply (@collections_keep_null_features SampleFiles.layers 6.5%Q 3.35%Q 50%Q).
  left.
Defined.

(** The road layer query of the sample layers fails. *)
Lemma roads_layer_witness :
  response_member "features" (@get_roads_layer SampleFiles.layers true)
  = Some (JList []).
Proof.
  apply (proj2 (proj1 (@roads_layer_answers SampleFiles.layers true))).
  right. exists ValueError. reflexivity.
Defined.

(** Twelve rows match the query ba and ten are sent; the one-letter query
    of an accented e is answered with nothing although a row matches
    it. *)
Lemma search_witness :
  (exists items,
     @search_all SampleFiles.layers (Some "ba") = JList items /\
     length items = 10%nat) /\
  @search_all SampleFiles.layers (Some SampleFiles.e_acute) = JList [] /\
  @search_matches SampleFiles.layers ("%" ++ SampleFiles.e_acute ++ "%") <> [].
Proof.
  split; [|split].
  - destruct (@search_is_bounded SampleFiles.layers (Some "ba"))
      as (items & Hs & _ & _ & Hlong).
    exists items. split; [exact Hs|].
    destruct (Hlong ltac:(simpl; lia)) as [Hlen _]. exact Hlen.
  - destruct (@search_is_bounded SampleFiles.layers (Some SampleFiles.e_acute))
      as (items & Hs & _ & Hshort & _).
    rewrite Hs, (Hshort ltac:(simpl; lia)). reflexivity.
  - discriminate.
Defined.


